(** * Fin-Dept-App: the row codec, the record service and the table anchor

    A shallow embedding of the spreadsheet-backed invoice and credit-note
    engine: [dataService.js] (both copies kept in the repository), the
    document service (table anchor search) and the validation of
    [businessService.js].

    The program is JavaScript running on Google Apps Script.  Its values
    are modelled by the type [value]; numbers are IEEE-754 binary64 values
    ([spec_float] with 53 bits of precision), strings are byte strings
    holding UTF-8, arrays are lists, the [Map]s and the plain object used
    as an index are [gmap]s.  Spreadsheets, the Drive and the script cache
    form the [World] that the operations transform. *)

From Stdlib Require Import ZArith NArith String Ascii List Bool Lia.
From Stdlib Require Import DecimalString DecimalPos.
From Stdlib Require Import Floats.SpecFloat.
From stdpp Require Import gmap strings list.

Local Open Scope string_scope.
Local Open Scope list_scope.

(* ================================================================== *)
(** ** Byte strings *)
(* ================================================================== *)

Module Str.

Definition bytes (s : string) : list ascii := list_ascii_of_string s.
Definition ofBytes (l : list ascii) : string := string_of_list_ascii l.

Definition code (c : ascii) : N := N_of_ascii c.

Definition isDigit (c : ascii) : bool := ((48 <=? code c) && (code c <=? 57))%N.

Definition digitVal (c : ascii) : N := (code c - 48)%N.

(** [\w] of a regular expression without the unicode flag, and [-]. *)
Definition isIdChar (c : ascii) : bool :=
  (isDigit c
   || ((65 <=? code c) && (code c <=? 90))
   || ((97 <=? code c) && (code c <=? 122))
   || (code c =? 95) || (code c =? 45))%N.

(** White space and line terminators of ECMAScript, as UTF-8: the
    number of bytes of the white-space character at the head of the
    list, or [0]. *)
Definition wsLen (l : list ascii) : nat :=
  match map code l with
  | (9 | 10 | 11 | 12 | 13 | 32)%N :: _ => 1
  | 194%N :: 160%N :: _ => 2                                  (* U+00A0 *)
  | 225%N :: 154%N :: 128%N :: _ => 3                         (* U+1680 *)
  | 226%N :: 128%N :: c :: _ =>
      if ((128 <=? c) && (c <=? 138) || (c =? 168) || (c =? 169) || (c =? 175))%N
      then 3 else 0                              (* U+2000-200A, 2028, 2029, 202F *)
  | 226%N :: 129%N :: 159%N :: _ => 3                         (* U+205F *)
  | 227%N :: 128%N :: 128%N :: _ => 3                         (* U+3000 *)
  | 239%N :: 187%N :: 191%N :: _ => 3                         (* U+FEFF *)
  | _ => 0
  end.

Fixpoint trimStartFuel (fuel : nat) (l : list ascii) : list ascii :=
  match fuel with
  | O => l
  | S fuel' =>
      match wsLen l with
      | O => l
      | n => trimStartFuel fuel' (drop n l)
      end
  end.

Definition trimStartBytes (l : list ascii) : list ascii :=
  trimStartFuel (length l) l.

(** Is the whole list white space? *)
Definition allWs (l : list ascii) : bool :=
  match trimStartBytes l with [] => true | _ => false end.

Fixpoint trimEndBytes (l : list ascii) : list ascii :=
  match l with
  | [] => []
  | c :: l' => if allWs l then [] else c :: trimEndBytes l'
  end.

Definition trim (s : string) : string :=
  ofBytes (trimEndBytes (trimStartBytes (bytes s))).

Definition isEmpty (s : string) : bool :=
  match s with EmptyString => true | _ => false end.

Fixpoint prefixBytes (p l : list ascii) : bool :=
  match p, l with
  | [], _ => true
  | a :: p', b :: l' => if Ascii.eqb a b then prefixBytes p' l' else false
  | _ :: _, [] => false
  end.

Fixpoint includesBytes (sub l : list ascii) : bool :=
  prefixBytes sub l ||
  match l with
  | [] => false
  | _ :: l' => includesBytes sub l'
  end.

(** [s.includes(sub)] *)
Definition includes (s sub : string) : bool :=
  includesBytes (bytes sub) (bytes s).

(** [s.split(sep)] for a separator of one character. *)
Fixpoint splitBytes (sep : ascii) (cur : list ascii) (l : list ascii)
  : list (list ascii) :=
  match l with
  | [] => [rev cur]
  | c :: l' =>
      if Ascii.eqb c sep then rev cur :: splitBytes sep [] l'
      else splitBytes sep (c :: cur) l'
  end.

Definition split (sep : ascii) (s : string) : list string :=
  map ofBytes (splitBytes sep [] (bytes s)).

(** The longest prefix of characters satisfying [p], and the rest. *)
Fixpoint span (p : ascii -> bool) (l : list ascii) : list ascii * list ascii :=
  match l with
  | c :: l' =>
      if p c then let '(a, b) := span p l' in (c :: a, b) else ([], l)
  | [] => ([], [])
  end.

(** [s.match(/[-\w]{25,}/)]: the leftmost run of at least [n]
    identifier characters, taken as far as it goes. *)
Fixpoint firstRunFuel (fuel n : nat) (l : list ascii) : option (list ascii) :=
  match fuel with
  | O => None
  | S fuel' =>
      match l with
      | [] => None
      | c :: l' =>
          let '(run, rest) := span isIdChar l in
          if (n <=? length run)%nat then Some run
          else match run with
               | [] => firstRunFuel fuel' n l'
               | _ => firstRunFuel fuel' n rest
               end
      end
  end.

Definition firstRun (n : nat) (s : string) : option string :=
  ofBytes <$> firstRunFuel (S (String.length s)) n (bytes s).

Definition ofN (n : N) : string := NilZero.string_of_uint (N.to_uint n).
Definition ofNat (n : nat) : string := ofN (N.of_nat n).

End Str.

(* ================================================================== *)
(** ** Numbers: IEEE-754 binary64 *)
(* ================================================================== *)

Module Num.

Definition prec : Z := 53.
Definition emax : Z := 1024.

Abbreviation number := spec_float.

Definition mul : number -> number -> number := SFmul prec emax.
Definition add : number -> number -> number := SFadd prec emax.
Definition sub : number -> number -> number := SFsub prec emax.
Definition div : number -> number -> number := SFdiv prec emax.
Definition eqb : number -> number -> bool := SFeqb.
Definition NaN : number := S754_nan.
Definition zero : number := S754_zero false.

Definition isNaN (x : number) : bool :=
  match x with S754_nan => true | _ => false end.

Definition ofZ (z : Z) : number := binary_normalize prec emax z 0 false.

(** The number nearest to [m * 10^e] (ties to even), signed. *)
Definition ofDecimal (neg : bool) (m : N) (e : Z) : number :=
  match m with
  | N0 => S754_zero neg
  | Npos p =>
      if (0 <=? e)%Z
      then binary_round prec emax neg (Z.to_pos (Zpos p * 10 ^ e)) 0
      else SFdiv prec emax (S754_finite neg p 0)
                           (S754_finite false (Z.to_pos (10 ^ (- e))) 0)
  end.

Definition digitsOf (n : Z) : string := Str.ofN (Z.to_N n).

Definition zeros (n : Z) : string :=
  Str.ofBytes (replicate (Z.to_nat n) "0"%char).

(** The exact value of a finite number as a fraction [P / Q]. *)
Definition ratio (m : positive) (e : Z) : Z * Z :=
  if (0 <=? e)%Z then (Zpos m * 2 ^ e, 1)%Z else (Zpos m, 2 ^ (- e))%Z.

(** *** [Number.prototype.toFixed] *)

Definition fixedDigits (fd : nat) (n : Z) : string :=
  let d := digitsOf n in
  match fd with
  | O => d
  | _ =>
      let d' := zeros (Z.of_nat (S fd) - Z.of_nat (String.length d)) +:+ d in
      let k := (String.length d' - fd)%nat in
      substring 0 k d' +:+ "." +:+ substring k fd d'
  end.

(** *** [Number::toString], radix 10: the shortest digits that read
    back as the same number. *)

Fixpoint decExpDown (fuel : nat) (P Q n : Z) : Z :=
  match fuel with
  | O => n
  | S f => if (Q <=? P)%Z then n else decExpDown f (10 * P)%Z Q (n - 1)%Z
  end.

(** [n] with [10^(n-1) <= P/Q < 10^n]. *)
Definition decExp (P Q : Z) : Z :=
  if (Q <=? P)%Z then Z.of_nat (String.length (digitsOf (P / Q)))
  else decExpDown 400 (10 * P)%Z Q 0%Z.

Definition readsBack (x : number) (s k n : Z) : bool :=
  eqb (ofDecimal false (Z.to_N s) (n - k)) x.

Fixpoint shortest (fuel : nat) (k : Z) (x : number) (P Q n : Z) : string * Z :=
  let '(P', Q') :=
    if (0 <=? k - n)%Z then (P * 10 ^ (k - n), Q)%Z else (P, Q * 10 ^ (n - k))%Z in
  let lo := (P' / Q')%Z in
  let hi := (lo + 1)%Z in
  let okLo := readsBack x lo k n in
  let okHi := readsBack x hi k n in
  let r := (2 * (P' - lo * Q'))%Z in
  let give s := if (s =? 10 ^ k)%Z then ("1", n + 1)%Z else (digitsOf s, n) in
  match fuel with
  | O => give lo
  | S f =>
      if okLo && okHi then
        give (if (r <? Q')%Z then lo
              else if (Q' <? r)%Z then hi
              else if Z.even lo then lo else hi)
      else if okLo then give lo
      else if okHi then give hi
      else shortest f (k + 1)%Z x P Q n
  end.

Definition formatDigits (d : string) (n : Z) : string :=
  let k := Z.of_nat (String.length d) in
  if ((k <=? n) && (n <=? 21))%Z then d +:+ zeros (n - k)
  else if ((0 <? n) && (n <=? 21))%Z then
    substring 0 (Z.to_nat n) d +:+ "." +:+ substring (Z.to_nat n) (Z.to_nat (k - n)) d
  else if ((-6 <? n) && (n <=? 0))%Z then "0." +:+ zeros (- n) +:+ d
  else
    let e := (n - 1)%Z in
    let es := (if (e <? 0)%Z then "-" else "+") +:+ digitsOf (Z.abs e) in
    if (k =? 1)%Z then d +:+ "e" +:+ es
    else substring 0 1 d +:+ "." +:+ substring 1 (Z.to_nat (k - 1)) d +:+ "e" +:+ es.

Definition toString (x : number) : string :=
  match x with
  | S754_nan => "NaN"
  | S754_zero _ => "0"
  | S754_infinity s => if s then "-Infinity" else "Infinity"
  | S754_finite s m e =>
      let '(P, Q) := ratio m e in
      let '(d, n) := shortest 17 1 (S754_finite false m e) P Q (decExp P Q) in
      (if s then "-" else "") +:+ formatDigits d n
  end.

Definition toFixed (fd : nat) (x : number) : string :=
  match x with
  | S754_nan => "NaN"
  | S754_zero _ => fixedDigits fd 0
  | S754_infinity s => if s then "-Infinity" else "Infinity"
  | S754_finite s m e =>
      let '(P, Q) := ratio m e in
      if (10 ^ 21 * Q <=? P)%Z then toString x
      else
        let P' := (P * 10 ^ Z.of_nat fd)%Z in
        let n := ((2 * P' + Q) / (2 * Q))%Z in
        (if s then "-" else "") +:+ fixedDigits fd n
  end.

(** *** Reading numbers *)

Definition digitsToN (l : list ascii) : N :=
  fold_left (fun acc c => (acc * 10 + Str.digitVal c)%N) l 0%N.

Definition scanSign (l : list ascii) : bool * list ascii :=
  match l with
  | "+"%char :: r => (false, r)
  | "-"%char :: r => (true, r)
  | _ => (false, l)
  end.

Definition scanExponent (l : list ascii) : Z * list ascii :=
  match l with
  | ("e" | "E")%char :: r =>
      let '(neg, r1) := scanSign r in
      let '(ds, r2) := Str.span Str.isDigit r1 in
      match ds with
      | [] => (0%Z, l)
      | _ => ((if neg then - Z.of_N (digitsToN ds) else Z.of_N (digitsToN ds))%Z, r2)
      end
  | _ => (0%Z, l)
  end.

(** The longest prefix that is a [StrDecimalLiteral], and what follows it. *)
Definition scanDecimal (l : list ascii) : option (number * list ascii) :=
  let '(neg, l1) := scanSign l in
  if Str.prefixBytes (Str.bytes "Infinity") l1
  then Some (S754_infinity neg, drop 8 l1)
  else
    let '(ip, l2) := Str.span Str.isDigit l1 in
    let '(fp, l3) :=
      match l2 with
      | "."%char :: r =>
          let '(f, r') := Str.span Str.isDigit r in
          match ip, f with
          | [], [] => ([], l2)
          | _, _ => (f, r')
          end
      | _ => ([], l2)
      end in
    match ip ++ fp with
    | [] => None
    | ds =>
        let '(ex, l4) := scanExponent l3 in
        Some (ofDecimal neg (digitsToN ds) (ex - Z.of_nat (length fp)), l4)
    end.

(** [parseFloat] of a string. *)
Definition parseFloat (s : string) : number :=
  match scanDecimal (Str.trimStartBytes (Str.bytes s)) with
  | Some (x, _) => x
  | None => NaN
  end.

Definition radixVal (radix : N) (c : ascii) : option N :=
  let v :=
    if Str.isDigit c then Some (Str.digitVal c)
    else if ((97 <=? Str.code c) && (Str.code c <=? 122))%N then Some (Str.code c - 87)%N
    else if ((65 <=? Str.code c) && (Str.code c <=? 90))%N then Some (Str.code c - 55)%N
    else None in
  match v with
  | Some d => if (d <? radix)%N then Some d else None
  | None => None
  end.

Definition isRadixDigit (radix : N) (c : ascii) : bool :=
  match radixVal radix c with Some _ => true | None => false end.

Definition radixToN (radix : N) (l : list ascii) : N :=
  fold_left (fun acc c => (acc * radix + default 0 (radixVal radix c))%N) l 0%N.

Definition ofSignedN (neg : bool) (n : N) : number :=
  match n with
  | N0 => S754_zero neg
  | Npos p => binary_round prec emax neg p 0
  end.

(** [parseInt] of a string, no radix given. *)
Definition parseInt (s : string) : number :=
  let '(neg, l1) := scanSign (Str.trimStartBytes (Str.bytes s)) in
  let '(radix, l2) :=
    match l1 with
    | "0"%char :: ("x" | "X")%char :: r => (16%N, r)
    | _ => (10%N, l1)
    end in
  match Str.span (isRadixDigit radix) l2 with
  | ([], _) => NaN
  | (ds, _) => ofSignedN neg (radixToN radix ds)
  end.

(** [StringToNumber]: the whole trimmed string has to be a numeric
    literal; the empty string is [0]. *)
Definition ofString (s : string) : number :=
  let l := Str.bytes (Str.trim s) in
  let nonDecimal radix r :=
    match Str.span (isRadixDigit radix) r with
    | ((_ :: _) as ds, []) => ofSignedN false (radixToN radix ds)
    | _ => NaN
    end in
  match l with
  | [] => zero
  | "0"%char :: ("x" | "X")%char :: r => nonDecimal 16%N r
  | "0"%char :: ("o" | "O")%char :: r => nonDecimal 8%N r
  | "0"%char :: ("b" | "B")%char :: r => nonDecimal 2%N r
  | _ =>
      match scanDecimal l with
      | Some (x, []) => x
      | _ => NaN
      end
  end.

End Num.

Import Num.

(* ================================================================== *)
(** ** JavaScript values, exceptions and the host *)
(* ================================================================== *)

(** A cell of a sheet, a field of a submitted form, an argument.  A
    [VDate] carries the time value of a [Date] object.  A [VObject] is
    any other object, a function among them: the code meets the ones
    that every object literal inherits, and each is known by its text. *)
Inductive value : Type :=
| VUndef
| VNull
| VBool (b : bool)
| VNum (x : number)
| VStr (s : string)
| VDate (t : number)
| VObject (text : string).

(** What is thrown.  The texts of [ERROR_MESSAGES] are constants that
    are not part of the sources; each kind is kept apart. *)
Inductive exn : Type :=
| TypeError
| ProjectNotFound (name : value)
| NoTemplateName (name : value)
| NoTemplateFound (name : string)
| NoTemplateId
| NoCreditNoteTemplate
| TableNotFound
| Error (message : string)
| PlatformError (what : string).

Inductive result (A : Type) : Type :=
| Ok (a : A)
| Throw (e : exn).
Arguments Ok {A} a.
Arguments Throw {A} e.

Definition bindR {A B} (r : result A) (k : A -> result B) : result B :=
  match r with
  | Ok a => k a
  | Throw e => Throw e
  end.

Notation "'let?' x ':=' r 'in' k" := (bindR r (fun x => k))
  (at level 10, x pattern, r at level 100, k at level 200).

(** The submitted form: the properties the code reads off [data].  A
    property that is absent is [VUndef]; [items] is an array of arrays
    when present. *)
Record FormData : Type := {
  f_id : value;
  f_projectName : value;
  f_invoiceNumber : value;
  f_creditNoteNumber : value;
  f_clientName : value;
  f_clientAddress : value;
  f_clientNumber : value;
  f_invoiceDate : value;
  f_creditNoteDate : value;
  f_dueDate : value;
  f_tax : value;
  f_subtotal : value;
  f_total : value;
  f_exchangeRate : value;
  f_currency : value;
  f_amountInEUR : value;
  f_bankDetails1 : value;
  f_bankDetails2 : value;
  f_ourCompany : value;
  f_comment : value;
  f_templateId : value;
  f_items : option (list (list value))
}.

(** A document handed back by the template renderer. *)
Record Doc : Type := {
  docId : string;
  docUrl : string;
  docPdf : option string   (* [doc.getAs("application/pdf")], [None] for null *)
}.

(** What the renderer is asked for: the parameters of [createInvoiceDoc]
    and [createCreditNoteDoc] once bound. *)
Record RenderJob : Type := {
  jobCreditNote : bool;
  jobData : FormData;
  jobFormattedDate : value;
  jobFormattedDueDate : value;
  jobSubtotal : value;
  jobTaxRate : value;
  jobTaxAmount : value;
  jobTotalAmount : value;
  jobTemplateId : value;
  jobFolderId : value
}.

(** Column positions of the Lists sheet, [CONFIG.COLUMNS]. *)
Record Columns : Type := {
  PROJECT_NAME : nat;
  CLIENT_NAME : nat;
  CLIENT_NUMBER_PART1 : nat;
  CLIENT_NUMBER_PART2 : nat;
  CLIENT_ADDRESS : nat;
  TAX_RATE : nat;
  CURRENCY : nat;
  PAYMENT_DELAY : nat;
  DAY_TYPE : nat;
  OUR_COMPANY : nat;
  TEMPLATE_NAME : nat;
  BANK_SHORT_1 : nat;
  BANK_SHORT_2 : nat;
  BANK_SHORT_COL : nat;
  BANK_FULL_COL : nat;
  TEMPLATE_NAME_COL : nat;
  TEMPLATE_ID_COL : nat
}.

(** The constants of [CONFIG] that the code reads. *)
Record Config : Type := {
  COLUMNS : Columns;
  CURRENCY_SYMBOLS : gmap string string;
  FOLDER_ID : string;
  INVOICE_TABLE_MAX_ROWS : nat;
  INVOICE_TABLE_COLUMNS_PER_ROW : nat;
  CREDIT_NOTE_TABLE_MAX_ROWS : nat
}.

(** The platform and the helpers that are not part of the sources:
    [CONFIG], the [...FromUtils] functions, [Date], the case mappings of
    [String], [Utilities.getUuid], the document platform behind the
    renderer and the PDF export. *)
Class Host : Type := {
  CONFIG : Config;
  toLowerCase : string -> string;
  toUpperCase : string -> string;
  dateToString : number -> string;             (* [Date.prototype.toString] *)
  newDate : value -> number;                   (* [new Date(v)] *)
  newDateLocal : number -> number -> number -> number;  (* [new Date(y, m, d)] *)
  formatDateFromUtils : value -> value;
  formatDateForInputFromUtils : value -> value;
  calculateTaxAmountFromUtils : value -> value -> value;
  calculateTotalAmountFromUtils : value -> value -> value;
  formatCurrencyFromUtils : value -> value -> value;
  getUuid : nat -> string;
  renderTemplate : RenderJob -> result Doc;
  outputFolder : result unit;          (* [DriveApp.getFolderById(CONFIG.FOLDER_ID)] *)
  createPdfFile : option string -> string -> result string
                                       (* [folder.createFile(pdf).setName(name).getUrl()] *)
}.

(* ================================================================== *)
(** ** Conversions, equality, arrays *)
(* ================================================================== *)

Section Values.
Context `{Host}.

Definition truthy (v : value) : bool :=
  match v with
  | VUndef | VNull => false
  | VBool b => b
  | VNum x =>
      match x with
      | S754_zero _ | S754_nan => false
      | _ => true
      end
  | VStr s => negb (Str.isEmpty s)
  | VDate _ | VObject _ => true
  end.

(** [a || b] *)
Definition orElse (a b : value) : value := if truthy a then a else b.

(** [ToString]: template literals, property keys, the argument of
    [parseFloat]. *)
Definition toKey (v : value) : string :=
  match v with
  | VUndef => "undefined"
  | VNull => "null"
  | VBool b => if b then "true" else "false"
  | VNum x => Num.toString x
  | VStr s => s
  | VDate t => dateToString t
  | VObject text => text
  end.

(** [v.toString()] *)
Definition toStringM (v : value) : result string :=
  match v with
  | VUndef | VNull => Throw TypeError
  | _ => Ok (toKey v)
  end.

(** The receiver of a method of [String] ([trim], [split], [replace]). *)
Definition asString (v : value) : result string :=
  match v with
  | VStr s => Ok s
  | _ => Throw TypeError
  end.

(** [(v || "").toString()]: the receiver is never null or undefined. *)
Definition textOf (v : value) : string := toKey (orElse v (VStr "")).

Definition ofBool (b : bool) : number := if b then Num.ofZ 1 else Num.zero.

(** [ToNumber] *)
Definition toNumber (v : value) : number :=
  match v with
  | VUndef => Num.NaN
  | VNull => Num.zero
  | VBool b => ofBool b
  | VNum x => x
  | VStr s => Num.ofString s
  | VDate t => t
  | VObject text => Num.ofString text
  end.

(** [a === b].  Two [Date] objects that come from different places
    (a cell read from a sheet, an argument) are never the same object;
    an inherited object is the same wherever it is read. *)
Definition strictEq (a b : value) : bool :=
  match a, b with
  | VUndef, VUndef | VNull, VNull => true
  | VBool x, VBool y => Bool.eqb x y
  | VNum x, VNum y => Num.eqb x y
  | VStr s, VStr t => String.eqb s t
  | VObject s, VObject t => String.eqb s t
  | _, _ => false
  end.

(** [a == b] *)
Definition looseEq (a b : value) : bool :=
  match a, b with
  | (VUndef | VNull), (VUndef | VNull) => true
  | (VUndef | VNull), _ | _, (VUndef | VNull) => false
  | VNum x, VNum y => Num.eqb x y
  | VStr s, VStr t => String.eqb s t
  | VBool x, VBool y => Bool.eqb x y
  | VNum x, VStr s | VStr s, VNum x => Num.eqb x (Num.ofString s)
  | VBool x, VNum y | VNum y, VBool x => Num.eqb (ofBool x) y
  | VBool x, VStr s | VStr s, VBool x => Num.eqb (ofBool x) (Num.ofString s)
  | VDate _, VDate _ => false
  | VDate t, VStr s | VStr s, VDate t => String.eqb (dateToString t) s
  | VDate t, VNum x | VNum x, VDate t => Num.eqb (Num.ofString (dateToString t)) x
  | VDate t, VBool x | VBool x, VDate t =>
      Num.eqb (Num.ofString (dateToString t)) (ofBool x)
  | VObject s, VObject t => String.eqb s t
  | VObject _, VDate _ | VDate _, VObject _ => false
  | VObject t, VStr s | VStr s, VObject t => String.eqb t s
  | VObject t, VNum x | VNum x, VObject t => Num.eqb (Num.ofString t) x
  | VObject t, VBool x | VBool x, VObject t => Num.eqb (Num.ofString t) (ofBool x)
  end.

(** [parseFloat(v)], [parseInt(v)] *)
Definition parseFloatV (v : value) : number := Num.parseFloat (toKey v).
Definition parseIntV (v : value) : number := Num.parseInt (toKey v).

(** [x || 0] for a number [x] *)
Definition numOr0 (x : number) : number := if truthy (VNum x) then x else Num.zero.

(** *** Arrays *)

(** [a[i]] *)
Definition getAt (a : list value) (i : nat) : value := default VUndef (a !! i).

(** [a[k]] where [k] is the result of a lookup that may be
    [undefined] (or [-1]): such a key names no element. *)
Definition getIdx (a : list value) (k : option nat) : value :=
  match k with
  | Some i => getAt a i
  | None => VUndef
  end.

(** [a[i] = v]: past the end the array grows, the gap reading [undefined]. *)
Definition store (a : list value) (i : nat) (v : value) : list value :=
  if (i <? length a)%nat then <[i := v]> a
  else a ++ replicate (i - length a) VUndef ++ [v].

(** [a[k] = v] for a key that may be [undefined] or [-1]: then a
    property of that name is set and no element changes. *)
Definition storeIdx (a : list value) (k : option nat) (v : value) : list value :=
  match k with
  | Some i => store a i v
  | None => a
  end.

(** [a.slice(from, to)] *)
Definition slice {A} (a : list A) (from to : nat) : list A :=
  take (to - from) (drop from a).

(** [a.indexOf(v)], [None] for [-1] *)
Fixpoint indexOfFrom (i : nat) (a : list value) (v : value) : option nat :=
  match a with
  | [] => None
  | x :: a' => if strictEq x v then Some i else indexOfFrom (S i) a' v
  end.
Definition indexOf (a : list value) (v : value) : option nat := indexOfFrom 0 a v.

(** [headers.reduce((acc, h, i) => { acc[h] = i; return acc; }, {})] *)
Fixpoint reduceIndex (acc : gmap string nat) (i : nat) (hs : list value)
  : gmap string nat :=
  match hs with
  | [] => acc
  | h :: hs' => reduceIndex (<[toKey h := i]> acc) (S i) hs'
  end.
Definition indexMapOf (headers : list value) : gmap string nat :=
  reduceIndex ∅ 0 headers.

(** A cell that holds something after trimming:
    [cell && cell.toString().trim() !== ""] *)
Definition present (cell : value) : bool :=
  truthy cell && negb (Str.isEmpty (Str.trim (toKey cell))).

(** [!id || id.toString().trim() === ""] *)
Definition blankId (id : value) : bool :=
  negb (truthy id) || Str.isEmpty (Str.trim (toKey id)).

End Values.

(* ================================================================== *)
(** ** Sheets, the Drive, the cache *)
(* ================================================================== *)

Definition Sheet : Type := list (list value).

Definition sheetWidth (s : Sheet) : nat := max_list (length <$> s).

Definition padRow (w : nat) (r : list value) : list value :=
  r ++ replicate (w - length r) (VStr "").

(** [sheet.getDataRange().getValues()]: a rectangle, empty cells read
    as the empty string; a sheet without content reads as one empty cell. *)
Definition getValues (s : Sheet) : list (list value) :=
  match s with
  | [] => [[VStr ""]]
  | _ => padRow (sheetWidth s) <$> s
  end.

(** [sheet.getLastRow()] *)
Definition getLastRow (s : Sheet) : nat := length s.

(** [sheet.getRange(r, 1, 1, cells.length).setValues([cells])], [r]
    counted from 1: the cells replace the start of that row. *)
Definition setRow (r : nat) (cells : list value) (s : Sheet) : Sheet :=
  let s' := s ++ replicate (r - length s) [] in
  match r with
  | O => s
  | S i => alter (fun old => cells ++ drop (length cells) old) i s'
  end.

(** [sheet.getRange(r, c).setValue(v)], both counted from 1. *)
Definition setCell (r c : nat) (v : value) (s : Sheet) : Sheet :=
  let s' := s ++ replicate (r - length s) [] in
  match r, c with
  | S i, S j =>
      alter (fun old => <[j := v]> (old ++ replicate (S j - length old) (VStr ""))) i s'
  | _, _ => s
  end.

(** [sheet.deleteRow(r)], [r] counted from 1. *)
Definition deleteRow (r : nat) (s : Sheet) : Sheet :=
  match r with
  | O => s
  | S i => delete i s
  end.

(** [sheet.appendRow(cells)] *)
Definition appendRow (cells : list value) (s : Sheet) : Sheet := s ++ [cells].

Record World : Type := {
  invoices : Sheet;              (* [CONFIG.SHEETS.INVOICES] *)
  creditNotes : Sheet;           (* [CONFIG.SHEETS.CREDITNOTES] *)
  lists : Sheet;                 (* [CONFIG.SHEETS.LISTS] *)
  drive : gmap string bool;      (* Drive files by id; [true]: in the trash *)
  cache : gmap string string;    (* the script cache *)
  jobs : list RenderJob;         (* what the renderer was asked for, in order *)
  drawn : nat                    (* identifiers drawn so far *)
}.

Inductive SheetName : Type := INVOICES | CREDITNOTES | LISTS.

Definition sheetOf (n : SheetName) (w : World) : Sheet :=
  match n with
  | INVOICES => invoices w
  | CREDITNOTES => creditNotes w
  | LISTS => lists w
  end.

Definition withSheet (n : SheetName) (s : Sheet) (w : World) : World :=
  match n with
  | INVOICES =>
      {| invoices := s; creditNotes := creditNotes w; lists := lists w;
         drive := drive w; cache := cache w; jobs := jobs w; drawn := drawn w |}
  | CREDITNOTES =>
      {| invoices := invoices w; creditNotes := s; lists := lists w;
         drive := drive w; cache := cache w; jobs := jobs w; drawn := drawn w |}
  | LISTS =>
      {| invoices := invoices w; creditNotes := creditNotes w; lists := s;
         drive := drive w; cache := cache w; jobs := jobs w; drawn := drawn w |}
  end.

Definition withDrive (d : gmap string bool) (w : World) : World :=
  {| invoices := invoices w; creditNotes := creditNotes w; lists := lists w;
     drive := d; cache := cache w; jobs := jobs w; drawn := drawn w |}.

Definition withCache (c : gmap string string) (w : World) : World :=
  {| invoices := invoices w; creditNotes := creditNotes w; lists := lists w;
     drive := drive w; cache := c; jobs := jobs w; drawn := drawn w |}.

Definition withJobs (j : list RenderJob) (w : World) : World :=
  {| invoices := invoices w; creditNotes := creditNotes w; lists := lists w;
     drive := drive w; cache := cache w; jobs := j; drawn := drawn w |}.

Definition withDrawn (n : nat) (w : World) : World :=
  {| invoices := invoices w; creditNotes := creditNotes w; lists := lists w;
     drive := drive w; cache := cache w; jobs := jobs w; drawn := n |}.

(** *** Computations that change the world and may throw *)

Definition M (A : Type) : Type := World -> result A * World.

Definition ret {A} (a : A) : M A := fun w => (Ok a, w).
Definition throw {A} (e : exn) : M A := fun w => (Throw e, w).
Definition bindM {A B} (m : M A) (k : A -> M B) : M B :=
  fun w =>
    match m w with
    | (Ok a, w') => k a w'
    | (Throw e, w') => (Throw e, w')
    end.
Definition lift {A} (r : result A) : M A := fun w => (r, w).

(** [try { m } catch (e) { h e }] *)
Definition tryCatch {A} (m : M A) (h : exn -> M A) : M A :=
  fun w =>
    match m w with
    | (Ok a, w') => (Ok a, w')
    | (Throw e, w') => h e w'
    end.

Notation "'let!' x ':=' m 'in' k" := (bindM m (fun x => k))
  (at level 10, x pattern, m at level 100, k at level 200).

Definition readSheet (n : SheetName) : M Sheet := fun w => (Ok (sheetOf n w), w).
Definition writeSheet (n : SheetName) (f : Sheet -> Sheet) : M unit :=
  fun w => (Ok tt, withSheet n (f (sheetOf n w)) w).

(** [CacheService.getScriptCache().remove(key)] *)
Definition cacheRemove (key : string) : M unit :=
  fun w => (Ok tt, withCache (delete key (cache w)) w).

(** [DriveApp.getFileById(id).setTrashed(true)]: throws when there is
    no such file. *)
Definition trashFile (id : string) : M unit :=
  fun w =>
    match drive w !! id with
    | Some _ => (Ok tt, withDrive (<[id := true]> (drive w)) w)
    | None => (Throw (PlatformError "getFileById"), w)
    end.

(* ================================================================== *)
(** ** Config Resolver *)
(* ================================================================== *)

(** The object returned by [getProjectDetailsFromData]. *)
Record ProjectDetails : Type := {
  pd_clientName : value;
  pd_clientNumber : string;
  pd_clientAddress : value;
  pd_tax : value;
  pd_currency : value;
  pd_paymentDelay : number;
  pd_dayType : string;
  pd_bankDetails1 : string;
  pd_bankDetails2 : string;
  pd_ourCompany : value;
  pd_templateId : string
}.

Section ConfigResolver.
Context `{Host}.

Definition col (f : Columns -> nat) : nat := f (COLUMNS CONFIG).

(** What every object literal inherits, each with its text as V8 gives
    it: the methods of [Object.prototype] and, under [__proto__], the
    prototype. *)
Definition inheritedProperties : list (string * string) :=
  [ ("constructor", "function Object() { [native code] }");
    ("__defineGetter__", "function __defineGetter__() { [native code] }");
    ("__defineSetter__", "function __defineSetter__() { [native code] }");
    ("hasOwnProperty", "function hasOwnProperty() { [native code] }");
    ("__lookupGetter__", "function __lookupGetter__() { [native code] }");
    ("__lookupSetter__", "function __lookupSetter__() { [native code] }");
    ("isPrototypeOf", "function isPrototypeOf() { [native code] }");
    ("propertyIsEnumerable", "function propertyIsEnumerable() { [native code] }");
    ("toString", "function toString() { [native code] }");
    ("valueOf", "function valueOf() { [native code] }");
    ("__proto__", "[object Object]");
    ("toLocaleString", "function toLocaleString() { [native code] }") ].

(** [obj[key]] for an object literal whose own properties are the texts
    [own]: the property of its own, else the inherited one, else
    [undefined]. *)
Definition propertyOf (own : gmap string string) (key : string) : value :=
  match own !! key with
  | Some s => VStr s
  | None =>
      match list_to_map (M := gmap string string) inheritedProperties !! key with
      | Some text => VObject text
      | None => VUndef
      end
  end.

(** The state of the scan: the two maps and the project row. *)
Record Scan : Type := {
  templateMap : gmap string string;
  bankMap : gmap string string;
  projectRow : option (list value)
}.

(** One turn of the loop of [getProjectDetailsFromData]
    (dataService.js, lines 35-66). *)
Definition scanRow (projectName : value) (st : Scan) (row : list value)
  : result Scan :=
  let name := Str.trim (textOf (getAt row (col PROJECT_NAME))) in
  let? found :=
    match projectRow st with
    | Some r => Ok (Some r)
    | None =>
        let? p := toStringM projectName in
        Ok (if String.eqb (toLowerCase name) (toLowerCase (Str.trim p))
            then Some row else None)
    end in
  let templateName := Str.trim (textOf (getAt row (col TEMPLATE_NAME_COL))) in
  let templateId := Str.trim (textOf (getAt row (col TEMPLATE_ID_COL))) in
  let tm :=
    if negb (Str.isEmpty templateName) && negb (Str.isEmpty templateId)
    then <[toLowerCase templateName := templateId]> (templateMap st)
    else templateMap st in
  let short := Str.trim (textOf (getAt row (col BANK_SHORT_COL))) in
  let full := Str.trim (textOf (getAt row (col BANK_FULL_COL))) in
  let bm :=
    if negb (Str.isEmpty short) && negb (Str.isEmpty full)
    then <[short := full]> (bankMap st)
    else bankMap st in
  Ok {| templateMap := tm; bankMap := bm; projectRow := found |}.

Fixpoint scanRows (projectName : value) (st : Scan) (rows : list (list value))
  : result Scan :=
  match rows with
  | [] => Ok st
  | row :: rows' =>
      let? st' := scanRow projectName st row in
      scanRows projectName st' rows'
  end.

(** [getProjectDetailsFromData(projectName)] (dataService.js, lines
    24-128), on the values of the Lists sheet. *)
Definition getProjectDetailsFromRows (values : list (list value))
    (projectName : value) : result ProjectDetails :=
  let? st :=
    scanRows projectName
      {| templateMap := ∅; bankMap := ∅; projectRow := None |} (drop 1 values) in
  match projectRow st with
  | None => Throw (ProjectNotFound projectName)
  | Some row =>
      let selectedTemplateName := Str.trim (textOf (getAt row (col TEMPLATE_NAME))) in
      if Str.isEmpty selectedTemplateName then Throw (NoTemplateName projectName)
      else
        match templateMap st !! toLowerCase selectedTemplateName with
        | None => Throw (NoTemplateFound selectedTemplateName)
        | Some selectedTemplateId =>
            if Str.isEmpty selectedTemplateId
            then Throw (NoTemplateFound selectedTemplateName)
            else
              let cell := getAt row (col TAX_RATE) in
              let tax :=
                match cell with
                | VNum x => Num.mul x (Num.ofZ 100)
                | _ => parseFloatV cell
                end in
              let shortBank1 := Str.trim (textOf (getAt row (col BANK_SHORT_1))) in
              let shortBank2 := Str.trim (textOf (getAt row (col BANK_SHORT_2))) in
              let currency := getAt row (col CURRENCY) in
              Ok {|
                pd_clientName := orElse (getAt row (col CLIENT_NAME)) (VStr "");
                pd_clientNumber :=
                  Str.trim
                    (toKey (orElse (getAt row (col CLIENT_NUMBER_PART1)) (VStr ""))
                     +:+ " " +:+
                     toKey (orElse (getAt row (col CLIENT_NUMBER_PART2)) (VStr "")));
                pd_clientAddress := orElse (getAt row (col CLIENT_ADDRESS)) (VStr "");
                pd_tax :=
                  if Num.isNaN tax then VNum Num.zero else VStr (Num.toFixed 0 tax);
                pd_currency :=
                  orElse (propertyOf (CURRENCY_SYMBOLS CONFIG) (toKey currency))
                         currency;
                pd_paymentDelay :=
                  numOr0 (parseIntV (getAt row (col PAYMENT_DELAY)));
                pd_dayType :=
                  toUpperCase (Str.trim (textOf (getAt row (col DAY_TYPE))));
                pd_bankDetails1 := default "" (bankMap st !! shortBank1);
                pd_bankDetails2 := default "" (bankMap st !! shortBank2);
                pd_ourCompany := orElse (getAt row (col OUR_COMPANY)) (VStr "");
                pd_templateId := selectedTemplateId
              |}
        end
  end.

Definition getProjectDetailsFromData (projectName : value) : M ProjectDetails :=
  let! sheet := readSheet LISTS in
  lift (getProjectDetailsFromRows (getValues sheet) projectName).

(** [extractFileIdFromUrl(url)] (dataService.js, lines 598-608) *)
Definition extractFileIdFromUrl (url : value) : result string :=
  match url with
  | VStr s =>
      if Str.isEmpty s then Throw (Error ("Invalid URL provided: " +:+ s))
      else
        match Str.firstRun 25 s with
        | Some id => Ok id
        | None => Throw (Error ("Invalid file URL: " +:+ s))
        end
  | _ => Throw (Error ("Invalid URL provided: " +:+ toKey url))
  end.

(** [getProjectFolderId(projectName)] (document service, lines 303-342) *)
Fixpoint folderIdInRows (projectName : value) (rows : list (list value)) : string :=
  match rows with
  | [] => FOLDER_ID CONFIG
  | row :: rows' =>
      let rowName := Str.trim (textOf (getAt row (col PROJECT_NAME))) in
      if Str.isEmpty rowName || negb (truthy projectName)
      then folderIdInRows projectName rows'
      else if String.eqb (toLowerCase rowName)
                         (toLowerCase (Str.trim (toKey projectName)))
      then
        let folderUrl := Str.trim (textOf (getAt row 12)) in
        match Str.firstRun 25 folderUrl with
        | Some id => id
        | None => FOLDER_ID CONFIG
        end
      else folderIdInRows projectName rows'
  end.

Definition getProjectFolderId (projectName : value) : M string :=
  let! sheet := readSheet LISTS in
  ret (folderIdInRows projectName (drop 1 (getValues sheet))).

End ConfigResolver.

(* ================================================================== *)
(** ** Row Codec *)
(* ================================================================== *)

Section RowCodec.
Context `{Host}.

Definition MAX_ROWS : nat := INVOICE_TABLE_MAX_ROWS CONFIG.
Definition COLUMNS_PER_ROW : nat := INVOICE_TABLE_COLUMNS_PER_ROW CONFIG.

(** *** Headers written into an empty sheet *)

Definition invoiceBaseHeaders : list string :=
  [ "ID"; "Project Name"; "Invoice Number"; "Client Name"; "Client Address";
    "Client Number"; "Invoice Date"; "Due Date"; "Tax Rate (%)"; "Subtotal";
    "Tax Amount"; "Total"; "Exchange Rate"; "Currency"; "Amount in EUR";
    "Bank Details 1"; "Bank Details 2"; "Our Company"; "Comment";
    "Google Doc Link"; "PDF Link" ].

Definition invoiceItemHeaders (i : nat) : list string :=
  [ "Row " +:+ Str.ofNat i +:+ " #";
    "Row " +:+ Str.ofNat i +:+ " Service";
    "Row " +:+ Str.ofNat i +:+ " Period";
    "Row " +:+ Str.ofNat i +:+ " Quantity";
    "Row " +:+ Str.ofNat i +:+ " Rate/hour";
    "Row " +:+ Str.ofNat i +:+ " Amount" ].

Definition invoiceHeaders : list value :=
  VStr <$> (invoiceBaseHeaders ++ concat (invoiceItemHeaders <$> seq 1 MAX_ROWS)).

Definition creditNoteBaseHeaders : list string :=
  [ "ID"; "Project Name"; "CN Number"; "Client Name"; "Client Address";
    "Client Number"; "CN Date"; "Tax Rate (%)"; "Subtotal"; "Tax Amount";
    "Total"; "Exchange Rate"; "Currency"; "Amount in EUR"; "Our Company";
    "Comment"; "Google Doc Link"; "PDF Link" ].

Definition creditNoteItemHeaders (i : nat) : list string :=
  [ "Row " +:+ Str.ofNat i +:+ " #";
    "Row " +:+ Str.ofNat i +:+ " Description";
    "Row " +:+ Str.ofNat i +:+ " Period";
    "Row " +:+ Str.ofNat i +:+ " Amount" ].

Definition creditNoteHeaders : list value :=
  VStr <$> (creditNoteBaseHeaders ++ concat (creditNoteItemHeaders <$> seq 1 20)).

(** *** Items *)

(** [if (r[2]) r[2] = `'${r[2].toString()}`] *)
Definition quotePeriod (r : list value) : list value :=
  if truthy (getAt r 2) then store r 2 (VStr ("'" +:+ toKey (getAt r 2))) else r.

(** [const r = [...row]; r[0] = (i + 1).toString(); (quote the period)] *)
Definition stampItem (i : nat) (row : list value) : list value :=
  quotePeriod (store row 0 (VStr (Str.ofNat (S i)))).

(** The flattened item cells of [processFormFromData],
    [processCreditNoteFormFromData] and of the rows built by headers. *)
Definition stampedCells (items : list (list value)) : list value :=
  concat (imap stampItem items).

(** The flattened item cells of [saveInvoiceData]: the period is
    quoted, the first cell is left as submitted. *)
Definition quotedCells (items : list (list value)) : list value :=
  concat (quotePeriod <$> items).

(** *** Amounts *)

Record Amounts : Type := {
  subtotalNum : number;
  taxRate : number;
  taxAmount : number;
  totalAmount : number
}.

(** [parseFloat(data.subtotal) || 0], [parseFloat(data.tax) || 0],
    [(subtotalNum * taxRate) / 100], [subtotalNum + taxAmount] *)
Definition amountsOf (data : FormData) : Amounts :=
  let s := numOr0 (parseFloatV (f_subtotal data)) in
  let r := numOr0 (parseFloatV (f_tax data)) in
  let t := Num.div (Num.mul s r) (Num.ofZ 100) in
  {| subtotalNum := s; taxRate := r; taxAmount := t; totalAmount := Num.add s t |}.

(** [const [day, month, year] = s.split("/"); new Date(year, month - 1, day)] *)
Definition dueDateOf (s : string) : value :=
  let parts := VStr <$> Str.split "/" s in
  let day := getAt parts 0 in
  let month := getAt parts 1 in
  let year := getAt parts 2 in
  VDate (newDateLocal (toNumber year) (Num.sub (toNumber month) (Num.ofZ 1))
                      (toNumber day)).

(** [data.currency === "$"] *)
Definition isDollar (data : FormData) : bool := strictEq (f_currency data) (VStr "$").

(** *** Encoding: the row of [processFormFromData]
    (dataService.js, lines 385-418) *)
Definition invoiceRow (uniqueId : string) (data : FormData) (due : value)
    (items : list (list value)) : list value :=
  let a := amountsOf data in
  [ VStr uniqueId;
    f_projectName data;
    f_invoiceNumber data;
    f_clientName data;
    f_clientAddress data;
    f_clientNumber data;
    VDate (newDate (f_invoiceDate data));
    due;
    VStr (Num.toFixed 0 (taxRate a));
    VStr (Num.toFixed 2 (subtotalNum a));
    VStr (Num.toFixed 2 (taxAmount a));
    VStr (Num.toFixed 2 (totalAmount a));
    if isDollar data then VStr (Num.toFixed 4 (parseFloatV (f_exchangeRate data)))
    else VStr "";
    f_currency data;
    if isDollar data then VStr (Num.toFixed 2 (parseFloatV (f_amountInEUR data)))
    else VStr "";
    f_bankDetails1 data;
    f_bankDetails2 data;
    orElse (f_ourCompany data) (VStr "");
    orElse (f_comment data) (VStr "");
    VStr "";
    VStr "" ] ++ stampedCells items.

(** The row of [saveInvoiceData] (dataService.js, lines 272-309) *)
Definition savedInvoiceRow (uniqueId : string) (data : FormData) (due : value)
    (items : list (list value)) : list value :=
  let tax := calculateTaxAmountFromUtils (f_subtotal data) (f_tax data) in
  [ VStr uniqueId;
    f_projectName data;
    f_invoiceNumber data;
    f_clientName data;
    f_clientAddress data;
    f_clientNumber data;
    VDate (newDate (f_invoiceDate data));
    due;
    f_tax data;
    f_subtotal data;
    tax;
    calculateTotalAmountFromUtils (f_subtotal data) tax;
    if isDollar data then f_exchangeRate data else VStr "";
    f_currency data;
    if isDollar data then f_amountInEUR data else VStr "";
    f_bankDetails1 data;
    f_bankDetails2 data;
    orElse (f_ourCompany data) (VStr "");
    orElse (f_comment data) (VStr "");
    VStr "";
    VStr "" ] ++ quotedCells items.

(** The row of [processCreditNoteFormFromData]
    (dataService.js, lines 2366-2396) *)
Definition creditNoteRow (uniqueId : string) (data : FormData)
    (items : list (list value)) : list value :=
  let a := amountsOf data in
  [ VStr uniqueId;
    f_projectName data;
    f_creditNoteNumber data;
    f_clientName data;
    f_clientAddress data;
    f_clientNumber data;
    VDate (newDate (f_creditNoteDate data));
    VStr (Num.toFixed 0 (taxRate a));
    VStr (Num.toFixed 2 (subtotalNum a));
    VStr (Num.toFixed 2 (taxAmount a));
    VStr (Num.toFixed 2 (totalAmount a));
    if isDollar data then VStr (Num.toFixed 4 (parseFloatV (f_exchangeRate data)))
    else VStr "";
    f_currency data;
    if isDollar data then VStr (Num.toFixed 2 (parseFloatV (f_amountInEUR data)))
    else VStr "";
    orElse (f_ourCompany data) (VStr "");
    orElse (f_comment data) (VStr "");
    VStr "";
    VStr "" ] ++ stampedCells items.

(** *** Encoding by headers: "Build row exactly by headers" and
    "Items: start from 'Row 1 #' header" (dataService.js, lines
    703-750, and again 1098-1145 and 1265-1311) *)

(** [while (flat.length < capacity) flat.push("")] after
    [if (flat.length > capacity) flat = flat.slice(0, capacity)] *)
Definition fitTo (capacity : nat) (flat : list value) : list value :=
  take capacity flat ++ replicate (capacity - length flat) (VStr "").

(** [for (j = 0; j < capacity; j++) { target = first + j;
     if (target < headers.length) fullRow[target] = flat[j]; }] *)
Fixpoint writeItems (width first j : nat) (flat : list value) (fullRow : list value)
  : list value :=
  match flat with
  | [] => fullRow
  | c :: flat' =>
      writeItems width first (S j) flat'
        (if (first + j <? width)%nat then store fullRow (first + j) c else fullRow)
  end.

Definition rowByHeaders (headers : list value) (id : value) (data : FormData)
    (due : value) (docUrl pdfUrl : string) : list value :=
  let a := amountsOf data in
  let ix := indexMapOf headers in
  let set (name : string) (v : value) (row : list value) :=
    storeIdx row (ix !! name) v in
  let fullRow := replicate (length headers) (VStr "") in
  let fullRow := set "ID" id fullRow in
  let fullRow := set "Project Name" (f_projectName data) fullRow in
  let fullRow := set "Invoice Number" (f_invoiceNumber data) fullRow in
  let fullRow := set "Client Name" (f_clientName data) fullRow in
  let fullRow := set "Client Address" (f_clientAddress data) fullRow in
  let fullRow := set "Client Number" (f_clientNumber data) fullRow in
  let fullRow := set "Invoice Date" (VDate (newDate (f_invoiceDate data))) fullRow in
  let fullRow := set "Due Date" due fullRow in
  let fullRow := set "Tax Rate (%)" (VStr (Num.toFixed 0 (taxRate a))) fullRow in
  let fullRow := set "Subtotal" (VStr (Num.toFixed 2 (subtotalNum a))) fullRow in
  let fullRow := set "Tax Amount" (VStr (Num.toFixed 2 (taxAmount a))) fullRow in
  let fullRow := set "Total" (VStr (Num.toFixed 2 (totalAmount a))) fullRow in
  let fullRow :=
    set "Exchange Rate"
      (if isDollar data
       then VStr (Num.toFixed 4 (parseFloatV (orElse (f_exchangeRate data) (VNum Num.zero))))
       else VStr "") fullRow in
  let fullRow := set "Currency" (f_currency data) fullRow in
  let fullRow :=
    set "Amount in EUR"
      (if isDollar data
       then VStr (Num.toFixed 2 (parseFloatV (orElse (f_amountInEUR data) (VNum Num.zero))))
       else VStr "") fullRow in
  let fullRow := set "Bank Details 1" (f_bankDetails1 data) fullRow in
  let fullRow := set "Bank Details 2" (f_bankDetails2 data) fullRow in
  let fullRow := set "Our Company" (orElse (f_ourCompany data) (VStr "")) fullRow in
  let fullRow := set "Comment" (orElse (f_comment data) (VStr "")) fullRow in
  let fullRow := set "Google Doc Link" (VStr docUrl) fullRow in
  let fullRow := set "PDF Link" (VStr pdfUrl) fullRow in
  let itemsCapacity := (MAX_ROWS * COLUMNS_PER_ROW)%nat in
  let flatItems := fitTo itemsCapacity (stampedCells (default [] (f_items data))) in
  match indexOf headers (VStr "Row 1 #") with
  | Some firstItemIdx => writeItems (length headers) firstItemIdx 0 flatItems fullRow
  | None => fullRow
  end.

(** *** Decoding *)

(** [for (i = 0; i < maxRows; i++) { base = start + i * cols;
     item = row.slice(base, base + cols);
     if (item.some(cell => cell && cell.toString().trim() !== "")) items.push(item); }] *)
Definition parseItems (start cols maxRows : nat) (row : list value)
  : list (list value) :=
  filter (fun item => existsb present item = true)
    ((fun i => slice row (start + i * cols) (start + i * cols + cols)) <$> seq 0 maxRows).

(** The object returned by [getInvoiceDataByIdFromData]. *)
Record InvoiceData : Type := {
  i_projectName : value;
  i_invoiceNumber : value;
  i_clientName : value;
  i_clientAddress : value;
  i_clientNumber : value;
  i_invoiceDate : value;
  i_dueDate : value;
  i_tax : value;
  i_subtotal : value;
  i_total : value;
  i_exchangeRate : value;
  i_currency : value;
  i_amountInEUR : value;
  i_bankDetails1 : value;
  i_bankDetails2 : value;
  i_ourCompany : value;
  i_comment : value;
  i_items : list (list value)
}.

(** The object built from the row found (dataService.js, lines 222-250) *)
Definition decodeInvoiceRow (headers row : list value) : InvoiceData :=
  let ix := indexMapOf headers in
  let get (name : string) := getIdx row (ix !! name) in
  {| i_projectName := get "Project Name";
     i_invoiceNumber := get "Invoice Number";
     i_clientName := get "Client Name";
     i_clientAddress := get "Client Address";
     i_clientNumber := get "Client Number";
     i_invoiceDate := formatDateForInputFromUtils (get "Invoice Date");
     i_dueDate := formatDateForInputFromUtils (get "Due Date");
     i_tax := get "Tax Rate (%)";
     i_subtotal := get "Subtotal";
     i_total := get "Total";
     i_exchangeRate := get "Exchange Rate";
     i_currency := get "Currency";
     i_amountInEUR := get "Amount in EUR";
     i_bankDetails1 := get "Bank Details 1";
     i_bankDetails2 := get "Bank Details 2";
     i_ourCompany := get "Our Company";
     i_comment := get "Comment";
     i_items := parseItems 21 COLUMNS_PER_ROW MAX_ROWS row |}.

(** The first row below the header whose cell in column [k] is
    strictly equal to [id]: the row and its index in the table. *)
Fixpoint findRowFrom (i : nat) (rows : list (list value)) (k : option nat)
    (id : value) : option (nat * list value) :=
  match rows with
  | [] => None
  | row :: rows' =>
      if strictEq (getIdx row k) id then Some (i, row)
      else findRowFrom (S i) rows' k id
  end.

Definition findRow (table : list (list value)) (k : option nat) (id : value)
  : option (nat * list value) :=
  findRowFrom 1 (drop 1 table) k id.

(** [getInvoiceDataByIdFromData(id)] (dataService.js, lines 193-255);
    [None] stands for the empty object [{}]. *)
Definition getInvoiceDataByIdFromData (id : value) : M (option InvoiceData) :=
  if blankId id then ret None
  else
    let! sheet := readSheet INVOICES in
    let data := getValues sheet in
    let headers := default [] (head data) in
    match findRow data (indexMapOf headers !! "ID") id with
    | None => ret None
    | Some (_, row) => ret (Some (decodeInvoiceRow headers row))
    end.

(** The object returned by [getCreditNoteDataByIdFromData]. *)
Record CreditNoteData : Type := {
  c_projectName : value;
  c_creditNoteNumber : value;
  c_clientName : value;
  c_clientAddress : value;
  c_clientNumber : value;
  c_creditNoteDate : value;
  c_tax : value;
  c_subtotal : value;
  c_total : value;
  c_exchangeRate : value;
  c_currency : value;
  c_amountInEUR : value;
  c_ourCompany : value;
  c_comment : value;
  c_items : list (list value)
}.

Definition decodeCreditNoteRow (headers row : list value) : CreditNoteData :=
  let ix := indexMapOf headers in
  let get (name : string) := getIdx row (ix !! name) in
  {| c_projectName := get "Project Name";
     c_creditNoteNumber := get "CN Number";
     c_clientName := get "Client Name";
     c_clientAddress := get "Client Address";
     c_clientNumber := get "Client Number";
     c_creditNoteDate := formatDateForInputFromUtils (get "CN Date");
     c_tax := get "Tax Rate (%)";
     c_subtotal := get "Subtotal";
     c_total := get "Total";
     c_exchangeRate := get "Exchange Rate";
     c_currency := get "Currency";
     c_amountInEUR := get "Amount in EUR";
     c_ourCompany := get "Our Company";
     c_comment := get "Comment";
     c_items := parseItems 18 4 (CREDIT_NOTE_TABLE_MAX_ROWS CONFIG) row |}.

(** [rowId == id || rowId === id || rowId.toString() === id.toString()] *)
Definition sameId (rowId id : value) : result bool :=
  if looseEq rowId id || strictEq rowId id then Ok true
  else
    let? a := toStringM rowId in
    let? b := toStringM id in
    Ok (String.eqb a b).

Fixpoint findRowLoosely (rows : list (list value)) (k : option nat) (id : value)
  : result (option (list value)) :=
  match rows with
  | [] => Ok None
  | row :: rows' =>
      let? same := sameId (getIdx row k) id in
      if same then Ok (Some row) else findRowLoosely rows' k id
  end.

(** [getCreditNoteDataByIdFromData(id)] (dataService.js, lines
    1699-1796); [None] stands for [null]. *)
Definition getCreditNoteDataByIdFromData (id : value) : M (option CreditNoteData) :=
  if blankId id then ret None
  else
    let! sheet := readSheet CREDITNOTES in
    let data := getValues sheet in
    let headers := default [] (head data) in
    match findRowLoosely (drop 1 data) (indexMapOf headers !! "ID") id with
    | Ok (Some row) => ret (Some (decodeCreditNoteRow headers row))
    | Ok None => ret None
    | Throw _ => ret None
    end.

End RowCodec.

(* ================================================================== *)
(** ** Record Service *)
(* ================================================================== *)

(** [{ success: true, docUrl, pdfUrl }] or [{ success: false, message }] *)
Inductive outcome : Type :=
| Success (docUrl pdfUrl : string)
| Failure (e : exn).

(** [{ success: true, note }] or [{ success: false, message }] *)
Inductive deletion : Type :=
| Deleted (note : option string)
| NotDeleted (e : exn).

Section RecordService.
Context `{Host}.

(** [Utilities.getUuid()] *)
Definition drawUuid : M string :=
  fun w => (Ok (getUuid (drawn w)), withDrawn (S (drawn w)) w).

(** The body of the renderer once its parameters are bound: the job
    goes to the document platform, which answers with the document or
    throws; the document is a file of the Drive from then on. *)
Definition render (job : RenderJob) : M Doc :=
  fun w =>
    let w1 := withJobs (jobs w ++ [job]) w in
    match renderTemplate job with
    | Ok d => (Ok d, withDrive (<[docId d := false]> (drive w1)) w1)
    | Throw e => (Throw e, w1)
    end.

(** [createInvoiceDoc(data, formattedDate, formattedDueDate, subtotal,
    taxRate, taxAmount, totalAmount, templateId, folderId)]
    (document service, lines 15-78); [args] are the arguments after
    [data], by position. *)
Definition createInvoiceDoc (data : FormData) (args : list value) : M Doc :=
  let templateId := getAt args 6 in
  if truthy templateId then
    render {| jobCreditNote := false;
              jobData := data;
              jobFormattedDate := getAt args 0;
              jobFormattedDueDate := getAt args 1;
              jobSubtotal := getAt args 2;
              jobTaxRate := getAt args 3;
              jobTaxAmount := getAt args 4;
              jobTotalAmount := getAt args 5;
              jobTemplateId := templateId;
              jobFolderId := getAt args 7 |}
  else throw NoTemplateId.

(** [createCreditNoteDoc(data, formattedDate, subtotal, taxRate,
    taxAmount, totalAmount, templateId, folderId)]
    (document service, lines 356-417) *)
Definition createCreditNoteDoc (data : FormData) (args : list value) : M Doc :=
  let templateId := getAt args 5 in
  if truthy templateId then
    render {| jobCreditNote := true;
              jobData := data;
              jobFormattedDate := getAt args 0;
              jobFormattedDueDate := VUndef;
              jobSubtotal := getAt args 1;
              jobTaxRate := getAt args 2;
              jobTaxAmount := getAt args 3;
              jobTotalAmount := getAt args 4;
              jobTemplateId := templateId;
              jobFolderId := getAt args 6 |}
  else throw NoCreditNoteTemplate.

(** The characters removed from a file name: backslash, slash, colon,
    star, question mark, double quote, angle brackets, bar. *)
Definition unsafeChar (c : ascii) : bool :=
  existsb (N.eqb (Str.code c)) [92; 47; 58; 42; 63; 34; 60; 62; 124]%N.

(** [(v || "")], with those characters removed, trimmed. *)
Definition cleanName (v : value) : result string :=
  let? s := asString (orElse v (VStr "")) in
  Ok (Str.trim (Str.ofBytes (filter (fun c => unsafeChar c = false) (Str.bytes s)))).

(** The export: [doc.getAs("application/pdf")], with the null check
    where the code has one, the output folder, the file name, the file. *)
Definition savePdf (checked : bool) (doc : Doc) (stem : string)
    (company client : value) : M string :=
  if checked && negb (bool_decide (is_Some (docPdf doc)))
  then throw (Error "Failed to generate PDF content from the document.")
  else
    let! _ := lift outputFolder in
    let! cleanCompany := lift (cleanName company) in
    let! cleanClient := lift (cleanName client) in
    lift (createPdfFile (docPdf doc)
            (stem +:+ "_" +:+ cleanCompany +:+ "-" +:+ cleanClient +:+ ".pdf")).

(** [processFormFromData(data)] (dataService.js, lines 322-507): what
    is thrown is thrown again by the handler. *)
Definition processFormFromData (data : FormData) : M (string * string) :=
  let! uniqueId := drawUuid in
  let! sheet := readSheet INVOICES in
  let! _ :=
    (if (getLastRow sheet =? 0)%nat
     then writeSheet INVOICES (appendRow invoiceHeaders) else ret tt) in
  let formattedDate := formatDateFromUtils (f_invoiceDate data) in
  let! dueText := lift (asString (f_dueDate data)) in
  let dueDateObject := dueDateOf dueText in
  let formattedDueDate := formatDateFromUtils dueDateObject in
  let a := amountsOf data in
  match f_items data with
  | None => throw TypeError
  | Some items =>
      let row := invoiceRow uniqueId data dueDateObject items in
      let! sheet := readSheet INVOICES in
      let newRowIndex := S (getLastRow sheet) in
      let! _ := writeSheet INVOICES (setRow newRowIndex row) in
      let! folderId := getProjectFolderId (f_projectName data) in
      let! doc :=
        createInvoiceDoc data
          [ formattedDate; formattedDueDate; VNum (subtotalNum a); VNum (taxRate a);
            VNum (taxAmount a); VNum (totalAmount a); f_templateId data;
            VStr folderId ] in
      let! pdfUrl :=
        savePdf true doc
          (toKey (f_invoiceDate data) +:+ "_Invoice" +:+ toKey (f_invoiceNumber data))
          (f_ourCompany data) (f_clientName data) in
      let! _ := writeSheet INVOICES (setCell newRowIndex 20 (VStr (docUrl doc))) in
      let! _ := writeSheet INVOICES (setCell newRowIndex 21 (VStr pdfUrl)) in
      let! _ := cacheRemove "invoiceList" in
      ret (docUrl doc, pdfUrl)
  end.

(** [saveInvoiceData(data)] (dataService.js, lines 262-320): returns
    [{ newRowIndex, uniqueId }]. *)
Definition saveInvoiceData (data : FormData) : M (nat * string) :=
  let! uniqueId := drawUuid in
  let! dueText := lift (asString (f_dueDate data)) in
  let dueDateObject := dueDateOf dueText in
  match f_items data with
  | None => throw TypeError
  | Some items =>
      let fullRow := savedInvoiceRow uniqueId data dueDateObject items in
      let! sheet := readSheet INVOICES in
      let newRowIndex := S (getLastRow sheet) in
      let! _ := writeSheet INVOICES (setRow newRowIndex fullRow) in
      let! _ := cacheRemove "invoiceList" in
      ret (newRowIndex, uniqueId)
  end.

(** "Delete old Doc/PDF (best effort)":
    [try { if (url) { id = extractFileIdFromUrl(url);
           if (id) DriveApp.getFileById(id).setTrashed(true); } } catch (e) {}] *)
Definition trashOld (url : value) : M unit :=
  tryCatch
    (if truthy url then
       let! id := lift (extractFileIdFromUrl url) in
       if Str.isEmpty id then ret tt else trashFile id
     else ret tt)
    (fun _ => ret tt).

(** [updateInvoiceByIdFromData(id, data)] (dataService.js, lines
    617-761) and, with the credit-note sheet, texts and cache key, the
    earlier [updateCreditNoteByIdFromData(id, data)] (lines 1012-1156),
    which is the same code. *)
Definition updateByHeaders (sheetName : SheetName)
    (invalidId notFound kind cacheKey : string)
    (id : value) (data : FormData) : M outcome :=
  tryCatch
    (if blankId id then ret (Failure (Error invalidId))
     else
       let! sheet := readSheet sheetName in
       let table := getValues sheet in
       let headers := default [] (head table) in
       let indexMap := indexMapOf headers in
       match indexMap !! "ID" with
       | None => throw (Error "ID column not found.")
       | Some idCol =>
           match findRow table (Some idCol) id with
           | None => ret (Failure (Error notFound))
           | Some (rowIndex, row) =>
               let oldDocUrl :=
                 orElse (getIdx row (indexMap !! "Google Doc Link")) (VStr "") in
               let oldPdfUrl :=
                 orElse (getIdx row (indexMap !! "PDF Link")) (VStr "") in
               let! _ := trashOld oldDocUrl in
               let! _ := trashOld oldPdfUrl in
               let formattedDate := formatDateFromUtils (f_invoiceDate data) in
               let! dueText :=
                 lift (asString (orElse (f_dueDate data) (VStr "01/01/1970"))) in
               let dueDateObject := dueDateOf dueText in
               let formattedDueDate := formatDateFromUtils dueDateObject in
               let a := amountsOf data in
               let! details := getProjectDetailsFromData (f_projectName data) in
               let templateId := pd_templateId details in
               if Str.isEmpty templateId then throw NoTemplateId
               else
                 let! folderId := getProjectFolderId (f_projectName data) in
                 let! doc :=
                   createInvoiceDoc data
                     [ formattedDate; formattedDueDate; VNum (subtotalNum a);
                       VNum (taxRate a); VNum (taxAmount a); VNum (totalAmount a);
                       VStr templateId; VStr folderId ] in
                 let! pdfUrl :=
                   savePdf false doc
                     (toKey (f_invoiceDate data) +:+ kind
                      +:+ toKey (f_invoiceNumber data))
                     (f_ourCompany data) (f_clientName data) in
                 let fullRow :=
                   rowByHeaders headers id data dueDateObject (docUrl doc) pdfUrl in
                 let! _ := writeSheet sheetName (setRow (S rowIndex) fullRow) in
                 let! _ := cacheRemove cacheKey in
                 ret (Success (docUrl doc) pdfUrl)
           end
       end)
    (fun e => ret (Failure e)).

Definition updateInvoiceByIdFromData : value -> FormData -> M outcome :=
  updateByHeaders INVOICES "Invalid invoice ID provided" "Invoice not found."
    "_Invoice" "invoiceList".

(** [saveCreditNoteData(data)] (dataService.js, lines 1163-1322) *)
Definition saveCreditNoteData (data : FormData) : M outcome :=
  let! uniqueId := drawUuid in
  let! sheet := readSheet CREDITNOTES in
  let! _ :=
    (if (getLastRow sheet =? 0)%nat
     then writeSheet CREDITNOTES (setRow 1 invoiceHeaders) else ret tt) in
  let! dueText := lift (asString (f_dueDate data)) in
  let dueDateObject := dueDateOf dueText in
  let formattedDate := formatDateFromUtils (f_invoiceDate data) in
  let formattedDueDate := formatDateFromUtils dueDateObject in
  let a := amountsOf data in
  let! details := getProjectDetailsFromData (f_projectName data) in
  let templateId := pd_templateId details in
  if Str.isEmpty templateId then throw NoTemplateId
  else
    let! folderId := getProjectFolderId (f_projectName data) in
    let! doc :=
      createCreditNoteDoc data
        [ formattedDate; formattedDueDate; VNum (subtotalNum a); VNum (taxRate a);
          VNum (taxAmount a); VNum (totalAmount a); VStr templateId; VStr folderId ] in
    let! pdfUrl :=
      savePdf false doc
        (toKey (f_invoiceDate data) +:+ "_CreditNote" +:+ toKey (f_invoiceNumber data))
        (f_ourCompany data) (f_clientName data) in
    let! sheet := readSheet CREDITNOTES in
    let headers := default [] (head (getValues sheet)) in
    let fullRow :=
      rowByHeaders headers (VStr uniqueId) data dueDateObject (docUrl doc) pdfUrl in
    let newRowIndex := S (getLastRow sheet) in
    let! _ := writeSheet CREDITNOTES (setRow newRowIndex fullRow) in
    let! _ := cacheRemove "creditNotesList" in
    ret (Success (docUrl doc) pdfUrl).

(** "Hardcoded template ID as requested" (dataService.js, line 2409) *)
Definition creditNoteTemplateId : string :=
  "1yCKAx3nyIz-L_u3FPSK1zMof5Mo0m2-gsNzl1cCQsuQ".

(** [processCreditNoteFormFromData(data)] (dataService.js, lines
    2307-2488) *)
Definition processCreditNoteFormFromData (data : FormData) : M (string * string) :=
  let! uniqueId := drawUuid in
  let! sheet := readSheet CREDITNOTES in
  let! _ :=
    (if (getLastRow sheet =? 0)%nat
     then writeSheet CREDITNOTES (appendRow creditNoteHeaders) else ret tt) in
  let formattedDate := formatDateFromUtils (f_creditNoteDate data) in
  let a := amountsOf data in
  match f_items data with
  | None => throw TypeError
  | Some items =>
      let row := creditNoteRow uniqueId data items in
      let! sheet := readSheet CREDITNOTES in
      let newRowIndex := S (getLastRow sheet) in
      let! _ := writeSheet CREDITNOTES (setRow newRowIndex row) in
      let! folderId := getProjectFolderId (f_projectName data) in
      let templateId := creditNoteTemplateId in
      let! doc :=
        createCreditNoteDoc data
          [ formattedDate; VNum (subtotalNum a); VNum (taxRate a); VNum (taxAmount a);
            VNum (totalAmount a); VStr templateId; VStr folderId ] in
      let! pdfUrl :=
        savePdf true doc
          (toKey (f_creditNoteDate data) +:+ "_CreditNote"
           +:+ toKey (f_creditNoteNumber data))
          (f_ourCompany data) (f_clientName data) in
      let! _ := writeSheet CREDITNOTES (setCell newRowIndex 17 (VStr (docUrl doc))) in
      let! _ := writeSheet CREDITNOTES (setCell newRowIndex 18 (VStr pdfUrl)) in
      let! _ := cacheRemove "creditNoteList" in
      ret (docUrl doc, pdfUrl)
  end.

(** *** [updateCreditNoteByIdFromData(data)] (dataService.js, lines
    2582-2732) *)

(** [colMap]: the cells taken from the form, by column label. *)
Definition colMap (data : FormData) : gmap string value :=
  list_to_map
    [ ("Project Name", orElse (f_projectName data) (VStr ""));
      ("CN Number", orElse (f_creditNoteNumber data) (VStr ""));
      ("Client Name", orElse (f_clientName data) (VStr ""));
      ("Client Address", orElse (f_clientAddress data) (VStr ""));
      ("Client Number", orElse (f_clientNumber data) (VStr ""));
      ("CN Date",
       if truthy (f_creditNoteDate data)
       then VDate (newDate (f_creditNoteDate data)) else VStr "");
      ("Tax Rate (%)", orElse (f_tax data) (VStr "0"));
      ("Subtotal", orElse (f_subtotal data) (VStr "0"));
      ("Total", orElse (f_total data) (VStr "0"));
      ("Exchange Rate", orElse (f_exchangeRate data) (VStr "1.0000"));
      ("Currency", orElse (f_currency data) (VStr "$"));
      ("Amount in EUR", orElse (f_amountInEUR data) (VStr ""));
      ("Our Company", orElse (f_ourCompany data) (VStr ""));
      ("Comment", orElse (f_comment data) (VStr "")) ].

(** [headers.forEach((header, index) => { ... })]: the mapped value,
    the id, or the value the row already holds. *)
Definition mappedCell (data : FormData) (old : list value) (index : nat)
    (header : value) : value :=
  match colMap data !! toKey header with
  | Some v => v
  | None => if strictEq header (VStr "ID") then f_id data else getAt old index
  end.

(** [data.items.forEach((item, i) => { startCol = 18 + i * 4;
     if (startCol + 3 < headers.length) { row[startCol] = item[0] || ""; ... } })] *)
Fixpoint placeItems (width i : nat) (items : list (list value)) (row : list value)
  : list value :=
  match items with
  | [] => row
  | item :: items' =>
      let startCol := (18 + i * 4)%nat in
      placeItems width (S i) items'
        (if (startCol + 3 <? width)%nat then
           store (store (store (store row startCol (orElse (getAt item 0) (VStr "")))
                               (startCol + 1) (orElse (getAt item 1) (VStr "")))
                        (startCol + 2) (orElse (getAt item 2) (VStr "")))
                 (startCol + 3) (orElse (getAt item 3) (VStr ""))
         else row)
  end.

(** The row before the links are known. *)
Definition mappedRow (headers old : list value) (data : FormData) : list value :=
  placeItems (length headers) 0 (default [] (f_items data))
    (imap (mappedCell data old) headers).

(** [{ ...data, clientName: details.clientName || data.clientName, ... }] *)
Definition withDetails (details : ProjectDetails) (data : FormData) : FormData :=
  {| f_id := f_id data;
     f_projectName := f_projectName data;
     f_invoiceNumber := f_invoiceNumber data;
     f_creditNoteNumber := f_creditNoteNumber data;
     f_clientName := orElse (pd_clientName details) (f_clientName data);
     f_clientAddress := orElse (pd_clientAddress details) (f_clientAddress data);
     f_clientNumber := orElse (VStr (pd_clientNumber details)) (f_clientNumber data);
     f_invoiceDate := f_invoiceDate data;
     f_creditNoteDate := f_creditNoteDate data;
     f_dueDate := f_dueDate data;
     f_tax := orElse (pd_tax details) (f_tax data);
     f_subtotal := f_subtotal data;
     f_total := f_total data;
     f_exchangeRate := f_exchangeRate data;
     f_currency := orElse (pd_currency details) (f_currency data);
     f_amountInEUR := f_amountInEUR data;
     f_bankDetails1 := f_bankDetails1 data;
     f_bankDetails2 := f_bankDetails2 data;
     f_ourCompany := orElse (pd_ourCompany details) (f_ourCompany data);
     f_comment := f_comment data;
     f_templateId := f_templateId data;
     f_items := f_items data |}.

(** The row handed to the sheet: the mapped row, then
    [row[headers.indexOf("Google Doc Link")] = doc.getUrl()] and
    [row[headers.indexOf("PDF Link")] = pdfFile.getUrl()]. *)
Definition linkedRow (headers old : list value) (data : FormData)
    (docUrl pdfUrl : string) : list value :=
  storeIdx
    (storeIdx (mappedRow headers old data)
              (indexOf headers (VStr "Google Doc Link")) (VStr docUrl))
    (indexOf headers (VStr "PDF Link")) (VStr pdfUrl).

(** [sheet.getRange(r, 1, 1, width).setValues([row])]: the platform
    refuses a row whose length is not the width of the range. *)
Definition setRowOfWidth (n : SheetName) (r width : nat) (row : list value) : M unit :=
  if (length row =? width)%nat then writeSheet n (setRow r row)
  else throw (PlatformError "setValues").

Definition updateCreditNoteByIdFromData (data : FormData) : M outcome :=
  tryCatch
    (if negb (truthy (f_id data)) then ret (Failure (Error "Credit note ID is required"))
     else
       let! sheet := readSheet CREDITNOTES in
       let sheetData := getValues sheet in
       let headers := default [] (head sheetData) in
       match indexOf headers (VStr "ID") with
       | None => throw (Error "ID column not found")
       | Some idCol =>
           match findRow sheetData (Some idCol) (f_id data) with
           | None => ret (Failure (Error "Credit note not found"))
           | Some (i, old) =>
               let rowToUpdate := S i in
               let oldDocUrl :=
                 orElse (getIdx old (indexOf headers (VStr "Google Doc Link"))) (VStr "") in
               let oldPdfUrl :=
                 orElse (getIdx old (indexOf headers (VStr "PDF Link"))) (VStr "") in
               let! _ := trashOld oldDocUrl in
               let! _ := trashOld oldPdfUrl in
               let formattedDate := formatDateFromUtils (f_creditNoteDate data) in
               let subtotalNum := parseFloatV (orElse (f_subtotal data) (VNum Num.zero)) in
               let taxRate := parseFloatV (orElse (f_tax data) (VNum Num.zero)) in
               let taxAmount :=
                 calculateTaxAmountFromUtils (VNum subtotalNum) (VNum taxRate) in
               let totalAmount :=
                 calculateTotalAmountFromUtils (VNum subtotalNum) taxAmount in
               let! details := getProjectDetailsFromData (f_projectName data) in
               let templateId := creditNoteTemplateId in
               let! folderId := getProjectFolderId (f_projectName data) in
               let updatedData := withDetails details data in
               let! doc :=
                 createCreditNoteDoc updatedData
                   [ formattedDate; VNum subtotalNum; VNum taxRate; taxAmount;
                     totalAmount; VStr templateId; VStr folderId ] in
               let! pdfUrl :=
                 savePdf false doc
                   (toKey (f_creditNoteDate data) +:+ "_CreditNote"
                    +:+ toKey (f_creditNoteNumber data))
                   (f_ourCompany updatedData) (f_clientName updatedData) in
               let row := linkedRow headers old data (docUrl doc) pdfUrl in
               let! _ := setRowOfWidth CREDITNOTES rowToUpdate (length headers) row in
               let! _ := cacheRemove "creditNoteList" in
               ret (Success (docUrl doc) pdfUrl)
           end
       end)
    (fun e => ret (Failure e)).

(** *** Delete *)

(** One artifact: [if (url && url.trim() !== "") { try { ... } catch
    (err) { deletedNotes.push(msg); } }]; the note when the deletion
    failed. *)
Definition trashArtifact (url : value) (msg : string) : M (list string) :=
  if truthy url then
    let! s := lift (asString url) in
    if Str.isEmpty (Str.trim s) then ret []
    else
      tryCatch
        (let! id := lift (extractFileIdFromUrl url) in
         let! _ := (if Str.isEmpty id then ret tt else trashFile id) in
         ret [])
        (fun _ => ret [msg])
  else ret [].

(** [deletedNotes.length ? deletedNotes.join(" ") : undefined] *)
Definition joinNotes (notes : list string) : option string :=
  match notes with
  | [] => None
  | n :: ns => Some (fold_left (fun acc m => acc +:+ " " +:+ m) ns n)
  end.

(** [deleteInvoiceByIdFromData(id)] (dataService.js, lines 516-596)
    and [deleteCreditNoteByIdFromData(id)], the same code on the other
    sheet. *)
Definition deleteByIdFromData (sheetName : SheetName)
    (invalidId notFound cacheKey : string) (id : value) : M deletion :=
  tryCatch
    (if blankId id then ret (NotDeleted (Error invalidId))
     else
       let! sheet := readSheet sheetName in
       let data := getValues sheet in
       let headers := default [] (head data) in
       let idCol := indexOf headers (VStr "ID") in
       let docLinkCol := indexOf headers (VStr "Google Doc Link") in
       let pdfLinkCol := indexOf headers (VStr "PDF Link") in
       match idCol with
       | None => throw (Error "ID column not found.")
       | Some _ =>
           match findRow data idCol id with
           | None => ret (NotDeleted (Error notFound))
           | Some (i, row) =>
               let rowToDelete := S i in
               let docUrl := orElse (getIdx row docLinkCol) (VStr "") in
               let pdfUrl := orElse (getIdx row pdfLinkCol) (VStr "") in
               let! n1 :=
                 trashArtifact docUrl "Google Doc already deleted or not found." in
               let! n2 := trashArtifact pdfUrl "PDF already deleted or not found." in
               let! _ := writeSheet sheetName (deleteRow rowToDelete) in
               let! _ := cacheRemove cacheKey in
               ret (Deleted (joinNotes (n1 ++ n2)))
           end
       end)
    (fun e => ret (NotDeleted e)).

Definition deleteInvoiceByIdFromData : value -> M deletion :=
  deleteByIdFromData INVOICES "Invalid invoice ID provided" "Invoice not found."
    "invoiceList".

Definition deleteCreditNoteByIdFromData : value -> M deletion :=
  deleteByIdFromData CREDITNOTES "Invalid credit note ID provided"
    "Credit note not found." "creditNoteList".

End RecordService.

(* ================================================================== *)
(** ** Validation and creation ([businessService.js]) *)
(* ================================================================== *)

Section Business.
Context `{Host}.

(** [{ isValid: errors.length === 0, errors }] *)
Definition isValid (errors : list string) : bool :=
  match errors with [] => true | _ => false end.

(** [validateInvoiceData(data)] (businessService.js, lines 126-167):
    the errors. *)
Definition validateInvoiceData (data : FormData) : list string :=
  let required (f : string * value) :=
    if blankId (snd f) then [fst f +:+ " is required"] else [] in
  concat (required <$>
    [ ("projectName", f_projectName data); ("invoiceNumber", f_invoiceNumber data);
      ("invoiceDate", f_invoiceDate data); ("dueDate", f_dueDate data);
      ("subtotal", f_subtotal data); ("tax", f_tax data) ])
  ++ (if truthy (f_subtotal data) && Num.isNaN (parseFloatV (f_subtotal data))
      then ["Subtotal must be a valid number"] else [])
  ++ (if truthy (f_tax data) && Num.isNaN (parseFloatV (f_tax data))
      then ["Tax rate must be a valid number"] else [])
  ++ (match f_items data with
      | None | Some [] => ["At least one invoice item is required"]
      | Some _ => []
      end)
  ++ (if truthy (f_templateId data) then [] else ["Template ID is required"]).

(** [validateCreditNoteData(data)] (businessService.js, lines 84-119) *)
Definition validateCreditNoteData (data : FormData) : list string :=
  let required (f : string * value) :=
    let blank :=
      negb (truthy (snd f)) ||
      match snd f with
      | VStr s => Str.isEmpty (Str.trim s)
      | _ => false
      end in
    if blank then [fst f +:+ " is required"] else [] in
  concat (required <$>
    [ ("projectName", f_projectName data);
      ("creditNoteNumber", f_creditNoteNumber data);
      ("clientName", f_clientName data); ("clientAddress", f_clientAddress data);
      ("clientNumber", f_clientNumber data);
      ("creditNoteDate", f_creditNoteDate data);
      ("tax", f_tax data); ("subtotal", f_subtotal data); ("total", f_total data);
      ("currency", f_currency data); ("ourCompany", f_ourCompany data) ])
  ++ (match f_items data with
      | None => ["items is required"]
      | Some [] => ["At least one item is required"]
      | Some _ => []
      end).

Definition joinErrors (errors : list string) : string :=
  match errors with
  | [] => ""
  | e :: es => fold_left (fun acc m => acc +:+ ", " +:+ m) es e
  end.

(** [getProjectDetailsWithValidation(projectName)]
    (businessService.js, lines 174-191) *)
Definition getProjectDetailsWithValidation (projectName : value) : M ProjectDetails :=
  let! blank :=
    (if truthy projectName then
       let! s := lift (asString projectName) in ret (Str.isEmpty (Str.trim s))
     else ret true) in
  if blank : bool then throw (Error "Project name is required")
  else
    let! details := getProjectDetailsFromData projectName in
    if Str.isEmpty (pd_templateId details)
    then throw (Error ("No template found for project: " +:+ toKey projectName))
    else ret details.

(** [processInvoiceCreation(data)] (businessService.js, lines 10-39) *)
Definition processInvoiceCreation (data : FormData) : M (string * string) :=
  let errors := validateInvoiceData data in
  if isValid errors then
    let! projectDetails := getProjectDetailsWithValidation (f_projectName data) in
    let! projectFolderId := getProjectFolderId (f_projectName data) in
    if Str.isEmpty projectFolderId
    then throw (Error "Missing folderId for this project.")
    else processFormFromData data
  else throw (Error ("Validation failed: " +:+ joinErrors errors)).

(** [processCreditNoteCreation(data)] (businessService.js, lines 46-77) *)
Definition processCreditNoteCreation (data : FormData) : M (string * string) :=
  let errors := validateCreditNoteData data in
  if isValid errors then
    let! projectDetails := getProjectDetailsWithValidation (f_projectName data) in
    let! projectFolderId := getProjectFolderId (f_projectName data) in
    if Str.isEmpty projectFolderId
    then throw (Error "Missing folderId for this project.")
    else processCreditNoteFormFromData data
  else throw (Error ("Validation failed: " +:+ joinErrors errors)).

End Business.

(* ================================================================== *)
(** ** Template Renderer: the item table *)
(* ================================================================== *)

(** A table of a document: its rows, each a list of cells; a cell is
    the text it was given. *)
Definition Table : Type := list (list value).

Section Renderer.
Context `{Host}.

(** [table.getRow(0).getCell(i).getText().trim()] for every cell of
    the first row; [getRow(0)] throws on a table without rows. *)
Definition headerTexts (t : Table) : result (list string) :=
  match t with
  | [] => Throw (PlatformError "getRow")
  | r :: _ => Ok ((fun c => Str.trim (toKey c)) <$> r)
  end.

Definition textAt (headers : list string) (i : nat) : value :=
  match headers !! i with
  | Some s => VStr s
  | None => VUndef
  end.

(** The test of [updateInvoiceTable] (document service, lines 134-142) *)
Definition invoiceSignature (headers : list string) : bool :=
  (6 <=? length headers)%nat
  && strictEq (textAt headers 0) (VStr "#")
  && strictEq (textAt headers 1) (VStr "Services")
  && strictEq (textAt headers 2) (VStr "Period")
  && strictEq (textAt headers 3) (VStr "Quantity")
  && strictEq (textAt headers 4) (VStr "Rate/hour")
  && strictEq (textAt headers 5) (VStr "Amount").

(** [for (const table of tables) { ... if (...) { targetTable = table;
    break; } }]: the position of the target table. *)
Fixpoint findInvoiceTable (i : nat) (tables : list Table) : result (option nat) :=
  match tables with
  | [] => Ok None
  | t :: tables' =>
      let? headers := headerTexts t in
      if invoiceSignature headers then Ok (Some i)
      else findInvoiceTable (S i) tables'
  end.

(** The cells appended for one item of an invoice. *)
Definition invoiceCells (currency : value) (row : list value) : list value :=
  imap (fun index cell =>
          if (index =? 4)%nat || (index =? 5)%nat
          then (if truthy cell then formatCurrencyFromUtils cell currency else VStr "")
          else orElse cell (VStr "")) row.

(** [updateInvoiceTable(body, data)] (document service, lines
    123-179): the tables of the body afterwards. *)
Definition updateInvoiceTable (tables : list Table) (data : FormData)
  : result (list Table) :=
  let? target := findInvoiceTable 0 tables in
  match target with
  | None => Throw TableNotFound
  | Some i =>
      match f_items data with
      | None => Throw TypeError
      | Some items =>
          Ok (alter (fun t => take 1 t ++ (invoiceCells (f_currency data) <$> items))
                    i tables)
      end
  end.

(** The test of [updateCreditNoteTable] (document service, lines
    490-500) *)
Definition creditNoteSignature (headers : list string) : bool :=
  let low (i : nat) : string := toLowerCase (default "" (headers !! i)) in
  (4 <=? length headers)%nat
  && (strictEq (textAt headers 0) (VStr "#") || strictEq (textAt headers 0) (VStr "№"))
  && (Str.includes (low 1) "description" || Str.includes (low 1) "описание"
      || Str.includes (low 1) "services")
  && (Str.includes (low 2) "period" || Str.includes (low 2) "период")
  && (Str.includes (low 3) "amount" || Str.includes (low 3) "сумма").

Fixpoint findCreditNoteTable (i : nat) (tables : list Table) : option nat :=
  match tables with
  | [] => None
  | t :: tables' =>
      match t with
      | [] => findCreditNoteTable (S i) tables'
      | r :: _ =>
          if creditNoteSignature ((fun c => Str.trim (toKey c)) <$> r) then Some i
          else findCreditNoteTable (S i) tables'
      end
  end.

Definition creditNoteCells (currency : value) (row : list value) : list value :=
  imap (fun index cell =>
          if (index =? 3)%nat
          then (if truthy cell then formatCurrencyFromUtils cell currency else VStr "")
          else orElse cell (VStr "")) row.

(** [updateCreditNoteTable(body, data)] (document service, lines
    457-554): nothing is thrown to the caller. *)
Definition updateCreditNoteTable (tables : list Table) (data : FormData)
  : list Table :=
  match findCreditNoteTable 0 tables with
  | None => tables
  | Some i =>
      alter (fun t =>
               take 1 t ++ (creditNoteCells (f_currency data) <$> default [] (f_items data)))
            i tables
  end.

End Renderer.

(* ================================================================== *)
(** ** The lists of records and their cache *)
(* ================================================================== *)

(** An object, its properties in the order they were set. *)
Definition Obj : Type := list (string * value).

(** [JSON.stringify] and [JSON.parse] on the lists that are cached, and
    whether [cache.put] takes a value: the platform bounds its size and
    throws beyond. *)
Class CacheHost : Type := {
  stringify : list Obj -> string;
  parse : string -> result (list Obj);
  cacheTakes : string -> bool
}.

(** How a cell is listed: [row[i] || ""], [formatDate(row[i])], or
    [row[i] !== undefined && row[i] !== "" ? parseFloat(row[i]).toFixed(2) : ""]. *)
Inductive cellKind : Type := Plain | Dated | Amount.

(** A property of a listed record: its name, the header of its column,
    how the cell is listed. *)
Definition Field : Type := string * string * cellKind.

Section ListService.
Context `{Host} `{CacheHost}.

(** [cache.get(key)], [None] for [null]; an entry lives until it is
    removed or replaced. *)
Definition cacheGet (key : string) : M (option string) :=
  fun w => (Ok (cache w !! key), w).

(** [cache.put(key, v, 300)] *)
Definition cachePut (key v : string) : M unit :=
  fun w =>
    if cacheTakes v then (Ok tt, withCache (<[key := v]> (cache w)) w)
    else (Throw (PlatformError "put"), w).

Definition listedCell (kind : cellKind) (cell : value) : value :=
  match kind with
  | Plain => orElse cell (VStr "")
  | Dated => formatDateFromUtils cell
  | Amount =>
      if negb (strictEq cell VUndef) && negb (strictEq cell (VStr ""))
      then VStr (Num.toFixed 2 (parseFloatV cell))
      else VStr ""
  end.

(** [colIndex] and its check: [for (let key in colIndex) if
    (colIndex[key] === -1) throw new Error(ERROR_MESSAGES.MISSING_COLUMN(key))].
    The text of the error is built outside these sources; the caller
    below catches it and logs it. *)
Fixpoint columnsOf (headers : list value) (fields : list Field)
  : result (list (string * nat * cellKind)) :=
  match fields with
  | [] => Ok []
  | (key, header, kind) :: fields' =>
      match indexOf headers (VStr header) with
      | None => Throw (Error key)
      | Some i =>
          let? rest := columnsOf headers fields' in
          Ok ((key, i, kind) :: rest)
      end
  end.

(** The object made of one row. *)
Definition listedRow (cols : list (string * nat * cellKind)) (row : list value) : Obj :=
  (fun c => (c.1.1, listedCell c.2 (getAt row c.1.2))) <$> cols.

(** [data[0].map((h) => (h || "").toString().trim())] *)
Definition trimmedHeaders (row : list value) : list value :=
  (fun h => VStr (Str.trim (textOf h))) <$> row.

(** The part of the list functions that reads the sheet. *)
Definition readList (sheetName : SheetName) (cacheKey : string)
    (fields : list Field) : M (list Obj) :=
  let! sheet := readSheet sheetName in
  let data := getValues sheet in
  if (length data <? 2)%nat then ret []
  else
    let headers := trimmedHeaders (default [] (head data)) in
    let! cols := lift (columnsOf headers fields) in
    let result := listedRow cols <$> drop 1 data in
    let! _ := cachePut cacheKey (stringify result) in
    ret result.

(** [getInvoiceListFromData()] (dataService.js, lines 1470-1522) and
    [getCreditNoteListFromData()] (lines 1528-1623): the same code on
    two sheets, with two sets of properties. *)
Definition listFromData (sheetName : SheetName) (cacheKey : string)
    (fields : list Field) : M (list Obj) :=
  tryCatch
    (let! cached := cacheGet cacheKey in
     match cached with
     | Some c =>
         if Str.isEmpty c then readList sheetName cacheKey fields
         else lift (parse c)
     | None => readList sheetName cacheKey fields
     end)
    (fun _ => ret []).

Definition invoiceFields : list Field :=
  [ ("id", "ID", Plain); ("projectName", "Project Name", Plain);
    ("invoiceNumber", "Invoice Number", Plain);
    ("invoiceDate", "Invoice Date", Dated); ("dueDate", "Due Date", Dated);
    ("total", "Total", Amount); ("currency", "Currency", Plain) ].

Definition getInvoiceListFromData : M (list Obj) :=
  listFromData INVOICES "invoiceList" invoiceFields.

Definition creditNoteFields : list Field :=
  [ ("id", "ID", Plain); ("projectName", "Project Name", Plain);
    ("creditNoteNumber", "CN Number", Plain);
    ("creditNoteDate", "CN Date", Dated);
    ("total", "Total", Amount); ("currency", "Currency", Plain) ].

Definition getCreditNoteListFromData : M (list Obj) :=
  listFromData CREDITNOTES "creditNoteList" creditNoteFields.

(** [getInvoiceListWithCaching()] (businessService.js, lines 271-294) *)
Definition getInvoiceListWithCaching : M (list Obj) :=
  tryCatch
    (let! cached := cacheGet "invoiceList" in
     let fresh :=
       let! invoiceList := getInvoiceListFromData in
       let! _ := cachePut "invoiceList" (stringify invoiceList) in
       ret invoiceList in
     match cached with
     | Some c => if Str.isEmpty c then fresh else lift (parse c)
     | None => fresh
     end)
    (fun _ => ret []).

End ListService.

(* ================================================================== *)
(** ** A host and a small world for the worked examples *)
(* ================================================================== *)

Module Sample.

Definition lowerChar (c : ascii) : ascii :=
  if ((65 <=? Str.code c) && (Str.code c <=? 90))%N
  then ascii_of_N (Str.code c + 32) else c.

Definition upperChar (c : ascii) : ascii :=
  if ((97 <=? Str.code c) && (Str.code c <=? 122))%N
  then ascii_of_N (Str.code c - 32) else c.

(** Case mapping of the letters of ASCII. *)
Definition lower (s : string) : string := Str.ofBytes (lowerChar <$> Str.bytes s).
Definition upper (s : string) : string := Str.ofBytes (upperChar <$> Str.bytes s).

Definition columns : Columns :=
  {| PROJECT_NAME := 0; CLIENT_NAME := 1; CLIENT_NUMBER_PART1 := 2;
     CLIENT_NUMBER_PART2 := 3; CLIENT_ADDRESS := 4; TAX_RATE := 5; CURRENCY := 6;
     PAYMENT_DELAY := 7; DAY_TYPE := 8; OUR_COMPANY := 9; TEMPLATE_NAME := 10;
     BANK_SHORT_1 := 13; BANK_SHORT_2 := 14; BANK_SHORT_COL := 16;
     BANK_FULL_COL := 17; TEMPLATE_NAME_COL := 19; TEMPLATE_ID_COL := 20 |}.

Definition config : Config :=
  {| COLUMNS := columns;
     CURRENCY_SYMBOLS := <["USD" := "$"]> (<["EUR" := "EUR"]> ∅);
     FOLDER_ID := "folder-000000000000000000000";
     INVOICE_TABLE_MAX_ROWS := 20;
     INVOICE_TABLE_COLUMNS_PER_ROW := 6;
     CREDIT_NOTE_TABLE_MAX_ROWS := 20 |}.

(** The text of a value that is a string, a number or nothing. *)
Definition text (v : value) : string :=
  match v with
  | VStr s => s
  | VNum x => Num.toString x
  | _ => ""
  end.

(** Dates are kept as the digits of their text: [2024-01-15] is 20240115. *)
Definition digitsOnly (s : string) : number :=
  Num.ofZ (Z.of_N (Num.digitsToN (filter (fun c => Str.isDigit c = true) (Str.bytes s)))).

Definition timeOf (v : value) : number :=
  match v with
  | VStr s => digitsOnly s
  | VNum x | VDate x => x
  | _ => Num.NaN
  end.

Definition amount (v : value) : number :=
  match v with
  | VNum x => x
  | VStr s => Num.parseFloat s
  | _ => Num.NaN
  end.

Definition host : Host :=
  {| CONFIG := config;
     toLowerCase := lower;
     toUpperCase := upper;
     dateToString := fun t => "Date " +:+ Num.toString t;
     newDate := timeOf;
     newDateLocal := fun y m d =>
       Num.add (Num.add (Num.mul y (Num.ofZ 10000))
                        (Num.mul (Num.add m (Num.ofZ 1)) (Num.ofZ 100))) d;
     formatDateFromUtils := fun v => VStr (Num.toString (timeOf v));
     formatDateForInputFromUtils := fun v => VStr (Num.toString (timeOf v));
     calculateTaxAmountFromUtils := fun s r =>
       VNum (Num.div (Num.mul (amount s) (amount r)) (Num.ofZ 100));
     calculateTotalAmountFromUtils := fun s t => VNum (Num.add (amount s) (amount t));
     formatCurrencyFromUtils := fun v c => VStr (text c +:+ text v);
     getUuid := fun n => "uuid-" +:+ Str.ofNat n;
     renderTemplate := fun job =>
       Ok {| docId := "document-0000000000000000-" +:+ text (jobTemplateId job);
             docUrl := "https://docs.google.com/document/d/document-0000000000000000-"
                       +:+ text (jobTemplateId job) +:+ "/edit";
             docPdf := Some "pdf" |};
     outputFolder := Ok tt;
     createPdfFile := fun _ name =>
       Ok ("https://drive.google.com/file/d/pdf-file-00000000000000000000/" +:+ name) |}.

(** A row of the Lists sheet. *)
Definition listsRow (name client tax currency company template bank1
                     bankShort bankFull templateName templateId : string)
  : list value :=
  VStr <$> [ name; client; "REG"; "42"; "1 Main Street"; tax; currency; "30"; "bd";
            company; template; ""; ""; bank1; ""; ""; bankShort; bankFull; "";
            templateName; templateId ].

Definition listsSheet : Sheet :=
  [ listsRow "Project" "Client" "Tax" "Currency" "Company" "Template" "Bank"
      "Short" "Full" "Template name" "Template id";
    listsRow "Acme" "Acme Ltd" "15" "USD" "Ours GmbH" "Standard" "B1"
      "B1" "Bank One, IBAN 1" "Standard" "template-acme-standard-0000001";
    listsRow "Beta" "Beta SA" "20" "EUR" "Ours GmbH" "Special" "B1"
      "" "" "Special" "template-beta-special-00000002" ].

Definition world : World :=
  {| invoices := []; creditNotes := []; lists := listsSheet;
     drive := ∅; cache := <["invoiceList" := "[]"]> (<["creditNoteList" := "[]"]> ∅);
     jobs := []; drawn := 0 |}.

Definition noForm : FormData :=
  {| f_id := VUndef; f_projectName := VUndef; f_invoiceNumber := VUndef;
     f_creditNoteNumber := VUndef; f_clientName := VUndef; f_clientAddress := VUndef;
     f_clientNumber := VUndef; f_invoiceDate := VUndef; f_creditNoteDate := VUndef;
     f_dueDate := VUndef; f_tax := VUndef; f_subtotal := VUndef; f_total := VUndef;
     f_exchangeRate := VUndef; f_currency := VUndef; f_amountInEUR := VUndef;
     f_bankDetails1 := VUndef; f_bankDetails2 := VUndef; f_ourCompany := VUndef;
     f_comment := VUndef; f_templateId := VUndef; f_items := None |}.

(** An invoice form: subtotal 100, tax rate 15. *)
Definition invoiceForm (subtotal : string) (items : list (list value)) : FormData :=
  {| f_id := VUndef; f_projectName := VStr "Acme"; f_invoiceNumber := VStr "INV-7";
     f_creditNoteNumber := VUndef; f_clientName := VStr "Acme Ltd";
     f_clientAddress := VStr "1 Main Street"; f_clientNumber := VStr "REG 42";
     f_invoiceDate := VStr "2024-01-15"; f_creditNoteDate := VUndef;
     f_dueDate := VStr "14/02/2024"; f_tax := VStr "15"; f_subtotal := VStr subtotal;
     f_total := VStr "115.00"; f_exchangeRate := VStr "1.0842"; f_currency := VStr "$";
     f_amountInEUR := VStr "106.07"; f_bankDetails1 := VStr "Bank One, IBAN 1";
     f_bankDetails2 := VStr ""; f_ourCompany := VStr "Ours GmbH";
     f_comment := VStr ""; f_templateId := VStr "template-acme-standard-0000001";
     f_items := Some items |}.

Definition item (pos service period quantity rate amount : string) : list value :=
  VStr <$> [pos; service; period; quantity; rate; amount].

Definition oneItem : list (list value) :=
  [ item "7" "Development" "Jan 2024" "10" "10" "100" ].

(** A credit-note form. *)
Definition creditNoteForm (id : value) (subtotal total : string)
    (items : list (list value)) : FormData :=
  {| f_id := id; f_projectName := VStr "Acme"; f_invoiceNumber := VUndef;
     f_creditNoteNumber := VStr "CN-3"; f_clientName := VStr "Acme Ltd";
     f_clientAddress := VStr "1 Main Street"; f_clientNumber := VStr "REG 42";
     f_invoiceDate := VUndef; f_creditNoteDate := VStr "2024-03-01";
     f_dueDate := VUndef; f_tax := VStr "15"; f_subtotal := VStr subtotal;
     f_total := VStr total; f_exchangeRate := VStr "1.0842"; f_currency := VStr "$";
     f_amountInEUR := VStr "106.07"; f_bankDetails1 := VUndef;
     f_bankDetails2 := VUndef; f_ourCompany := VStr "Ours GmbH";
     f_comment := VStr ""; f_templateId := VUndef; f_items := Some items |}.

Definition creditItem (pos description period amount : string) : list value :=
  VStr <$> [pos; description; period; amount].

(** The world after a computation, and its answer. *)
Definition after {A} (m : M A) (w : World) : World := snd (m w).
Definition answer {A} (m : M A) (w : World) : result A := fst (m w).

(** Tables of a template: one whose header has a seventh column, one
    that is no item table, one whose header is the loose variant. *)
Definition sevenColumnTable : Table :=
  [ VStr <$> ["#"; "Services"; "Period"; "Quantity"; "Rate/hour"; "Amount"; "Notes"];
    VStr <$> ["1"; "old"; "old"; "1"; "1"; "1"; ""] ].

Definition priceTable : Table :=
  [ VStr <$> ["Item"; "Price"]; VStr <$> ["Pen"; "2"] ].

Definition looseTable : Table :=
  [ VStr <$> ["#"; "Service DESCRIPTION"; "Billing period"; "Total Amount"];
    VStr <$> ["1"; "old"; "old"; "1"] ].

(** Sheets in which the platform has turned the identifier of a row
    into the number 123. *)
Definition numberedInvoices : Sheet :=
  [ @invoiceHeaders host;
    [ VNum (Num.ofZ 123); VStr "Acme"; VStr "INV-1" ] ].

Definition numberedCreditNotes : Sheet :=
  [ creditNoteHeaders;
    [ VStr "uuid-9"; VStr "Beta"; VStr "CN-1" ];
    [ VNum (Num.ofZ 123); VStr "Acme"; VStr "CN-2" ] ].

Definition numberedWorld : World :=
  {| invoices := numberedInvoices; creditNotes := numberedCreditNotes;
     lists := listsSheet; drive := ∅; cache := ∅; jobs := []; drawn := 0 |}.

(** The world once the sample invoice has been created: its document
    is a file of the Drive, its PDF is not. *)
Definition created : World :=
  after (@processFormFromData host (invoiceForm "100" oneItem)) world.

(** A credit note of subtotal 100 at 15 per cent, and the form that
    updates its subtotal to 200. *)
Definition creditNoteCreated : World :=
  after (@processCreditNoteCreation host
           (creditNoteForm VUndef "100" "115.00"
              [creditItem "1" "Refund" "Jan 2024" "100"])) world.

Definition creditNoteUpdate : FormData :=
  creditNoteForm (VStr "uuid-0") "200" "230.00"
    [creditItem "7" "Refund" "Jan 2024" "200"].

Definition creditNoteUpdated : World :=
  after (@updateCreditNoteByIdFromData host creditNoteUpdate) creditNoteCreated.

(** An invoice form with one item more than the sheet has room for. *)
Definition longForm : FormData :=
  invoiceForm "100"
    (replicate (S (INVOICE_TABLE_MAX_ROWS config))
       (item "7" "Development" "Jan 2024" "10" "10" "100")).

(** The sample invoice form without a template. *)
Definition untemplated : FormData :=
  {| f_id := VUndef; f_projectName := VStr "Acme"; f_invoiceNumber := VStr "INV-7";
     f_creditNoteNumber := VUndef; f_clientName := VStr "Acme Ltd";
     f_clientAddress := VStr "1 Main Street"; f_clientNumber := VStr "REG 42";
     f_invoiceDate := VStr "2024-01-15"; f_creditNoteDate := VUndef;
     f_dueDate := VStr "14/02/2024"; f_tax := VStr "15"; f_subtotal := VStr "100";
     f_total := VStr "115.00"; f_exchangeRate := VStr "1.0842"; f_currency := VStr "$";
     f_amountInEUR := VStr "106.07"; f_bankDetails1 := VStr "Bank One, IBAN 1";
     f_bankDetails2 := VStr ""; f_ourCompany := VStr "Ours GmbH";
     f_comment := VStr ""; f_templateId := VUndef;
     f_items := Some oneItem |}.

(** A cache that takes a hundred kilobytes, with a serializer that
    writes the properties as texts and a parser that reads the empty
    list only. *)
Definition written (l : list Obj) : string :=
  let property (p : string * value) := p.1 +:+ "=" +:+ text p.2 in
  let object (o : Obj) :=
    "{" +:+ fold_right (fun p acc => property p +:+ ";" +:+ acc) "}" o in
  "[" +:+ fold_right (fun o acc => object o +:+ acc) "]" l.

Definition cacheHost : CacheHost :=
  {| stringify := written;
     parse := fun s =>
       if String.eqb s "[]" then Ok [] else Throw (Error "Unexpected token");
     cacheTakes := fun s => (N.of_nat (String.length s) <=? 102400)%N |}.

(** The sample invoice form, for a project that the Lists sheet does
    not have. *)
Definition unlisted : FormData :=
  {| f_id := VUndef; f_projectName := VStr "Gamma"; f_invoiceNumber := VStr "INV-7";
     f_creditNoteNumber := VUndef; f_clientName := VStr "Acme Ltd";
     f_clientAddress := VStr "1 Main Street"; f_clientNumber := VStr "REG 42";
     f_invoiceDate := VStr "2024-01-15"; f_creditNoteDate := VUndef;
     f_dueDate := VStr "14/02/2024"; f_tax := VStr "15"; f_subtotal := VStr "100";
     f_total := VStr "115.00"; f_exchangeRate := VStr "1.0842"; f_currency := VStr "$";
     f_amountInEUR := VStr "106.07"; f_bankDetails1 := VStr "Bank One, IBAN 1";
     f_bankDetails2 := VStr ""; f_ourCompany := VStr "Ours GmbH";
     f_comment := VStr ""; f_templateId := VStr "template-acme-standard-0000001";
     f_items := Some oneItem |}.

(** The sample world with a folder link in the row of project Acme. *)
Definition foldered : World :=
  withSheet LISTS
    (<[1%nat :=
         <[12%nat := VStr "https://drive.google.com/drive/folders/folder-of-acme-0000000000001"]>
           (listsRow "Acme" "Acme Ltd" "15" "USD" "Ours GmbH" "Standard" "B1"
              "B1" "Bank One, IBAN 1" "Standard" "template-acme-standard-0000001")]>
       listsSheet)
    world.

End Sample.

(* ================================================================== *)
(** ** The earlier copy of the credit-note update *)
(* ================================================================== *)

Module Earlier.

(** [updateCreditNoteByIdFromData(id, data)] (dataService.js, lines
    1012-1156): the code of [updateInvoiceByIdFromData] on the
    credit-note sheet. *)
Definition updateCreditNoteByIdFromData `{Host} : value -> FormData -> M outcome :=
  updateByHeaders CREDITNOTES "Invalid credit note ID provided"
    "Credit note not found." "_CreditNote" "creditNotesList".

End Earlier.

(* ================================================================== *)
(** ** Deletion with validation ([businessService.js]) *)
(* ================================================================== *)

Section Cleanup.
Context `{Host}.

(** [!id || id.trim() === ""]; a truthy value that is not a string has
    no [trim]. *)
Definition missingId (id : value) : M bool :=
  if truthy id then
    let! s := lift (asString id) in ret (Str.isEmpty (Str.trim s))
  else ret true.

(** [deleteInvoiceWithCleanup(id)] (businessService.js, lines 198-228);
    the empty object of [getInvoiceDataByIdFromData] has no project
    name. *)
Definition deleteInvoiceWithCleanup (id : value) : M deletion :=
  tryCatch
    (let! missing := missingId id in
     if missing : bool then ret (NotDeleted (Error "Invoice ID is required"))
     else
       let! invoiceData := getInvoiceDataByIdFromData id in
       let known :=
         match invoiceData with
         | Some d => truthy (i_projectName d)
         | None => false
         end in
       if known then deleteInvoiceByIdFromData id
       else ret (NotDeleted (Error "Invoice not found")))
    (fun e => ret (NotDeleted e)).

(** [deleteCreditNoteWithCleanup(id)] (businessService.js, lines
    235-265) *)
Definition deleteCreditNoteWithCleanup (id : value) : M deletion :=
  tryCatch
    (let! missing := missingId id in
     if missing : bool then ret (NotDeleted (Error "Credit note ID is required"))
     else
       let! creditNoteData := getCreditNoteDataByIdFromData id in
       let known :=
         match creditNoteData with
         | Some d => truthy (c_projectName d)
         | None => false
         end in
       if known then deleteCreditNoteByIdFromData id
       else ret (NotDeleted (Error "Credit note not found")))
    (fun e => ret (NotDeleted e)).

End Cleanup.

(* ================================================================== *)
(** ** Links of the contract service *)
(* ================================================================== *)

Section Contracts.

(** [s.match(/marker([a-zA-Z0-9_-]+)/)]: the group captured by the
    leftmost match, the run taken as far as it goes. *)
Fixpoint afterMarker (marker l : list ascii) : option (list ascii) :=
  match l with
  | [] => None
  | _ :: l' =>
      if Str.prefixBytes marker l then
        match fst (Str.span Str.isIdChar (drop (length marker) l)) with
        | [] => afterMarker marker l'
        | run => Some run
        end
      else afterMarker marker l'
  end.

(** [if (!url) return null; const match = url.match(...); return match ?
    match[1] : null;] with [None] for [null]; a truthy value that is
    not a string has no [match]. *)
Definition captureAfter (marker : string) (url : value) : result (option string) :=
  if truthy url then
    match url with
    | VStr s => Ok (Str.ofBytes <$> afterMarker (Str.bytes marker) (Str.bytes s))
    | _ => Throw TypeError
    end
  else Ok None.

(** [extractFolderIdFromUrl(folderUrl)] (dataService.js, lines
    3071-3079) *)
Definition extractFolderIdFromUrl : value -> result (option string) :=
  captureAfter "folders/".

(** [extractDocIdFromUrl(docUrl)] (dataService.js, lines 3086-3094) *)
Definition extractDocIdFromUrl : value -> result (option string) :=
  captureAfter "/d/".

(** The link that [createContractDocument] answers with
    (dataService.js, line 3166). *)
Definition contractDocumentUrl (copiedDocId : string) : string :=
  "https://docs.google.com/document/d/" +:+ copiedDocId +:+ "/edit".

End Contracts.

(* ================================================================== *)
(** ** Vocabulary of the properties *)
(* ================================================================== *)

(** Two names that differ only by letter case and by white space at
    their ends. *)
Definition sameName `{Host} (a b : string) : Prop :=
  toLowerCase (Str.trim a) = toLowerCase (Str.trim b).

(** The header signature of the invoice item table. *)
Definition invoiceLabels : list string :=
  ["#"; "Services"; "Period"; "Quantity"; "Rate/hour"; "Amount"].

(** A table whose first row starts with the six labels, in order, once
    each cell text is trimmed. *)
Definition anchorsInvoice `{Host} (t : Table) : Prop :=
  exists hs, headerTexts t = Ok hs /\ take 6 hs = invoiceLabels.

(** A table that the credit-note renderer passes over: it has no row,
    or its header fails the test. *)
Definition skippedByCreditNote `{Host} (t : Table) : Prop :=
  match t with
  | [] => True
  | r :: _ => creditNoteSignature ((fun c => Str.trim (toKey c)) <$> r) = false
  end.

(** The text [sub] occurs in the text [s]. *)
Definition occursIn (sub s : string) : Prop :=
  exists pre post, s = pre +:+ sub +:+ post.

(** The header labels that the credit-note renderer takes for those of
    its item table: at least four, the first # or the numero sign, the
    next three containing, whatever the letter case, a word for the
    description, for the period, for the amount. *)
Definition looseLabels `{Host} (hs : list string) : Prop :=
  exists h0 h1 h2 h3 more,
    hs = h0 :: h1 :: h2 :: h3 :: more /\
    (h0 = "#" \/ h0 = "№") /\
    (occursIn "description" (toLowerCase h1) \/ occursIn "описание" (toLowerCase h1)
     \/ occursIn "services" (toLowerCase h1)) /\
    (occursIn "period" (toLowerCase h2) \/ occursIn "период" (toLowerCase h2)) /\
    (occursIn "amount" (toLowerCase h3) \/ occursIn "сумма" (toLowerCase h3)).

(** A table that has a first row whose trimmed cell texts are such
    labels. *)
Definition anchorsCreditNote `{Host} (t : Table) : Prop :=
  exists r rest, t = r :: rest /\ looseLabels ((fun c => Str.trim (toKey c)) <$> r).

(** The width of a table as the code reads it: the length of the header
    row of [getValues]. *)
Definition tableWidth (s : Sheet) : nat := length (default [] (head (getValues s))).

(** *** Reasoning about computations *)

(** What holds of the answer and of the world after [m], started in [w]. *)
Definition wp {A} (m : M A) (Q : result A -> World -> Prop) (w : World) : Prop :=
  Q (fst (m w)) (snd (m w)).

(** [m] leaves the part [f] of the world as it was. *)
Definition keeps {X A} (f : World -> X) (m : M A) : Prop :=
  forall w, f (snd (m w)) = f w.

(** Parts of the world that do not depend on the Drive, the cache, the
    jobs, the identifiers drawn, a sheet. *)
Definition apartFromDrive {X} (f : World -> X) : Prop :=
  forall d w, f (withDrive d w) = f w.
Definition apartFromCache {X} (f : World -> X) : Prop :=
  forall c w, f (withCache c w) = f w.
Definition apartFromJobs {X} (f : World -> X) : Prop :=
  forall j w, f (withJobs j w) = f w.
Definition apartFromDrawn {X} (f : World -> X) : Prop :=
  forall n w, f (withDrawn n w) = f w.
Definition apartFromSheet {X} (n : SheetName) (f : World -> X) : Prop :=
  forall s w, f (withSheet n s w) = f w.

(** The three sheets. *)
Definition sheets (w : World) : Sheet * Sheet * Sheet :=
  (invoices w, creditNotes w, lists w).

(** The widths of the three tables are those of [w]. *)
Definition widthsKept (w w' : World) : Prop :=
  tableWidth (invoices w') = tableWidth (invoices w) /\
  tableWidth (creditNotes w') = tableWidth (creditNotes w) /\
  tableWidth (lists w') = tableWidth (lists w).

(** *** Deleting the artifacts of a record *)

(** What becomes of one artifact link on deletion. *)
Inductive cleanup : Type :=
| NothingToDo                  (* the link is blank *)
| Trashed (id : string)        (* the file it names is put in the trash *)
| Unresolved.                  (* it names no file of the Drive *)

Definition cleanupOf (d : gmap string bool) (url : string) : cleanup :=
  if Str.isEmpty url || Str.isEmpty (Str.trim url) then NothingToDo
  else
    match Str.firstRun 25 url with
    | Some id =>
        if Str.isEmpty id then NothingToDo
        else match d !! id with
             | Some _ => Trashed id
             | None => Unresolved
             end
    | None => Unresolved
    end.

(** The Drive afterwards. *)
Definition driveAfter (d : gmap string bool) (url : string) : gmap string bool :=
  match cleanupOf d url with
  | Trashed id => <[id := true]> d
  | _ => d
  end.

(** The note left when the link did not resolve. *)
Definition noteAfter (d : gmap string bool) (url msg : string) : list string :=
  match cleanupOf d url with
  | Unresolved => [msg]
  | _ => []
  end.

(** The note of a deletion: what could not be cleaned up, the document
    before the PDF, in one text; no note when nothing was left. *)
Definition cleanupNote (doc pdf : cleanup) : option string :=
  match doc, pdf with
  | Unresolved, Unresolved =>
      Some "Google Doc already deleted or not found. PDF already deleted or not found."
  | Unresolved, _ => Some "Google Doc already deleted or not found."
  | _, Unresolved => Some "PDF already deleted or not found."
  | _, _ => None
  end.

(** The world once the artifact behind a link has been dealt with. *)
Definition artifactGone (url : string) (w : World) : World :=
  withDrive (driveAfter (drive w) url) w.

(** *** The jobs given to the renderer *)

(** Between [w] and [w'] the renderer was given one job, for a credit
    note, with the template [t] and the output folder [f]. *)
Definition renderedOnce (t f : value) (w w' : World) : Prop :=
  exists j, jobs w' = jobs w ++ [j] /\ jobCreditNote j = true /\
            jobTemplateId j = t /\ jobFolderId j = f.

(** A computation that answered [r] gave the renderer one such job; one
    that threw gave it that job or none. *)
Definition renderedWith {A} (t f : value) (w : World) (r : result A) (w' : World)
  : Prop :=
  match r with
  | Ok _ => renderedOnce t f w w'
  | Throw _ => jobs w' = jobs w \/ renderedOnce t f w w'
  end.

(** *** The items of a row *)

(** A cell that holds something: it is not undefined, null, false, a
    zero, not-a-number or the empty text, and its text is not white space
    only. *)
Definition holdsText `{Host} (cell : value) : Prop :=
  truthy cell = true /\ Str.trim (toKey cell) <> "".

(** The slots of an invoice row in which items are stored, in order. *)
Definition itemSlots `{Host} (row : list value) : list (list value) :=
  (fun i => take COLUMNS_PER_ROW (drop (21 + i * COLUMNS_PER_ROW) row)) <$> seq 0 MAX_ROWS.

(** *** Reading an invoice back *)

(** The header names the base columns at their places. *)
Definition baseIndexed `{Host} (headers : list value) : Prop :=
  forall k name,
    invoiceBaseHeaders !! k = Some name -> indexMapOf headers !! name = Some k.

(** [if (sheet.getLastRow() === 0) sheet.appendRow(headers)]: the
    invoice sheet once [processFormFromData] has looked at it. *)
Definition headed `{Host} (s : Sheet) : Sheet :=
  if (getLastRow s =? 0)%nat then appendRow invoiceHeaders s else s.

(** *** Forms that pass validation *)

(** An invoice form against which [validateInvoiceData] has nothing to
    say. *)
Definition wellFormed `{Host} (data : FormData) : Prop :=
  blankId (f_projectName data) = false /\ blankId (f_invoiceNumber data) = false /\
  blankId (f_invoiceDate data) = false /\ blankId (f_dueDate data) = false /\
  blankId (f_subtotal data) = false /\ blankId (f_tax data) = false /\
  Num.isNaN (parseFloatV (f_subtotal data)) = false /\
  Num.isNaN (parseFloatV (f_tax data)) = false /\
  (exists item items, f_items data = Some (item :: items)) /\
  truthy (f_templateId data) = true.

(** A field of a credit-note form that is truthy and, when it is a
    string, not blank once trimmed. *)
Definition filled `{Host} (v : value) : Prop :=
  truthy v = true /\
  match v with
  | VStr s => Str.isEmpty (Str.trim s) = false
  | _ => True
  end.

Definition wellFormedCreditNote `{Host} (data : FormData) : Prop :=
  Forall filled
    [ f_projectName data; f_creditNoteNumber data; f_clientName data;
      f_clientAddress data; f_clientNumber data; f_creditNoteDate data;
      f_tax data; f_subtotal data; f_total data; f_currency data;
      f_ourCompany data ] /\
  exists item items, f_items data = Some (item :: items).

(** *** Identifiers inside links *)

(** Characters of the class [[-\w]]. *)
Definition idChars (l : list ascii) : Prop :=
  Forall (fun c => Str.isIdChar c = true) l.

(** A text that does not end, or does not start, with a character of
    that class. *)
Definition endsOutside (l : list ascii) : Prop :=
  match last l with Some c => Str.isIdChar c = false | None => True end.

Definition startsOutside (l : list ascii) : Prop :=
  match l with c :: _ => Str.isIdChar c = false | [] => True end.

(** *** The columns of the lists *)

(** Where the header rows that the code writes put the listed
    properties. *)
Definition invoiceColumns : list (string * nat * cellKind) :=
  [ ("id", 0, Plain); ("projectName", 1, Plain); ("invoiceNumber", 2, Plain);
    ("invoiceDate", 6, Dated); ("dueDate", 7, Dated); ("total", 11, Amount);
    ("currency", 13, Plain) ]%nat.

Definition creditNoteColumns : list (string * nat * cellKind) :=
  [ ("id", 0, Plain); ("projectName", 1, Plain); ("creditNoteNumber", 2, Plain);
    ("creditNoteDate", 6, Dated); ("total", 10, Amount); ("currency", 12, Plain) ]%nat.

(** *** The rows of the Lists sheet *)

(** The row carries the project name [s], letter case and outer white
    space apart. *)
Definition namesProject `{Host} (s : string) (row : list value) : Prop :=
  toLowerCase (Str.trim (textOf (getAt row (col PROJECT_NAME))))
  = toLowerCase (Str.trim s).

(** The row gives the template called [k], in lower case, an
    identifier. *)
Definition definesTemplate `{Host} (k : string) (row : list value) : Prop :=
  toLowerCase (Str.trim (textOf (getAt row (col TEMPLATE_NAME_COL)))) = k /\
  Str.isEmpty (Str.trim (textOf (getAt row (col TEMPLATE_NAME_COL)))) = false /\
  Str.isEmpty (Str.trim (textOf (getAt row (col TEMPLATE_ID_COL)))) = false.

(** [row], at position [i], is the first, or the last, of [rows] for
    which [P] holds. *)
Definition firstAt {A} (P : A -> Prop) (rows : list A) (i : nat) (row : A) : Prop :=
  rows !! i = Some row /\ P row /\
  forall j r, j < i -> rows !! j = Some r -> ~ P r.

Definition lastAt {A} (P : A -> Prop) (rows : list A) (i : nat) (row : A) : Prop :=
  rows !! i = Some row /\ P row /\
  forall j r, i < j -> rows !! j = Some r -> ~ P r.

(** *** A sheet and its header *)

(** [if (sheet.getLastRow() === 0) sheet.appendRow(headers)]: a sheet
    once a creation has looked at it. *)
Definition headedWith (hs : list value) (s : Sheet) : Sheet :=
  if (getLastRow s =? 0)%nat then appendRow hs s else s.

(** The base cells of the row that an update builds by headers, in the
    order of the header that [processFormFromData] writes. *)
Definition updatedBase `{Host} (id : value) (data : FormData) (due : value)
    (docUrl pdfUrl : string) : list value :=
  let a := amountsOf data in
  [ id; f_projectName data; f_invoiceNumber data; f_clientName data;
    f_clientAddress data; f_clientNumber data;
    VDate (newDate (f_invoiceDate data)); due;
    VStr (Num.toFixed 0 (taxRate a)); VStr (Num.toFixed 2 (subtotalNum a));
    VStr (Num.toFixed 2 (taxAmount a)); VStr (Num.toFixed 2 (totalAmount a));
    (if isDollar data
     then VStr (Num.toFixed 4 (parseFloatV (orElse (f_exchangeRate data) (VNum Num.zero))))
     else VStr "");
    f_currency data;
    (if isDollar data
     then VStr (Num.toFixed 2 (parseFloatV (orElse (f_amountInEUR data) (VNum Num.zero))))
     else VStr "");
    f_bankDetails1 data; f_bankDetails2 data;
    orElse (f_ourCompany data) (VStr ""); orElse (f_comment data) (VStr "");
    VStr docUrl; VStr pdfUrl ].

(* ================================================================== *)
(** * Properties *)
(* ================================================================== *)

(** ** Config Resolver *)

Section ConfigResolverFacts.
Context `{Host}.

Lemma scanRow_sameName (c v : string) (st : Scan) (row : list value) :
  sameName c v -> scanRow (VStr v) st row = scanRow (VStr c) st row.
Proof.
  intros Hcv. unfold scanRow. cbn [toStringM toKey bindR].
  red in Hcv. now rewrite Hcv.
Qed.

Lemma scanRows_sameName (c v : string) (rows : list (list value)) :
  sameName c v ->
  forall st, scanRows (VStr v) st rows = scanRows (VStr c) st rows.
Proof.
  intros Hcv. induction rows as [|row rows IH]; intros st; [reflexivity|].
  cbn [scanRows]. rewrite (scanRow_sameName c v st row Hcv).
  destruct (scanRow (VStr c) st row); cbn [bindR]; [apply IH | reflexivity].
Qed.

Lemma getProjectDetailsFromRows_sameName
    (values : list (list value)) (c v : string) (pd : ProjectDetails) :
  sameName c v ->
  getProjectDetailsFromRows values (VStr c) = Ok pd ->
  getProjectDetailsFromRows values (VStr v) = Ok pd.
Proof.
  intros Hcv. unfold getProjectDetailsFromRows.
  rewrite (scanRows_sameName c v _ Hcv).
  destruct (scanRows (VStr c) _ _) as [st|e]; cbn [bindR]; [|discriminate].
  destruct (projectRow st) as [row|]; [|discriminate].
  destruct (Str.isEmpty (Str.trim (textOf (getAt row (col TEMPLATE_NAME)))));
    [discriminate|].
  destruct (templateMap st !! _) as [tid|]; [|discriminate].
  destruct (Str.isEmpty tid); [discriminate|].
  exact (fun E => E).
Qed.

(** C8. For every project name [c] that the resolver resolves in the
    reference table, and every name [v] that differs from it only by
    letter case and by white space at its ends, resolving [v] gives the
    configuration that resolving [c] gives, and leaves the world as it
    was. *)
Theorem resolve_name_variant (w w' : World) (c v : string) (pd : ProjectDetails) :
  sameName c v ->
  getProjectDetailsFromData (VStr c) w = (Ok pd, w') ->
  getProjectDetailsFromData (VStr v) w = (Ok pd, w').
Proof.
  intros Hcv. unfold getProjectDetailsFromData, bindM, readSheet, lift.
  cbn [sheetOf]. intros E. injection E as E ->.
  now rewrite (getProjectDetailsFromRows_sameName _ c v pd Hcv E).
Qed.

End ConfigResolverFacts.

Lemma resolve_name_variant_witness :
  @sameName Sample.host "Acme" "  aCME " /\
  exists pd,
    @getProjectDetailsFromData Sample.host (VStr "Acme") Sample.world
      = (Ok pd, Sample.world) /\
    @getProjectDetailsFromData Sample.host (VStr "  aCME ") Sample.world
      = (Ok pd, Sample.world) /\
    pd_templateId pd = "template-acme-standard-0000001".
Proof.
  split; [reflexivity|].
  eexists. split; [vm_compute; reflexivity|]. split.
  - apply (@resolve_name_variant Sample.host Sample.world Sample.world "Acme" "  aCME ");
      vm_compute; reflexivity.
  - reflexivity.
Defined.

(** ** Template Renderer: the item table *)

Section RendererFacts.
Context `{Host}.

Lemma invoiceSignature_spec (hs : list string) :
  invoiceSignature hs = true <-> take 6 hs = invoiceLabels.
Proof.
  unfold invoiceSignature, invoiceLabels, textAt.
  destruct hs as [|h0 [|h1 [|h2 [|h3 [|h4 [|h5 hs]]]]]];
    try (cbn; split; [intros E; discriminate E | intros E; discriminate E]).
  cbn [length Nat.leb lookup list_lookup take strictEq andb].
  rewrite !andb_true_iff, !String.eqb_eq.
  split.
  - intros (((((-> & ->) & ->) & ->) & ->) & ->). reflexivity.
  - intros E. injection E as -> -> -> -> -> ->. repeat split.
Qed.

Lemma findInvoiceTable_none (tables : list Table) (i0 : nat) :
  Forall (fun t => t <> [] /\ ~ anchorsInvoice t) tables ->
  findInvoiceTable i0 tables = Ok None.
Proof.
  intros Hall. revert i0. induction Hall as [|t tables [Hne Hno] _ IH]; intros i0;
    [reflexivity|].
  cbn [findInvoiceTable].
  destruct t as [|r t]; [now destruct Hne|].
  cbn [headerTexts bindR].
  destruct (invoiceSignature _) eqn:Es; [|apply IH].
  exfalso. apply Hno. eexists. split; [reflexivity|].
  now apply invoiceSignature_spec.
Qed.

Lemma findCreditNoteTable_none (tables : list Table) (i0 : nat) :
  Forall skippedByCreditNote tables -> findCreditNoteTable i0 tables = None.
Proof.
  intros Hall. revert i0. induction Hall as [|t tables Hs _ IH]; intros i0;
    [reflexivity|].
  cbn [findCreditNoteTable]. destruct t as [|r t]; [apply IH|].
  cbn [skippedByCreditNote] in Hs. rewrite Hs. apply IH.
Qed.

End RendererFacts.

(** The claim C5 as it is stated fails: a header row of seven columns is
    not the six-column signature, and the invoice renderer selects the
    table all the same and writes the items into it. *)
Lemma seven_columns_selected :
  @headerTexts Sample.host Sample.sevenColumnTable <> Ok invoiceLabels /\
  @updateInvoiceTable Sample.host [Sample.priceTable; Sample.sevenColumnTable]
     (Sample.invoiceForm "100" Sample.oneItem)
  = Ok [ Sample.priceTable;
         [ VStr <$> ["#"; "Services"; "Period"; "Quantity"; "Rate/hour"; "Amount"; "Notes"];
           VStr <$> ["7"; "Development"; "Jan 2024"; "10"; "$10"; "$100"] ] ].
Proof.
  split; [intros E; vm_compute in E; discriminate E | vm_compute; reflexivity].
Qed.

(** ** Reading a record by its identifier *)

Section LookupFacts.
Context `{Host}.

Lemma findRowFrom_none (rows : list (list value)) (k : option nat) (id : value) :
  Forall (fun row => strictEq (getIdx row k) id = false) rows ->
  forall i, findRowFrom i rows k id = None.
Proof.
  induction 1 as [|row rows Hrow _ IH]; intros i; [reflexivity|].
  cbn [findRowFrom]. rewrite Hrow. apply IH.
Qed.

Lemma sameId_number_text (x : number) (s : string) :
  Num.toString x = s -> sameId (VNum x) (VStr s) = Ok true.
Proof.
  intros <-. unfold sameId.
  destruct (looseEq _ _ || strictEq _ _); [reflexivity|].
  cbn [toStringM toKey bindR]. now rewrite String.eqb_refl.
Qed.

Lemma findRowLoosely_first (earlier later : list (list value)) (r : list value)
    (k : option nat) (id : value) :
  Forall (fun row => sameId (getIdx row k) id = Ok false) earlier ->
  sameId (getIdx r k) id = Ok true ->
  findRowLoosely (earlier ++ r :: later) k id = Ok (Some r).
Proof.
  intros Hall Hr. induction Hall as [|row rows Hrow _ IH]; cbn [app findRowLoosely].
  - now rewrite Hr.
  - rewrite Hrow. exact IH.
Qed.

(** C9. A request for the text [s] of a number [x] (the number 123
    stored, the string "123" asked for): the invoice lookup, which
    compares with [===], answers with the empty object when the stored
    identifiers are numbers; the credit-note lookup, which compares with
    [==] and by the texts of the two, returns the first row whose stored
    identifier is [x]. *)
Theorem lookup_by_id_of_other_type (w : World) (x : number) (s : string)
    (earlier later : list (list value)) (r : list value) :
  let ti := getValues (invoices w) in
  let ki := indexMapOf (default [] (head ti)) !! "ID" in
  let tc := getValues (creditNotes w) in
  let kc := indexMapOf (default [] (head tc)) !! "ID" in
  Num.toString x = s ->
  blankId (VStr s) = false ->
  Forall (fun row => exists y, getIdx row ki = VNum y) (drop 1 ti) ->
  drop 1 tc = earlier ++ r :: later ->
  getIdx r kc = VNum x ->
  Forall (fun row => sameId (getIdx row kc) (VStr s) = Ok false) earlier ->
  getInvoiceDataByIdFromData (VStr s) w = (Ok None, w) /\
  getCreditNoteDataByIdFromData (VStr s) w
    = (Ok (Some (decodeCreditNoteRow (default [] (head tc)) r)), w).
Proof.
  intros ti ki tc kc Hs Hb Hnum Hsplit Hr Hearlier. split.
  - unfold getInvoiceDataByIdFromData. rewrite Hb.
    unfold bindM, readSheet, ret, findRow. cbn [sheetOf].
    fold ti. fold ki. rewrite findRowFrom_none; [reflexivity|].
    eapply Forall_impl; [exact Hnum|]. intros row [y ->]. reflexivity.
  - unfold getCreditNoteDataByIdFromData. rewrite Hb.
    unfold bindM, readSheet, ret. cbn [sheetOf].
    fold tc. fold kc. rewrite Hsplit.
    rewrite (findRowLoosely_first earlier later r kc (VStr s) Hearlier);
      [reflexivity|].
    rewrite Hr. now apply sameId_number_text.
Qed.

End LookupFacts.

Lemma lookup_by_id_of_other_type_witness :
  @getInvoiceDataByIdFromData Sample.host (VStr "123") Sample.numberedWorld
    = (Ok None, Sample.numberedWorld) /\
  exists c,
    @getCreditNoteDataByIdFromData Sample.host (VStr "123") Sample.numberedWorld
      = (Ok (Some c), Sample.numberedWorld) /\
    c_creditNoteNumber c = VStr "CN-2".
Proof.
  destruct (@lookup_by_id_of_other_type Sample.host Sample.numberedWorld
              (Num.ofZ 123) "123"
              [padRow 98 [VStr "uuid-9"; VStr "Beta"; VStr "CN-1"]] []
              (padRow 98 [VNum (Num.ofZ 123); VStr "Acme"; VStr "CN-2"]))
    as [Hi Hc].
  - vm_compute. reflexivity.
  - vm_compute. reflexivity.
  - repeat constructor. eexists. vm_compute. reflexivity.
  - vm_compute. reflexivity.
  - vm_compute. reflexivity.
  - repeat constructor.
  - split; [exact Hi|]. eexists. split; [exact Hc|]. vm_compute. reflexivity.
Defined.

(** ** Rows built for an update *)

Section RowFacts.
Context `{Host}.

Lemma length_store (a : list value) (i : nat) (v : value) :
  i < length a -> length (store a i v) = length a.
Proof.
  intros Hi. unfold store.
  destruct (Nat.ltb_spec i (length a)); [apply length_insert | lia].
Qed.

Lemma reduceIndex_bound (hs : list value) :
  forall (acc : gmap string nat) (i0 : nat) (name : string) (i : nat),
    reduceIndex acc i0 hs !! name = Some i ->
    acc !! name = Some i \/ (i0 <= i < i0 + length hs).
Proof.
  induction hs as [|h hs IH]; intros acc i0 name i; cbn [reduceIndex length].
  - now left.
  - intros E. destruct (IH _ _ _ _ E) as [E'|Hb]; [|right; lia].
    destruct (decide (toKey h = name)) as [Heq|Hne].
    + rewrite Heq, lookup_insert_eq in E'. injection E' as <-. right. lia.
    + rewrite lookup_insert_ne in E' by exact Hne. now left.
Qed.

Lemma indexMapOf_bound (hs : list value) (name : string) (i : nat) :
  indexMapOf hs !! name = Some i -> i < length hs.
Proof.
  intros E. destruct (reduceIndex_bound _ _ _ _ _ E) as [E'|Hb]; [|lia].
  now rewrite lookup_empty in E'.
Qed.

Lemma indexOfFrom_bound (a : list value) (v : value) :
  forall i0 i, indexOfFrom i0 a v = Some i -> i0 <= i < i0 + length a.
Proof.
  induction a as [|x a IH]; intros i0 i; cbn [indexOfFrom length]; [discriminate|].
  destruct (strictEq x v).
  - intros E. injection E as <-. lia.
  - intros E. apply IH in E. lia.
Qed.

Lemma indexOf_bound (a : list value) (v : value) (i : nat) :
  indexOf a v = Some i -> i < length a.
Proof. intros E. apply indexOfFrom_bound in E. lia. Qed.

Lemma length_storeIdx (a : list value) (k : option nat) (v : value) (n : nat) :
  length a = n -> (forall i, k = Some i -> i < n) -> length (storeIdx a k v) = n.
Proof.
  intros Ha Hk. destruct k as [i|]; cbn [storeIdx]; [|exact Ha].
  rewrite length_store; [exact Ha|]. rewrite Ha. now apply Hk.
Qed.

Lemma length_writeItems (width first : nat) (flat : list value) :
  forall (j : nat) (fullRow : list value),
    length fullRow = width ->
    length (writeItems width first j flat fullRow) = width.
Proof.
  induction flat as [|c flat IH]; intros j fullRow Hlen; cbn [writeItems];
    [exact Hlen|].
  apply IH. destruct (Nat.ltb_spec (first + j) width); [|exact Hlen].
  rewrite length_store; [exact Hlen | lia].
Qed.

(** The row built by headers has exactly the cells of the header row. *)
Lemma length_rowByHeaders (headers : list value) (id : value) (data : FormData)
    (due : value) (docUrl pdfUrl : string) :
  length (rowByHeaders headers id data due docUrl pdfUrl) = length headers.
Proof.
  unfold rowByHeaders.
  assert (Hfill : forall a name v,
             length a = length headers ->
             length (storeIdx a (indexMapOf headers !! name) v) = length headers).
  { intros a name v Ha. apply length_storeIdx; [exact Ha|].
    intros i. apply indexMapOf_bound. }
  destruct (indexOf headers (VStr "Row 1 #"));
    [apply length_writeItems|]; repeat apply Hfill; apply length_replicate.
Qed.

Lemma length_placeItems (width : nat) (items : list (list value)) :
  forall (i : nat) (row : list value),
    length row = width -> length (placeItems width i items row) = width.
Proof.
  induction items as [|item items IH]; intros i row Hlen; cbn [placeItems];
    [exact Hlen|].
  apply IH. destruct (Nat.ltb_spec (18 + i * 4 + 3) width); [|exact Hlen].
  assert (Hst : forall a k v, length a = width -> k < width ->
                              length (store a k v) = width).
  { intros a k v Ha Hk. rewrite length_store; [exact Ha | now rewrite Ha]. }
  repeat (apply Hst; [|lia]). exact Hlen.
Qed.

(** So has the row of the credit-note update. *)
Lemma length_linkedRow (headers old : list value) (data : FormData)
    (docUrl pdfUrl : string) :
  length (linkedRow headers old data docUrl pdfUrl) = length headers.
Proof.
  unfold linkedRow, mappedRow.
  repeat (apply length_storeIdx; [|intros i; apply indexOf_bound]).
  apply length_placeItems, length_imap.
Qed.

End RowFacts.

(** ** Computations: composition and frame rules *)

Section Logic.

Lemma wp_ret {A} (a : A) (Q : result A -> World -> Prop) (w : World) :
  Q (Ok a) w -> wp (ret a) Q w.
Proof. exact (fun q => q). Qed.

Lemma wp_throw {A} (e : exn) (Q : result A -> World -> Prop) (w : World) :
  Q (Throw e) w -> wp (throw e) Q w.
Proof. exact (fun q => q). Qed.

Lemma wp_lift {A} (r : result A) (Q : result A -> World -> Prop) (w : World) :
  Q r w -> wp (lift r) Q w.
Proof. exact (fun q => q). Qed.

Lemma wp_bind {A B} (m : M A) (k : A -> M B) (Q : result B -> World -> Prop)
    (w : World) :
  wp m (fun r w1 => match r with
                    | Ok a => wp (k a) Q w1
                    | Throw e => Q (Throw e) w1
                    end) w ->
  wp (bindM m k) Q w.
Proof. unfold wp, bindM. now destruct (m w) as [[a|e] w1]. Qed.

Lemma wp_tryCatch {A} (m : M A) (h : exn -> M A) (Q : result A -> World -> Prop)
    (w : World) :
  wp m (fun r w1 => match r with
                    | Ok a => Q (Ok a) w1
                    | Throw e => wp (h e) Q w1
                    end) w ->
  wp (tryCatch m h) Q w.
Proof. unfold wp, tryCatch. now destruct (m w) as [[a|e] w1]. Qed.

Lemma wp_readSheet (n : SheetName) (Q : result Sheet -> World -> Prop) (w : World) :
  Q (Ok (sheetOf n w)) w -> wp (readSheet n) Q w.
Proof. exact (fun q => q). Qed.

Lemma wp_writeSheet (n : SheetName) (f : Sheet -> Sheet)
    (Q : result unit -> World -> Prop) (w : World) :
  Q (Ok tt) (withSheet n (f (sheetOf n w)) w) -> wp (writeSheet n f) Q w.
Proof. exact (fun q => q). Qed.

Lemma wp_keeps {X A} (f : World -> X) (m : M A) (Q : result A -> World -> Prop)
    (w : World) :
  keeps f m -> (forall r w1, f w1 = f w -> Q r w1) -> wp m Q w.
Proof. intros Hk HQ. apply HQ, Hk. Qed.

Lemma wp_run {A} (m : M A) (Q : result A -> World -> Prop) (w : World)
    (r : result A) (w' : World) :
  wp m Q w -> m w = (r, w') -> Q r w'.
Proof. unfold wp. intros HQ E. now rewrite E in HQ. Qed.

Lemma keeps_ret {X A} (f : World -> X) (a : A) : keeps f (ret a).
Proof. now intros w. Qed.

Lemma keeps_throw {X A} (f : World -> X) (e : exn) : keeps f (@throw A e).
Proof. now intros w. Qed.

Lemma keeps_lift {X A} (f : World -> X) (r : result A) : keeps f (lift r).
Proof. now intros w. Qed.

Lemma keeps_readSheet {X} (f : World -> X) (n : SheetName) : keeps f (readSheet n).
Proof. now intros w. Qed.

Lemma keeps_bind {X A B} (f : World -> X) (m : M A) (k : A -> M B) :
  keeps f m -> (forall a, keeps f (k a)) -> keeps f (bindM m k).
Proof.
  intros Hm Hk w. unfold bindM. specialize (Hm w).
  destruct (m w) as [[a|e] w1]; cbn [snd] in *; [|exact Hm].
  now rewrite Hk.
Qed.

Lemma keeps_tryCatch {X A} (f : World -> X) (m : M A) (h : exn -> M A) :
  keeps f m -> (forall e, keeps f (h e)) -> keeps f (tryCatch m h).
Proof.
  intros Hm Hh w. unfold tryCatch. specialize (Hm w).
  destruct (m w) as [[a|e] w1]; cbn [snd] in *; [exact Hm|].
  now rewrite Hh.
Qed.

Lemma keeps_cacheRemove {X} (f : World -> X) (key : string) :
  apartFromCache f -> keeps f (cacheRemove key).
Proof. intros Hf w. apply Hf. Qed.

Lemma keeps_trashFile {X} (f : World -> X) (id : string) :
  apartFromDrive f -> keeps f (trashFile id).
Proof.
  intros Hf w. unfold trashFile. destruct (drive w !! id); [apply Hf | reflexivity].
Qed.

Lemma keeps_writeSheet {X} (f : World -> X) (n : SheetName) (g : Sheet -> Sheet) :
  apartFromSheet n f -> keeps f (writeSheet n g).
Proof. intros Hf w. apply Hf. Qed.

End Logic.

Section Frames.
Context `{Host}.

Lemma keeps_drawUuid {X} (f : World -> X) : apartFromDrawn f -> keeps f drawUuid.
Proof. intros Hf w. apply Hf. Qed.

Lemma keeps_render {X} (f : World -> X) (job : RenderJob) :
  apartFromJobs f -> apartFromDrive f -> keeps f (render job).
Proof.
  intros Hj Hd w. unfold render.
  destruct (renderTemplate job); cbn [snd]; [rewrite Hd|]; apply Hj.
Qed.

Lemma keeps_createInvoiceDoc {X} (f : World -> X) (data : FormData)
    (args : list value) :
  apartFromJobs f -> apartFromDrive f -> keeps f (createInvoiceDoc data args).
Proof.
  intros Hj Hd. unfold createInvoiceDoc.
  destruct (truthy _); [now apply keeps_render | apply keeps_throw].
Qed.

Lemma keeps_createCreditNoteDoc {X} (f : World -> X) (data : FormData)
    (args : list value) :
  apartFromJobs f -> apartFromDrive f -> keeps f (createCreditNoteDoc data args).
Proof.
  intros Hj Hd. unfold createCreditNoteDoc.
  destruct (truthy _); [now apply keeps_render | apply keeps_throw].
Qed.

Lemma keeps_getProjectDetailsFromData {X} (f : World -> X) (name : value) :
  keeps f (getProjectDetailsFromData name).
Proof. now intros w. Qed.

Lemma keeps_getProjectFolderId {X} (f : World -> X) (name : value) :
  keeps f (getProjectFolderId name).
Proof. now intros w. Qed.

Lemma keeps_savePdf {X} (f : World -> X) (checked : bool) (doc : Doc)
    (stem : string) (company client : value) :
  keeps f (savePdf checked doc stem company client).
Proof.
  unfold savePdf. destruct (_ && _); [apply keeps_throw|].
  repeat (apply keeps_bind; [apply keeps_lift | intros ?]). apply keeps_lift.
Qed.

Lemma keeps_trashOld {X} (f : World -> X) (url : value) :
  apartFromDrive f -> keeps f (trashOld url).
Proof.
  intros Hd. unfold trashOld. apply keeps_tryCatch; [|intros e; apply keeps_ret].
  destruct (truthy url); [|apply keeps_ret].
  apply keeps_bind; [apply keeps_lift | intros id].
  destruct (Str.isEmpty id); [apply keeps_ret | now apply keeps_trashFile].
Qed.

Lemma keeps_trashArtifact {X} (f : World -> X) (url : value) (msg : string) :
  apartFromDrive f -> keeps f (trashArtifact url msg).
Proof.
  intros Hd. unfold trashArtifact. destruct (truthy url); [|apply keeps_ret].
  apply keeps_bind; [apply keeps_lift | intros s].
  destruct (Str.isEmpty _); [apply keeps_ret|].
  apply keeps_tryCatch; [|intros e; apply keeps_ret].
  apply keeps_bind; [apply keeps_lift | intros id].
  apply keeps_bind; [|intros ?; apply keeps_ret].
  destruct (Str.isEmpty id); [apply keeps_ret | now apply keeps_trashFile].
Qed.

Lemma keeps_getProjectDetailsWithValidation {X} (f : World -> X) (name : value) :
  keeps f (getProjectDetailsWithValidation name).
Proof.
  unfold getProjectDetailsWithValidation.
  apply keeps_bind.
  - destruct (truthy name); [|apply keeps_ret].
    apply keeps_bind; [apply keeps_lift | intros s; apply keeps_ret].
  - intros [|]; [apply keeps_throw|].
    apply keeps_bind; [apply keeps_getProjectDetailsFromData | intros d].
    destruct (Str.isEmpty _); [apply keeps_throw | apply keeps_ret].
Qed.

End Frames.

(** ** Sheets *)

Section SheetFacts.
Context `{Host}.

Lemma list_alter_as_insert {A} (f : A -> A) (l : list A) (i : nat) (x : A) :
  l !! i = Some x -> alter f i l = <[i := f x]> l.
Proof.
  revert i. induction l as [|y l IH]; intros [|i]; cbn; try discriminate.
  - intros E. now injection E as ->.
  - intros E. f_equal. now apply IH.
Qed.

Lemma max_list_insert_top (ns : list nat) (W : nat) :
  max_list ns <= W ->
  forall i, i < length ns -> max_list (<[i := W]> ns) = W.
Proof.
  induction ns as [|n ns IH]; cbn [max_list length]; intros Hle i Hi; [lia|].
  change (id n) with n in Hle. destruct i as [|i]; cbn.
  - lia.
  - rewrite IH; lia.
Qed.

Lemma sheetWidth_row (s : Sheet) (i : nat) (r : list value) :
  s !! i = Some r -> length r <= sheetWidth s.
Proof.
  intros E. apply max_list_elem_of_le, list_elem_of_fmap.
  exists r. split; [reflexivity|]. eapply list_elem_of_lookup_2, E.
Qed.

Lemma length_padRow (W : nat) (r : list value) :
  length r <= W -> length (padRow W r) = W.
Proof. intros Hle. unfold padRow. rewrite length_app, length_replicate. lia. Qed.

Lemma getValues_nonempty (s : Sheet) :
  s <> [] -> getValues s = padRow (sheetWidth s) <$> s.
Proof. now destruct s. Qed.

Lemma tableWidth_nonempty (s : Sheet) : s <> [] -> tableWidth s = sheetWidth s.
Proof.
  intros Hs. unfold tableWidth. rewrite getValues_nonempty by exact Hs.
  destruct s as [|r s]; [now destruct Hs|]. cbn [fmap list_fmap head default].
  apply length_padRow. now apply (sheetWidth_row (r :: s) 0).
Qed.

Lemma tableWidth_setRow (s : Sheet) (i : nat) (cells : list value) :
  i < length s -> length cells = tableWidth s ->
  tableWidth (setRow (S i) cells s) = tableWidth s.
Proof.
  intros Hi Hlen.
  assert (Hs : s <> []) by (intros ->; cbn in Hi; lia).
  rewrite (tableWidth_nonempty s Hs) in *.
  destruct (lookup_lt_is_Some_2 s i Hi) as [old Hold].
  unfold setRow. replace (S i - length s) with 0 by lia.
  cbn [replicate]. rewrite app_nil_r.
  rewrite (list_alter_as_insert _ _ _ _ Hold).
  rewrite tableWidth_nonempty.
  - unfold sheetWidth. rewrite list_fmap_insert.
    rewrite length_app, length_drop.
    pose proof (sheetWidth_row s i old Hold) as Hle.
    replace (length cells + (length old - length cells)) with (sheetWidth s) by lia.
    apply max_list_insert_top; [reflexivity|]. now rewrite length_fmap.
  - intros E. apply (f_equal length) in E. rewrite length_insert in E.
    cbn in E. lia.
Qed.

Lemma findRowFrom_Some (rows : list (list value)) (k : option nat) (id : value) :
  forall i0 i row,
    findRowFrom i0 rows k id = Some (i, row) ->
    i0 <= i /\ rows !! (i - i0) = Some row /\ strictEq (getIdx row k) id = true.
Proof.
  induction rows as [|r rows IH]; intros i0 i row; cbn [findRowFrom];
    [discriminate|].
  destruct (strictEq (getIdx r k) id) eqn:Es.
  - intros E. injection E as <- <-. rewrite Nat.sub_diag. now repeat split.
  - intros E. destruct (IH _ _ _ E) as (Hle & Hrow & Hid).
    repeat split; [lia | | exact Hid].
    replace (i - i0) with (S (i - S i0)) by lia. exact Hrow.
Qed.

Lemma findRow_Some (table : list (list value)) (k : option nat) (id : value)
    (i : nat) (row : list value) :
  findRow table k id = Some (i, row) ->
  1 <= i /\ table !! i = Some row /\ strictEq (getIdx row k) id = true.
Proof.
  unfold findRow. intros E. destruct (findRowFrom_Some _ _ _ _ _ _ E) as (Hle & Hrow & Hid).
  repeat split; [exact Hle | | exact Hid].
  rewrite lookup_drop in Hrow. now replace (1 + (i - 1)) with i in Hrow by lia.
Qed.

(** A row found in the table of a sheet is a row of the sheet. *)
Lemma findRow_sheet (s : Sheet) (k : option nat) (id : value)
    (i : nat) (row : list value) :
  findRow (getValues s) k id = Some (i, row) ->
  1 <= i < length s /\ s <> [].
Proof.
  intros E. destruct (findRow_Some _ _ _ _ _ E) as (Hle & Hrow & _).
  apply lookup_lt_Some in Hrow.
  destruct s as [|r s]; [cbn in Hrow; lia|].
  rewrite getValues_nonempty, length_fmap in Hrow by discriminate.
  split; [lia | discriminate].
Qed.

Lemma sheets_widthsKept (w w' : World) : sheets w' = sheets w -> widthsKept w w'.
Proof.
  unfold sheets, widthsKept. intros E. injection E as -> -> ->. now repeat split.
Qed.

Lemma widthsKept_withSheet (w w1 : World) (n : SheetName) (s' : Sheet) :
  sheets w1 = sheets w ->
  tableWidth s' = tableWidth (sheetOf n w) ->
  widthsKept w (withSheet n s' w1).
Proof.
  unfold sheets, widthsKept. intros E Hw. injection E as E1 E2 E3.
  destruct n; cbn [withSheet sheetOf invoices creditNotes lists] in *;
    rewrite ?E1, ?E2, ?E3, ?Hw; now repeat split.
Qed.

End SheetFacts.

(** ** Updates keep the width of the table *)

Section UpdateFacts.
Context `{Host}.

Lemma sheetOf_sheets (n : SheetName) (w w1 : World) :
  sheets w1 = sheets w -> sheetOf n w1 = sheetOf n w.
Proof. unfold sheets. intros E. injection E as E1 E2 E3. now destruct n. Qed.

Lemma widthsKept_sheets (w w1 w2 : World) :
  sheets w2 = sheets w1 -> widthsKept w w1 -> widthsKept w w2.
Proof.
  unfold sheets, widthsKept. intros E. injection E as -> -> ->. exact (fun k => k).
Qed.

(** The write of an update: a row of the width of the table, put where
    a row was found. *)
Lemma widthsKept_update (w w1 : World) (n : SheetName) (k : option nat) (id : value)
    (i : nat) (row cells : list value) :
  sheets w1 = sheets w ->
  findRow (getValues (sheetOf n w)) k id = Some (i, row) ->
  length cells = length (default [] (head (getValues (sheetOf n w)))) ->
  widthsKept w (withSheet n (setRow (S i) cells (sheetOf n w1)) w1).
Proof.
  intros E Ef Hlen. apply findRow_sheet in Ef. destruct Ef as [Hi _].
  apply widthsKept_withSheet; [exact E|].
  rewrite (sheetOf_sheets n w w1 E). apply tableWidth_setRow; [lia | exact Hlen].
Qed.

Ltac apart := intros ? ?; reflexivity.

Ltac chain :=
  repeat match goal with
         | E : sheets ?a = sheets _ |- sheets ?a = sheets _ => rewrite E; clear E
         end;
  reflexivity.

Ltac kept Hsame :=
  lazymatch goal with
  | |- wp (ret _) _ _ => apply wp_ret
  | |- wp (throw _) _ _ => apply wp_throw, wp_ret
  end;
  apply Hsame; chain.

Lemma updateByHeaders_widths (n : SheetName) (a b c d : string) (id : value)
    (data : FormData) (w : World) :
  widthsKept w (snd (updateByHeaders n a b c d id data w)).
Proof.
  change (wp (updateByHeaders n a b c d id data) (fun _ w1 => widthsKept w w1) w).
  assert (Hsame : forall w1, sheets w1 = sheets w -> widthsKept w w1)
    by (intros w1; apply sheets_widthsKept).
  unfold updateByHeaders. apply wp_tryCatch.
  destruct (blankId id); [kept Hsame|].
  apply wp_bind, wp_readSheet. cbv zeta.
  destruct (indexMapOf _ !! "ID") as [idCol|]; [|kept Hsame].
  destruct (findRow _ _ id) as [[rowIndex row]|] eqn:Ef; [|kept Hsame].
  apply wp_bind. apply (wp_keeps sheets); [apply keeps_trashOld; apart|].
  intros [[]|e] w1 E1; [|kept Hsame].
  apply wp_bind. apply (wp_keeps sheets); [apply keeps_trashOld; apart|].
  intros [[]|e] w2 E2; [|kept Hsame].
  apply wp_bind, wp_lift.
  destruct (asString _) as [dueText|e]; [|kept Hsame].
  apply wp_bind. apply (wp_keeps sheets); [apply keeps_getProjectDetailsFromData|].
  intros [details|e] w3 E3; [|kept Hsame].
  destruct (Str.isEmpty _); [kept Hsame|].
  apply wp_bind. apply (wp_keeps sheets); [apply keeps_getProjectFolderId|].
  intros [folderId|e] w4 E4; [|kept Hsame].
  apply wp_bind. apply (wp_keeps sheets); [apply keeps_createInvoiceDoc; apart|].
  intros [doc|e] w5 E5; [|kept Hsame].
  apply wp_bind. apply (wp_keeps sheets); [apply keeps_savePdf|].
  intros [pdfUrl|e] w6 E6; [|kept Hsame].
  apply wp_bind, wp_writeSheet.
  apply wp_bind. apply (wp_keeps sheets); [apply keeps_cacheRemove; apart|].
  assert (Hw : widthsKept w
                 (withSheet n
                    (setRow (S rowIndex)
                       (rowByHeaders (default [] (head (getValues (sheetOf n w))))
                          id data (dueDateOf dueText) (docUrl doc) pdfUrl)
                       (sheetOf n w6)) w6)).
  { eapply widthsKept_update; [chain | exact Ef | apply length_rowByHeaders]. }
  intros [[]|e] w7 E7; apply wp_ret; exact (widthsKept_sheets _ _ _ E7 Hw).
Qed.

Lemma updateCreditNoteByIdFromData_widths (data : FormData) (w : World) :
  widthsKept w (snd (updateCreditNoteByIdFromData data w)).
Proof.
  change (wp (updateCreditNoteByIdFromData data) (fun _ w1 => widthsKept w w1) w).
  assert (Hsame : forall w1, sheets w1 = sheets w -> widthsKept w w1)
    by (intros w1; apply sheets_widthsKept).
  unfold updateCreditNoteByIdFromData. apply wp_tryCatch.
  destruct (negb _); [kept Hsame|].
  apply wp_bind, wp_readSheet. cbv zeta.
  destruct (indexOf _ (VStr "ID")) as [idCol|]; [|kept Hsame].
  destruct (findRow _ _ _) as [[i old]|] eqn:Ef; [|kept Hsame].
  apply wp_bind. apply (wp_keeps sheets); [apply keeps_trashOld; apart|].
  intros [[]|e] w1 E1; [|kept Hsame].
  apply wp_bind. apply (wp_keeps sheets); [apply keeps_trashOld; apart|].
  intros [[]|e] w2 E2; [|kept Hsame].
  apply wp_bind. apply (wp_keeps sheets); [apply keeps_getProjectDetailsFromData|].
  intros [details|e] w3 E3; [|kept Hsame].
  apply wp_bind. apply (wp_keeps sheets); [apply keeps_getProjectFolderId|].
  intros [folderId|e] w4 E4; [|kept Hsame].
  apply wp_bind. apply (wp_keeps sheets); [apply keeps_createCreditNoteDoc; apart|].
  intros [doc|e] w5 E5; [|kept Hsame].
  apply wp_bind. apply (wp_keeps sheets); [apply keeps_savePdf|].
  intros [pdfUrl|e] w6 E6; [|kept Hsame].
  apply wp_bind. unfold setRowOfWidth.
  destruct (_ =? _)%nat; [|kept Hsame].
  apply wp_writeSheet.
  apply wp_bind. apply (wp_keeps sheets); [apply keeps_cacheRemove; apart|].
  assert (Hw : widthsKept w
                 (withSheet CREDITNOTES
                    (setRow (S i)
                       (linkedRow (default [] (head (getValues (sheetOf CREDITNOTES w))))
                          old data (docUrl doc) pdfUrl)
                       (sheetOf CREDITNOTES w6)) w6)).
  { eapply widthsKept_update; [chain | exact Ef | apply length_linkedRow]. }
  intros [[]|e] w7 E7; apply wp_ret; exact (widthsKept_sheets _ _ _ E7 Hw).
Qed.

(** C10. Every update by id hands the sheet a row that has exactly the
    cells of the header row of the table (so no cell is written at or
    past the header width, and item cells that would fall there are
    dropped), and after the update, whether it succeeds or fails, every
    table is as wide as it was. *)
Theorem update_keeps_width (w : World) (id : value) (data : FormData) :
  (forall headers old due docUrl pdfUrl,
      length (rowByHeaders headers id data due docUrl pdfUrl) = length headers /\
      length (linkedRow headers old data docUrl pdfUrl) = length headers) /\
  widthsKept w (snd (updateInvoiceByIdFromData id data w)) /\
  widthsKept w (snd (Earlier.updateCreditNoteByIdFromData id data w)) /\
  widthsKept w (snd (updateCreditNoteByIdFromData data w)).
Proof.
  split; [|split; [|split]].
  - intros headers old due docUrl pdfUrl.
    split; [apply length_rowByHeaders | apply length_linkedRow].
  - apply updateByHeaders_widths.
  - apply updateByHeaders_widths.
  - apply updateCreditNoteByIdFromData_widths.
Qed.

End UpdateFacts.

(** ** Deletion is best effort *)

Section DeleteFacts.
Context `{Host}.

Lemma withDrive_same (w : World) : withDrive (drive w) w = w.
Proof. now destruct w. Qed.

(** What [trashArtifact] does to a link that is a text. *)
Lemma trashArtifact_spec (s msg : string) (w : World) :
  trashArtifact (VStr s) msg w
  = (Ok (noteAfter (drive w) s msg), artifactGone s w).
Proof.
  unfold trashArtifact, artifactGone, noteAfter, driveAfter, cleanupOf.
  cbn [truthy asString]. destruct (Str.isEmpty s) eqn:Es; cbn [negb orb].
  { now rewrite withDrive_same. }
  unfold bindM at 1; unfold lift at 1; cbv beta iota.
  destruct (Str.isEmpty (Str.trim s)); [now rewrite withDrive_same|].
  unfold tryCatch, bindM, lift, extractFileIdFromUrl. rewrite Es.
  destruct (Str.firstRun 25 s) as [id|]; [|now rewrite withDrive_same].
  destruct (Str.isEmpty id); [now rewrite withDrive_same|].
  unfold trashFile.
  destruct (drive w !! id); [reflexivity|now rewrite withDrive_same].
Qed.

(** Putting a file in the trash does not change which links resolve. *)
Lemma cleanupOf_driveAfter (d : gmap string bool) (s t : string) :
  cleanupOf (driveAfter d s) t = cleanupOf d t.
Proof.
  unfold driveAfter. destruct (cleanupOf d s) as [|id|] eqn:Es; try reflexivity.
  assert (Hid : is_Some (d !! id)).
  { unfold cleanupOf in Es.
    destruct (_ || _); [discriminate|].
    destruct (Str.firstRun 25 s) as [id'|]; [|discriminate].
    destruct (Str.isEmpty id'); [discriminate|].
    destruct (d !! id') eqn:E; [|discriminate].
    injection Es as <-. now rewrite E. }
  unfold cleanupOf. destruct (_ || _); [reflexivity|].
  destruct (Str.firstRun 25 t) as [id'|]; [|reflexivity].
  destruct (Str.isEmpty id'); [reflexivity|].
  destruct (decide (id = id')) as [<-|Hne].
  - rewrite lookup_insert_eq. destruct Hid as [b ->]. reflexivity.
  - now rewrite lookup_insert_ne.
Qed.

Lemma noteAfter_driveAfter (d : gmap string bool) (s t msg : string) :
  noteAfter (driveAfter d s) t msg = noteAfter d t msg.
Proof. unfold noteAfter. now rewrite cleanupOf_driveAfter. Qed.

(** C7.  Deleting an invoice that is in the sheet, whose two link cells
    are texts (possibly empty): the answer is a success in every case.
    Its note names what could not be cleaned up: the document when its
    link is not blank and names no file of the Drive, the PDF likewise,
    both, the document first, when neither resolves, and there is no note
    when there is nothing to report.  The row is removed from the sheet
    and the list cache is invalidated in every case, and each file that
    does resolve is put in the trash whether or not the other one did. *)
Theorem delete_is_best_effort (w : World) (id : value) (c i : nat)
    (row : list value) (du pu : string) :
  let data := getValues (invoices w) in
  let headers := default [] (head data) in
  blankId id = false ->
  indexOf headers (VStr "ID") = Some c ->
  findRow data (Some c) id = Some (i, row) ->
  orElse (getIdx row (indexOf headers (VStr "Google Doc Link"))) (VStr "") = VStr du ->
  orElse (getIdx row (indexOf headers (VStr "PDF Link"))) (VStr "") = VStr pu ->
  exists w',
    deleteInvoiceByIdFromData id w
    = (Ok (Deleted (cleanupNote (cleanupOf (drive w) du) (cleanupOf (drive w) pu))),
       w') /\
    invoices w' = deleteRow (S i) (invoices w) /\
    cache w' = delete "invoiceList" (cache w) /\
    drive w' = driveAfter (driveAfter (drive w) du) pu.
Proof.
  intros data headers Hb Hc Ef Hdu Hpu.
  unfold deleteInvoiceByIdFromData, deleteByIdFromData.
  unfold tryCatch at 1. rewrite Hb. unfold bindM at 1. unfold readSheet at 1.
  cbn [sheetOf]. cbv zeta. fold data. fold headers. rewrite Hc, Ef, Hdu, Hpu.
  unfold bindM at 1. rewrite trashArtifact_spec.
  unfold bindM at 1. rewrite trashArtifact_spec.
  unfold artifactGone. cbn [drive withDrive]. rewrite noteAfter_driveAfter.
  assert (En : joinNotes
                 (noteAfter (drive w) du "Google Doc already deleted or not found."
                  ++ noteAfter (drive w) pu "PDF already deleted or not found.")%list
               = cleanupNote (cleanupOf (drive w) du) (cleanupOf (drive w) pu)).
  { unfold noteAfter.
    destruct (cleanupOf (drive w) du), (cleanupOf (drive w) pu); reflexivity. }
  rewrite <- En. eexists. split; [reflexivity|]. cbn. repeat split.
Qed.

End DeleteFacts.

Lemma delete_is_best_effort_witness :
  drive (withDrive ∅ Sample.created) = ∅ /\
  exists w',
    @deleteInvoiceByIdFromData Sample.host (VStr "uuid-0") (withDrive ∅ Sample.created)
      = (Ok (Deleted
               (Some "Google Doc already deleted or not found. PDF already deleted or not found.")),
         w') /\
    invoices w' = [@invoiceHeaders Sample.host] /\
    cache w' !! "invoiceList" = None /\
    drive w' = ∅.
Proof.
  split; [reflexivity|].
  destruct (@delete_is_best_effort Sample.host (withDrive ∅ Sample.created)
              (VStr "uuid-0") 0 1
              (default [] (getValues (invoices Sample.created) !! 1))
              "https://docs.google.com/document/d/document-0000000000000000-template-acme-standard-0000001/edit"
              "https://drive.google.com/file/d/pdf-file-00000000000000000000/2024-01-15_InvoiceINV-7_Ours GmbH-Acme Ltd.pdf")
    as (w' & E & Hi & Hc & Hd).
  - vm_compute. reflexivity.
  - vm_compute. reflexivity.
  - vm_compute. reflexivity.
  - vm_compute. reflexivity.
  - vm_compute. reflexivity.
  - exists w'. split; [exact E|]. rewrite Hi, Hc, Hd. vm_compute. repeat split.
Defined.

(** ** The template of a credit note *)

Section TemplateFacts.
Context `{Host}.

Lemma wp_mono {A} (m : M A) (Q Q' : result A -> World -> Prop) (w : World) :
  wp m Q w -> (forall r w1, Q r w1 -> Q' r w1) -> wp m Q' w.
Proof. intros HQ Himp. apply Himp, HQ. Qed.

Lemma renderedOnce_frame (t f : value) (w0 w w1 w2 : World) :
  jobs w = jobs w0 -> renderedOnce t f w w1 -> jobs w2 = jobs w1 ->
  renderedOnce t f w0 w2.
Proof. intros E0 (j & Ej & Hj) E2. exists j. now rewrite E2, Ej, E0. Qed.

(** The renderer is given the sixth of the arguments after [data] as
    the template and the seventh as the folder. *)
Lemma createCreditNoteDoc_job (data : FormData) (args : list value) (w : World) :
  wp (createCreditNoteDoc data args) (renderedWith (getAt args 5) (getAt args 6) w) w.
Proof.
  unfold wp, createCreditNoteDoc. cbv zeta.
  destruct (truthy (getAt args 5)); [|now left].
  unfold render. cbv zeta.
  destruct (renderTemplate _) as [d|e]; cbn [fst snd renderedWith];
    [|right]; eexists; cbn; repeat split.
Qed.

Ltac quiet := intros ? ?; reflexivity.

(** The folder that the Config Resolver gives for a project. *)
Lemma getProjectFolderId_lists (name : value) (w w0 : World) :
  lists w = lists w0 ->
  getProjectFolderId name w = (fst (getProjectFolderId name w0), w).
Proof.
  intros E. unfold getProjectFolderId, bindM, readSheet, ret. cbn [sheetOf fst].
  now rewrite E.
Qed.

Lemma processCreditNoteFormFromData_job (data : FormData) (w w0 : World)
    (folder : string) :
  jobs w = jobs w0 -> lists w = lists w0 ->
  fst (getProjectFolderId (f_projectName data) w0) = Ok folder ->
  wp (processCreditNoteFormFromData data)
     (renderedWith (VStr creditNoteTemplateId) (VStr folder) w0) w.
Proof.
  intros E0 L0 Hfolder.
  set (core := fun w : World => (jobs w, lists w)).
  assert (Hcore : core w = core w0) by (unfold core; now rewrite E0, L0).
  assert (Hno : forall (e : exn) w', core w' = core w0 ->
                  renderedWith (A := string * string) (VStr creditNoteTemplateId)
                    (VStr folder) w0 (Throw e) w').
  { intros e w' E. left. unfold core in E. now injection E. }
  unfold processCreditNoteFormFromData.
  apply wp_bind. apply (wp_keeps core); [apply keeps_drawUuid; quiet|].
  intros [uniqueId|e] w1 E1; [|apply Hno; unfold core in *; congruence].
  apply wp_bind, wp_readSheet.
  apply wp_bind. apply (wp_keeps core).
  { destruct (_ =? _)%nat; [apply keeps_writeSheet; quiet|apply keeps_ret]. }
  intros [[]|e] w2 E2; [|apply Hno; unfold core in *; congruence].
  cbv zeta. destruct (f_items data) as [items|];
    [|apply wp_throw, Hno; unfold core in *; congruence].
  apply wp_bind, wp_readSheet. apply wp_bind, wp_writeSheet.
  match goal with
  | |- wp _ _ ?w => set (w3 := w)
  end.
  assert (E3 : core w3 = core w0) by (unfold w3, core in *; cbn; congruence).
  assert (E3' := E3). unfold core in E3'. injection E3' as J3 L3.
  apply wp_bind. unfold wp at 1.
  rewrite (getProjectFolderId_lists _ w3 w0 L3), Hfolder. cbn [fst snd].
  apply wp_bind. eapply wp_mono; [apply createCreditNoteDoc_job|].
  cbn [getAt]. intros [doc|e] w4 Hr; cbn [renderedWith] in *.
  - apply (wp_keeps jobs).
    + apply keeps_bind; [apply keeps_savePdf|intros pdfUrl].
      apply keeps_bind; [apply keeps_writeSheet; quiet|intros _].
      apply keeps_bind; [apply keeps_writeSheet; quiet|intros _].
      apply keeps_bind; [apply keeps_cacheRemove; quiet|intros _].
      apply keeps_ret.
    + intros r w5 E5.
      assert (Hon : renderedOnce (VStr creditNoteTemplateId) (VStr folder) w0 w5)
        by exact (renderedOnce_frame _ _ _ _ _ _ J3 Hr E5).
      destruct r; [exact Hon|right; exact Hon].
  - destruct Hr as [Hr|Hr]; [left; now rewrite Hr|right].
    exact (renderedOnce_frame _ _ _ _ _ _ J3 Hr eq_refl).
Qed.

(** A creation through [processCreditNoteCreation] that went as far as
    [processCreditNoteFormFromData] has had a template for the project
    from the Config Resolver. *)
Lemma processCreditNoteCreation_checks (data : FormData) (w : World)
    (r : string * string) (w' : World) :
  processCreditNoteCreation data w = (Ok r, w') ->
  exists details,
    getProjectDetailsWithValidation (f_projectName data) w = (Ok details, w) /\
    Str.isEmpty (pd_templateId details) = false.
Proof.
  unfold processCreditNoteCreation. cbv zeta.
  destruct (isValid _); [|discriminate].
  unfold bindM at 1.
  pose proof (keeps_getProjectDetailsWithValidation (fun w => w)
                (f_projectName data) w) as Hk.
  destruct (getProjectDetailsWithValidation (f_projectName data) w)
    as [[details|e] w1] eqn:Eg; [|discriminate].
  cbn [snd] in Hk. subst w1. intros _. exists details. split; [reflexivity|].
  revert Eg.
  unfold getProjectDetailsWithValidation, getProjectDetailsFromData, bindM,
    readSheet, lift, ret, throw.
  destruct (truthy (f_projectName data)); cbn [fst snd sheetOf]; [|discriminate].
  destruct (asString (f_projectName data)) as [s|e]; [|discriminate].
  destruct (Str.isEmpty (Str.trim s)); [discriminate|].
  destruct (getProjectDetailsFromRows _ _) as [d|e]; [|discriminate].
  destruct (Str.isEmpty (pd_templateId d)) eqn:Ed; [discriminate|].
  intros [= <-]. exact Ed.
Qed.

Lemma processCreditNoteCreation_job (data : FormData) (w : World) (folder : string) :
  fst (getProjectFolderId (f_projectName data) w) = Ok folder ->
  wp (processCreditNoteCreation data)
     (renderedWith (VStr creditNoteTemplateId) (VStr folder) w) w.
Proof.
  intros Hfolder.
  set (core := fun w : World => (jobs w, lists w)).
  unfold processCreditNoteCreation. cbv zeta.
  destruct (isValid _); [|apply wp_throw; now left].
  apply wp_bind.
  apply (wp_keeps core); [apply keeps_getProjectDetailsWithValidation|].
  intros [details|e] w1 E1; unfold core in E1; injection E1 as J1 L1; [|now left].
  apply wp_bind. apply (wp_keeps core); [apply keeps_getProjectFolderId|].
  intros [folderId|e] w2 E2; unfold core in E2; injection E2 as J2 L2;
    [|left; now rewrite J2].
  destruct (Str.isEmpty _); [apply wp_throw; left; now rewrite J2|].
  apply processCreditNoteFormFromData_job; [now rewrite J2|now rewrite L2|exact Hfolder].
Qed.

(** C6, as the code has it.  A credit-note creation, by
    [processCreditNoteFormFromData] or through [processCreditNoteCreation],
    that answers has given the renderer exactly one job: its template is
    the constant [creditNoteTemplateId], whatever the project and the
    Lists sheet, and its output folder is the one that the Config
    Resolver, [getProjectFolderId], gives for the project of the form.
    One that throws has given it that job or none.  Of the template that
    the Config Resolver holds for the project only this is used:
    [processCreditNoteCreation] does not get to the creation unless
    there is one. *)
Theorem credit_note_template_is_fixed (data : FormData) (w : World) (folder : string) :
  fst (getProjectFolderId (f_projectName data) w) = Ok folder ->
  renderedWith (VStr creditNoteTemplateId) (VStr folder) w
    (fst (processCreditNoteFormFromData data w))
    (snd (processCreditNoteFormFromData data w)) /\
  renderedWith (VStr creditNoteTemplateId) (VStr folder) w
    (fst (processCreditNoteCreation data w))
    (snd (processCreditNoteCreation data w)) /\
  (forall r w',
      processCreditNoteCreation data w = (Ok r, w') ->
      exists details,
        getProjectDetailsWithValidation (f_projectName data) w = (Ok details, w) /\
        Str.isEmpty (pd_templateId details) = false).
Proof.
  intros Hfolder. split; [|split].
  - now apply processCreditNoteFormFromData_job.
  - now apply processCreditNoteCreation_job.
  - apply processCreditNoteCreation_checks.
Qed.

End TemplateFacts.

Lemma credit_note_template_is_fixed_witness :
  exists r w' j,
    @processCreditNoteCreation Sample.host
       (Sample.creditNoteForm VUndef "100" "115"
          [Sample.creditItem "1" "Refund" "Jan 2024" "100"])
       Sample.foldered = (Ok r, w') /\
    jobs w' = jobs Sample.foldered ++ [j] /\
    jobTemplateId j = VStr "1yCKAx3nyIz-L_u3FPSK1zMof5Mo0m2-gsNzl1cCQsuQ" /\
    Sample.answer (@getProjectFolderId Sample.host (VStr "Acme")) Sample.foldered
    = Ok "folder-of-acme-0000000000001" /\
    jobFolderId j = VStr "folder-of-acme-0000000000001".
Proof.
  pose (form := Sample.creditNoteForm VUndef "100" "115"
                  [Sample.creditItem "1" "Refund" "Jan 2024" "100"]).
  destruct (@credit_note_template_is_fixed Sample.host form Sample.foldered
              "folder-of-acme-0000000000001" ltac:(vm_compute; reflexivity))
    as (_ & Hjob & _).
  destruct (@processCreditNoteCreation Sample.host form Sample.foldered)
    as [[r|e] w'] eqn:E; [|vm_compute in E; discriminate E].
  destruct Hjob as (j & Ej & _ & Ht & Hf).
  exists r, w', j. split; [exact E|]. split; [exact Ej|]. split; [exact Ht|].
  split; [vm_compute; reflexivity | exact Hf].
Defined.

(** C6, as the specification has it, fails: the Config Resolver gives
    the template of project Acme, the creation succeeds, and the job of
    the renderer has another template. *)
Lemma credit_note_template_not_resolved :
  exists pd r w' j,
    @getProjectDetailsFromData Sample.host (VStr "Acme") Sample.world
      = (Ok pd, Sample.world) /\
    pd_templateId pd = "template-acme-standard-0000001" /\
    @processCreditNoteCreation Sample.host
       (Sample.creditNoteForm VUndef "100" "115"
          [Sample.creditItem "1" "Refund" "Jan 2024" "100"])
       Sample.world = (Ok r, w') /\
    jobs w' = [j] /\
    jobTemplateId j = VStr "1yCKAx3nyIz-L_u3FPSK1zMof5Mo0m2-gsNzl1cCQsuQ" /\
    jobTemplateId j <> VStr (pd_templateId pd).
Proof.
  do 4 eexists.
  split; [vm_compute; reflexivity|].
  split; [reflexivity|].
  split; [vm_compute; reflexivity|].
  split; [reflexivity|].
  split; [reflexivity|discriminate].
Qed.

(** ** The code at three inputs *)

(** C2 at a credit note created with subtotal 100 and tax rate 15 and
    then updated to subtotal 200: the update succeeds and the row keeps
    the tax amount of the creation, 15.00, where the formula gives
    30.00; the total is the text the form carried. *)
Lemma credit_note_update_keeps_tax_amount :
  (exists docUrl pdfUrl,
      Sample.answer (@updateCreditNoteByIdFromData Sample.host Sample.creditNoteUpdate)
        Sample.creditNoteCreated = Ok (Success docUrl pdfUrl)) /\
  take 4 <$> (drop 7 <$> (creditNotes Sample.creditNoteCreated !! 1))
    = Some [VStr "15"; VStr "100.00"; VStr "15.00"; VStr "115.00"] /\
  take 4 <$> (drop 7 <$> (creditNotes Sample.creditNoteUpdated !! 1))
    = Some [VStr "15"; VStr "200"; VStr "15.00"; VStr "230.00"] /\
  Num.toFixed 2 (taxAmount (@amountsOf Sample.host Sample.creditNoteUpdate)) = "30.00".
Proof.
  split; [do 2 eexists; vm_compute; reflexivity|].
  repeat split; vm_compute; reflexivity.
Qed.

(** C3 at an invoice form of [MAX_ROWS + 1] items, with [MAX_ROWS] 20
    and six cells an item: the form passes the validation,
    [processFormFromData] succeeds and writes all twenty-one items, a row
    of 21 + 126 cells under a header of 21 + 120; reading the record
    back gives twenty items. *)
Lemma create_writes_every_item :
  @validateInvoiceData Sample.host Sample.longForm = [] /\
  (exists urls,
      Sample.answer (@processFormFromData Sample.host Sample.longForm) Sample.world
      = Ok urls) /\
  length <$> invoices
               (Sample.after (@processFormFromData Sample.host Sample.longForm)
                  Sample.world)
    = [141; 147] /\
  (exists d,
      Sample.answer (@getInvoiceDataByIdFromData Sample.host (VStr "uuid-0"))
        (Sample.after (@processFormFromData Sample.host Sample.longForm) Sample.world)
      = Ok (Some d) /\
      length (i_items d) = 20).
Proof.
  split; [vm_compute; reflexivity|].
  split; [eexists; vm_compute; reflexivity|].
  split; [vm_compute; reflexivity|].
  eexists. split; vm_compute; reflexivity.
Qed.

(** C4 at an item whose first cell is 7: [saveInvoiceData] stores the 7,
    with the period quoted, and so does the update of a credit note,
    with the period as it came. *)
Lemma save_keeps_first_cell :
  (exists r,
      Sample.answer (@saveInvoiceData Sample.host
                       (Sample.invoiceForm "100" Sample.oneItem)) Sample.world
      = Ok r) /\
  drop 21 <$> (invoices
                 (Sample.after (@saveInvoiceData Sample.host
                                  (Sample.invoiceForm "100" Sample.oneItem))
                    Sample.world) !! 0)
    = Some (VStr <$> ["7"; "Development"; "'Jan 2024"; "10"; "10"; "100"]) /\
  take 4 <$> (drop 18 <$> (creditNotes Sample.creditNoteUpdated !! 1))
    = Some (VStr <$> ["7"; "Refund"; "Jan 2024"; "200"]).
Proof.
  split; [eexists; vm_compute; reflexivity|].
  split; vm_compute; reflexivity.
Qed.

(** ** Reading back what was written *)

Section ItemFacts.
Context `{Host}.

(** A decimal numeral is a cell that holds something. *)
Lemma present_digits (d : Decimal.uint) :
  d <> Decimal.Nil -> present (VStr (NilZero.string_of_uint d)) = true.
Proof. destruct d; [contradiction|..]; intros _; reflexivity. Qed.

(** So is the position stamped into an item. *)
Lemma present_position (i : nat) : present (VStr (Str.ofNat (S i))) = true.
Proof.
  apply present_digits. unfold N.to_uint. cbn [N.of_nat].
  apply DecimalPos.Unsigned.to_uint_nonnil.
Qed.

(** A stamped item starts with its position, and has the length of the
    item unless the item was empty. *)
Lemma stampItem_head (i : nat) (r : list value) :
  exists tl, stampItem i r = VStr (Str.ofNat (S i)) :: tl /\ length tl = pred (length r).
Proof.
  unfold stampItem, quotePeriod.
  assert (Hs : exists tl,
             store r 0 (VStr (Str.ofNat (S i))) = VStr (Str.ofNat (S i)) :: tl
             /\ length tl = pred (length r)).
  { destruct r as [|c r]; [now exists []|now exists r]. }
  destruct Hs as (tl & -> & Hl).
  destruct (truthy _) eqn:Et; [|now exists tl].
  unfold getAt in Et.
  unfold store. cbn [length].
  destruct (2 <? S (length tl))%nat eqn:E2.
  - exists (<[1 := VStr ("'" +:+ toKey (getAt (VStr (Str.ofNat (S i)) :: tl) 2))]> tl).
    split; [reflexivity|]. now rewrite length_insert.
  - apply Nat.ltb_ge in E2.
    rewrite lookup_ge_None_2 in Et by (cbn [length]; lia). discriminate.
Qed.

Lemma length_stampItem (i : nat) (r : list value) :
  (0 < length r)%nat -> length (stampItem i r) = length r.
Proof. intros Hr. destruct (stampItem_head i r) as (tl & -> & Hl). cbn. lia. Qed.

Lemma stampItem_present (i : nat) (r : list value) :
  existsb present (stampItem i r) = true.
Proof.
  destruct (stampItem_head i r) as (tl & -> & _). cbn [existsb].
  now rewrite present_position.
Qed.

(** Items of [cols] cells, flattened. *)
Lemma length_concat_uniform {A} (cols : nat) (its : list (list A)) :
  Forall (fun it => length it = cols) its -> length (concat its) = (length its * cols)%nat.
Proof.
  induction 1 as [|it its Hit _ IH]; [reflexivity|].
  cbn [concat length]. rewrite length_app, IH, Hit. lia.
Qed.

(** Cutting the flattened cells every [cols] cells gives the items back. *)
Lemma chunks_of_concat {A} (cols : nat) (its : list (list A)) (rest : list A) :
  Forall (fun it => length it = cols) its ->
  (fun i => take cols (drop (i * cols) (concat its ++ rest))) <$> seq 0 (length its) = its.
Proof.
  induction 1 as [|it its Hit _ IH]; [reflexivity|].
  cbn [length seq fmap list_fmap concat]. f_equal.
  - cbn [Nat.mul drop]. rewrite <- app_assoc. now apply take_app_length'.
  - rewrite <- fmap_S_seq, <- list_fmap_compose. rewrite <- IH at 2.
    apply list_fmap_ext. intros _ i _. cbn [compose].
    rewrite <- app_assoc. replace (S i * cols)%nat with (cols + i * cols)%nat by lia.
    now rewrite drop_app_add'.
Qed.

Lemma blank_cells (k : nat) : existsb present (replicate k (VStr "")) = false.
Proof. induction k as [|k IH]; [reflexivity|exact IH]. Qed.

(** Past the items there are only blank cells, or none. *)
Lemma blank_chunk (cols m i : nat) (its : list (list value)) :
  Forall (fun it => length it = cols) its -> (length its <= i)%nat ->
  existsb present (take cols (drop (i * cols) (concat its ++ replicate m (VStr ""))))
  = false.
Proof.
  intros Hits Hi. rewrite drop_app_ge.
  - rewrite drop_replicate, take_replicate. apply blank_cells.
  - rewrite (length_concat_uniform cols) by assumption. nia.
Qed.

Lemma filter_all {A} (P : A -> Prop) `{!forall x, Decision (P x)} (l : list A) :
  Forall P l -> filter P l = l.
Proof.
  induction 1 as [|x l Hx _ IH]; [reflexivity|].
  now rewrite filter_cons_True, IH.
Qed.

Lemma filter_none {A} (P : A -> Prop) `{!forall x, Decision (P x)} (l : list A) :
  Forall (fun x => ~ P x) l -> filter P l = [].
Proof.
  induction 1 as [|x l Hx _ IH]; [reflexivity|].
  now rewrite filter_cons_False.
Qed.

(** [parseItems] on a row that holds [its] from column 21 on, padded
    with blanks to the width of the sheet. *)
Lemma parseItems_written (W : nat) (pre : list value) (its : list (list value)) :
  length pre = 21%nat ->
  Forall (fun it => length it = COLUMNS_PER_ROW) its ->
  Forall (fun it => existsb present it = true) its ->
  (length its <= MAX_ROWS)%nat ->
  parseItems 21 COLUMNS_PER_ROW MAX_ROWS (padRow W (pre ++ concat its)) = its.
Proof.
  intros Hpre Hlen Hpres Hmax. unfold parseItems, padRow, slice.
  set (pad := replicate _ _).
  rewrite (list_fmap_ext _
             (fun i => take COLUMNS_PER_ROW
                         (drop (i * COLUMNS_PER_ROW) (concat its ++ pad)))).
  2:{ intros _ i _. rewrite <- app_assoc, <- Hpre, drop_app_add. f_equal. lia. }
  replace MAX_ROWS with (length its + (MAX_ROWS - length its))%nat at 1 by lia.
  rewrite seq_app, fmap_app, filter_app, chunks_of_concat by assumption.
  rewrite filter_all by assumption. rewrite filter_none; [apply app_nil_r|].
  apply Forall_fmap, Forall_forall. intros i Hi. apply elem_of_seq in Hi.
  cbn [compose]. unfold pad. rewrite blank_chunk by (assumption || lia). discriminate.
Qed.

End ItemFacts.

Section HeaderFacts.
Context `{Host}.

(** The index of a header, built from left to right. *)
Lemma reduceIndex_app (acc : gmap string nat) (i : nat) (a b : list value) :
  reduceIndex acc i (a ++ b) = reduceIndex (reduceIndex acc i a) (i + length a) b.
Proof.
  revert acc i. induction a as [|h a IH]; intros acc i; cbn [reduceIndex app length].
  - now rewrite Nat.add_0_r.
  - rewrite IH. f_equal. lia.
Qed.

(** A header that does not occur leaves the entry of its name alone. *)
Lemma reduceIndex_keep (acc : gmap string nat) (i : nat) (hs : list value) (k : string) :
  Forall (fun h => toKey h <> k) hs -> reduceIndex acc i hs !! k = acc !! k.
Proof.
  intros Hk. revert acc i. induction Hk as [|h hs Hh _ IH]; intros acc i; [reflexivity|].
  cbn [reduceIndex]. rewrite IH. now apply lookup_insert_ne.
Qed.

(** The item columns are all named [Row ...]. *)
Lemma item_header_keys (n : nat) (k : string) :
  (forall t, k <> String "R" t) ->
  Forall (fun h => toKey h <> k) (VStr <$> concat (invoiceItemHeaders <$> seq 1 n)).
Proof.
  intros Hk. apply Forall_fmap, Forall_concat, Forall_fmap, Forall_forall.
  intros i _. unfold invoiceItemHeaders.
  repeat apply Forall_cons_2; try apply Forall_nil_2;
    cbn [compose toKey]; intros E; exact (Hk _ (eq_sym E)).
Qed.

(** The header written by [processFormFromData], read from a sheet of
    any width, names the base columns at their places. *)
Lemma baseIndexed_headers (W : nat) : baseIndexed (padRow W invoiceHeaders).
Proof.
  intros k name Hk.
  assert (Hname : (forall t, name <> String "R" t) /\ name <> ""
                  /\ reduceIndex ∅ 0 (VStr <$> invoiceBaseHeaders) !! name = Some k).
  { do 21 (destruct k as [|k];
           [injection Hk as <-;
            split; [discriminate|split; [discriminate|vm_compute; reflexivity]]|]).
    discriminate Hk. }
  destruct Hname as (Hrow & Hne & Hbase).
  unfold indexMapOf, padRow, invoiceHeaders.
  rewrite fmap_app, !reduceIndex_app.
  rewrite reduceIndex_keep.
  2:{ apply Forall_replicate. cbn. congruence. }
  rewrite reduceIndex_keep by now apply item_header_keys.
  exact Hbase.
Qed.

Lemma getAt_padRow_app (W k : nat) (pre rest : list value) :
  (k < length pre)%nat -> getAt (padRow W (pre ++ rest)) k = getAt pre k.
Proof.
  intros Hk. unfold getAt, padRow.
  now rewrite <- app_assoc, lookup_app_l.
Qed.

End HeaderFacts.

Section WriteFacts.
Context `{Host}.

(** Decoding a row of 21 base cells followed by items. *)
Lemma decode_written (headers : list value) (W : nat) (pre : list value)
    (its : list (list value)) :
  baseIndexed headers ->
  length pre = 21%nat ->
  Forall (fun it => length it = COLUMNS_PER_ROW) its ->
  Forall (fun it => existsb present it = true) its ->
  (length its <= MAX_ROWS)%nat ->
  decodeInvoiceRow headers (padRow W (pre ++ concat its)) =
  {| i_projectName := getAt pre 1;
     i_invoiceNumber := getAt pre 2;
     i_clientName := getAt pre 3;
     i_clientAddress := getAt pre 4;
     i_clientNumber := getAt pre 5;
     i_invoiceDate := formatDateForInputFromUtils (getAt pre 6);
     i_dueDate := formatDateForInputFromUtils (getAt pre 7);
     i_tax := getAt pre 8;
     i_subtotal := getAt pre 9;
     i_total := getAt pre 11;
     i_exchangeRate := getAt pre 12;
     i_currency := getAt pre 13;
     i_amountInEUR := getAt pre 14;
     i_bankDetails1 := getAt pre 15;
     i_bankDetails2 := getAt pre 16;
     i_ourCompany := getAt pre 17;
     i_comment := getAt pre 18;
     i_items := its |}.
Proof.
  intros HB Hpre Hlen Hpres Hmax. unfold decodeInvoiceRow. cbv zeta.
  rewrite parseItems_written by assumption.
  rewrite (HB 1%nat "Project Name" eq_refl), (HB 2%nat "Invoice Number" eq_refl),
    (HB 3%nat "Client Name" eq_refl), (HB 4%nat "Client Address" eq_refl),
    (HB 5%nat "Client Number" eq_refl), (HB 6%nat "Invoice Date" eq_refl),
    (HB 7%nat "Due Date" eq_refl), (HB 8%nat "Tax Rate (%)" eq_refl),
    (HB 9%nat "Subtotal" eq_refl), (HB 11%nat "Total" eq_refl),
    (HB 12%nat "Exchange Rate" eq_refl), (HB 13%nat "Currency" eq_refl),
    (HB 14%nat "Amount in EUR" eq_refl), (HB 15%nat "Bank Details 1" eq_refl),
    (HB 16%nat "Bank Details 2" eq_refl), (HB 17%nat "Our Company" eq_refl),
    (HB 18%nat "Comment" eq_refl).
  cbn [getIdx]. now rewrite !getAt_padRow_app by lia.
Qed.

(** Writing the row after the last one appends it. *)
Lemma setRow_append (s : Sheet) (cells : list value) :
  setRow (S (length s)) cells s = (s ++ [cells])%list.
Proof.
  unfold setRow. replace (S (length s) - length s)%nat with 1%nat by lia.
  cbn [replicate]. rewrite <- (Nat.add_0_r (length s)) at 1.
  rewrite alter_app_r. cbn [alter list_alter]. now rewrite drop_nil, app_nil_r.
Qed.

(** Setting a cell of the last row. *)
Lemma setCell_last (s : Sheet) (r : list value) (j : nat) (v : value) :
  (j < length r)%nat ->
  setCell (S (length s)) (S j) v (s ++ [r])%list = (s ++ [<[j := v]> r])%list.
Proof.
  intros Hj. unfold setCell. rewrite length_app. cbn [length].
  replace (S (length s) - (length s + 1))%nat with 0%nat by lia.
  cbn [replicate]. rewrite app_nil_r.
  rewrite <- (Nat.add_0_r (length s)) at 1. rewrite alter_app_r. cbn [alter list_alter].
  replace (S j - length r)%nat with 0%nat by lia. cbn [replicate].
  now rewrite (app_nil_r r).
Qed.

Lemma wp_drawUuid (Q : result string -> World -> Prop) (w : World) :
  Q (Ok (getUuid (drawn w))) (withDrawn (S (drawn w)) w) -> wp drawUuid Q w.
Proof. exact (fun q => q). Qed.

Ltac quiet := intros ? ?; reflexivity.

(** The invoice sheet after [processFormFromData]: the row is the last
    one; its two link cells may have been filled. *)
Lemma processFormFromData_sheet (data : FormData) (w : World)
    (items : list (list value)) (due : string) :
  f_items data = Some items ->
  f_dueDate data = VStr due ->
  let row := invoiceRow (getUuid (drawn w)) data (dueDateOf due) items in
  exists a b,
    invoices (snd (processFormFromData data w))
    = (headed (invoices w) ++ [take 19 row ++ a :: b :: drop 21 row])%list.
Proof.
  intros Hitems Hdue row.
  change (wp (processFormFromData data)
            (fun _ w1 => exists a b,
                 invoices w1
                 = (headed (invoices w) ++ [take 19 row ++ a :: b :: drop 21 row])%list) w).
  assert (Hrow : forall a b,
             take 19 row ++ a :: b :: drop 21 row
             = <[20 := b]> (<[19 := a]> row)) by reflexivity.
  assert (Hlen : (20 < length row)%nat) by (cbn; lia).
  unfold processFormFromData.
  apply wp_bind, wp_drawUuid. apply wp_bind, wp_readSheet.
  apply wp_bind.
  assert (Hhd : forall w0, invoices w0 = invoices w ->
             wp (if (getLastRow (invoices w0) =? 0)%nat
                 then writeSheet INVOICES (appendRow invoiceHeaders) else ret tt)
                (fun r w1 => r = Ok tt /\ invoices w1 = headed (invoices w)) w0).
  { intros w0 E0. unfold headed. rewrite E0.
    destruct (_ =? _)%nat; [apply wp_writeSheet|apply wp_ret]; split; try reflexivity.
    - cbn. now rewrite E0.
    - exact E0. }
  assert (Hrow0 : row = take 19 row ++ VStr "" :: VStr "" :: drop 21 row)
    by reflexivity.
  eapply wp_mono; [apply (Hhd (withDrawn (S (drawn w)) w) eq_refl)|]. clear Hhd.
  intros r w1 [-> E1]. set (s1 := headed (invoices w)) in *.
  rewrite Hdue. apply wp_bind, wp_lift. cbn [asString]. rewrite Hitems.
  apply wp_bind, wp_readSheet. apply wp_bind, wp_writeSheet.
  cbn [sheetOf]. unfold getLastRow. rewrite E1, setRow_append. fold row.
  assert (Hplain : forall w', invoices w' = s1 ++ [row] ->
            exists a b, invoices w' = s1 ++ [take 19 row ++ a :: b :: drop 21 row]).
  { intros w' E. exists (VStr ""), (VStr ""). now rewrite <- Hrow0. }
  apply wp_bind. apply (wp_keeps invoices); [apply keeps_getProjectFolderId|].
  intros [folderId|e] w3 E3; [|now apply Hplain].
  apply wp_bind. apply (wp_keeps invoices); [apply keeps_createInvoiceDoc; quiet|].
  intros [doc|e] w4 E4; [|apply Hplain; now rewrite E4].
  apply wp_bind. apply (wp_keeps invoices); [apply keeps_savePdf|].
  intros [pdfUrl|e] w5 E5; [|apply Hplain; now rewrite E5, E4].
  assert (E50 : invoices w5 = s1 ++ [row]) by now rewrite E5, E4.
  apply wp_bind, wp_writeSheet. cbn [sheetOf].
  rewrite E50, setCell_last by lia.
  apply wp_bind, wp_writeSheet. cbn [sheetOf withSheet invoices].
  rewrite setCell_last by (rewrite length_insert; lia).
  apply wp_bind. apply (wp_keeps invoices); [apply keeps_cacheRemove; quiet|].
  intros r w8 E8.
  assert (Hdone : exists a b,
             invoices w8 = s1 ++ [take 19 row ++ a :: b :: drop 21 row]).
  { exists (VStr (docUrl doc)), (VStr pdfUrl). now rewrite Hrow, E8. }
  destruct r; [apply wp_ret|]; exact Hdone.
Qed.
End WriteFacts.

Section ReadBack.
Context `{Host}.

Lemma strictEq_other (v : value) (t : string) :
  v <> VStr t -> strictEq v (VStr t) = false.
Proof.
  destruct v as [| | | |s| |]; try reflexivity. intros Hne. cbn [strictEq].
  apply String.eqb_neq. congruence.
Qed.

(** The search passes over rows of other identifiers. *)
Lemma findRowFrom_app (a b : list (list value)) (k : option nat) (id : value) (i : nat) :
  Forall (fun row => strictEq (getIdx row k) id = false) a ->
  findRowFrom i (a ++ b) k id = findRowFrom (i + length a) b k id.
Proof.
  intros Ha. revert i. induction Ha as [|row a Hrow _ IH]; intros i; cbn [app length].
  - now rewrite Nat.add_0_r.
  - cbn [findRowFrom]. rewrite Hrow, IH. f_equal. lia.
Qed.

(** A padded row whose first cell is not the identifier. *)
Lemma other_row (W : nat) (r : list value) (id : string) :
  id <> "" -> r !! 0%nat <> Some (VStr id) ->
  strictEq (getIdx (padRow W r) (Some 0%nat)) (VStr id) = false.
Proof.
  intros Hid Hr. apply strictEq_other. cbn [getIdx]. unfold getAt, padRow.
  destruct r as [|c r]; cbn [app].
  - destruct (W - length [])%nat; cbn; congruence.
  - cbn in *. congruence.
Qed.

(** The search finds the last row when no row before it has the
    identifier. *)
Lemma findRow_last (hd : list value) (tl : list (list value)) (r : list value)
    (id : string) :
  id <> "" ->
  Forall (fun x => x !! 0%nat <> Some (VStr id)) tl ->
  r !! 0%nat = Some (VStr id) ->
  findRow (getValues ((hd :: tl) ++ [r])) (Some 0%nat) (VStr id)
  = Some (S (length tl), padRow (sheetWidth ((hd :: tl) ++ [r])) r).
Proof.
  intros Hid Htl Hr. unfold findRow. rewrite getValues_nonempty by discriminate.
  set (W := sheetWidth _). cbn [app]. rewrite fmap_cons. cbn [drop].
  rewrite fmap_app, drop_0, findRowFrom_app.
  - rewrite length_fmap. cbn [fmap list_fmap findRowFrom getIdx].
    unfold getAt, padRow. rewrite lookup_app_l by (apply lookup_lt_is_Some; eauto).
    rewrite Hr. change (strictEq _ (VStr id)) with (String.eqb id id).
    now rewrite String.eqb_refl.
  - apply Forall_fmap. eapply Forall_impl; [exact Htl|].
    intros x Hx. now apply other_row.
Qed.

(** A sheet that is empty or has the header has it once
    [processFormFromData] has looked. *)
Lemma headed_cases (s : Sheet) :
  s = [] \/ head s = Some invoiceHeaders -> headed s = invoiceHeaders :: drop 1 s.
Proof.
  destruct s as [|r s]; [reflexivity|].
  intros [E|E]; [discriminate|]. injection E as ->. reflexivity.
Qed.

Lemma blankId_text (u : string) : blankId (VStr u) = false -> u <> "".
Proof. intros Hu ->. discriminate Hu. Qed.

Lemma Forall_imap_any {A B} (Q : B -> Prop) (l : list A) :
  forall f : nat -> A -> B, (forall i x, x ∈ l -> Q (f i x)) -> Forall Q (imap f l).
Proof.
  induction l as [|x l IH]; intros f Hf; [constructor|].
  cbn [imap]. constructor.
  - apply Hf. left.
  - apply IH. intros i y Hy. apply Hf. now right.
Qed.

(** C1, as the code has it.  An invoice whose items are at most
    [MAX_ROWS] and have [COLUMNS_PER_ROW] cells each is written by
    [processFormFromData] under a fresh identifier into a sheet that is
    empty or has the header.  Whatever becomes of the document, reading
    the invoice back by that identifier gives: the names, addresses,
    numbers, currency and bank details as submitted; the company and the
    comment, the empty text where there was none; the dates through the
    date functions; the tax rate, subtotal, exchange rate and amount in
    EUR in fixed notation, the total computed from subtotal and rate;
    and the items in order, each with its position in the first cell and
    its period quoted. *)
Theorem read_back_after_create (w : World) (data : FormData)
    (items : list (list value)) (due : string) :
  let u := getUuid (drawn w) in
  let a := amountsOf data in
  let w1 := snd (processFormFromData data w) in
  f_items data = Some items ->
  f_dueDate data = VStr due ->
  invoices w = [] \/ head (invoices w) = Some invoiceHeaders ->
  blankId (VStr u) = false ->
  Forall (fun r => r !! 0%nat <> Some (VStr u)) (invoices w) ->
  (0 < COLUMNS_PER_ROW)%nat ->
  Forall (fun it => length it = COLUMNS_PER_ROW) items ->
  (length items <= MAX_ROWS)%nat ->
  getInvoiceDataByIdFromData (VStr u) w1 =
  (Ok (Some
         {| i_projectName := f_projectName data;
            i_invoiceNumber := f_invoiceNumber data;
            i_clientName := f_clientName data;
            i_clientAddress := f_clientAddress data;
            i_clientNumber := f_clientNumber data;
            i_invoiceDate :=
              formatDateForInputFromUtils (VDate (newDate (f_invoiceDate data)));
            i_dueDate := formatDateForInputFromUtils (dueDateOf due);
            i_tax := VStr (Num.toFixed 0 (taxRate a));
            i_subtotal := VStr (Num.toFixed 2 (subtotalNum a));
            i_total := VStr (Num.toFixed 2 (totalAmount a));
            i_exchangeRate :=
              if isDollar data
              then VStr (Num.toFixed 4 (parseFloatV (f_exchangeRate data)))
              else VStr "";
            i_currency := f_currency data;
            i_amountInEUR :=
              if isDollar data
              then VStr (Num.toFixed 2 (parseFloatV (f_amountInEUR data)))
              else VStr "";
            i_bankDetails1 := f_bankDetails1 data;
            i_bankDetails2 := f_bankDetails2 data;
            i_ourCompany := orElse (f_ourCompany data) (VStr "");
            i_comment := orElse (f_comment data) (VStr "");
            i_items := imap stampItem items |}),
   w1).
Proof.
  intros u a w1 Hitems Hdue Hhead Hblank Hfresh Hcols Hshape Hmax.
  destruct (processFormFromData_sheet data w items due Hitems Hdue) as (x & y & E).
  fold w1 u in E. rewrite (headed_cases _ Hhead) in E.
  set (row := invoiceRow u data (dueDateOf due) items) in E.
  set (pre := take 19 row ++ [x; y]).
  assert (Er : take 19 row ++ x :: y :: drop 21 row
               = pre ++ concat (imap stampItem items)) by reflexivity.
  rewrite Er in E. clear Er.
  unfold getInvoiceDataByIdFromData. rewrite Hblank.
  unfold bindM, readSheet. cbn [sheetOf]. rewrite E. cbv zeta.
  set (W := sheetWidth ((invoiceHeaders :: drop 1 (invoices w))
                        ++ [pre ++ concat (imap stampItem items)])).
  assert (Ehd : default [] (head (getValues
                   ((invoiceHeaders :: drop 1 (invoices w))
                    ++ [pre ++ concat (imap stampItem items)])))
                = padRow W invoiceHeaders) by reflexivity.
  rewrite Ehd, (baseIndexed_headers W 0%nat "ID" eq_refl).
  rewrite findRow_last;
    [|now apply blankId_text |now apply Forall_drop |reflexivity].
  fold W. unfold ret. do 3 f_equal.
  rewrite decode_written; [reflexivity|apply baseIndexed_headers|reflexivity|..|].
  - apply Forall_imap_any. intros i it Hit. rewrite length_stampItem.
    + revert it Hit. now apply Forall_forall.
    + rewrite Forall_forall in Hshape. rewrite (Hshape it Hit). exact Hcols.
  - apply Forall_imap_any. intros i it _. apply stampItem_present.
  - now rewrite length_imap.
Qed.

End ReadBack.

(** C1, as the specification has it, fails on a valid record: the
    subtotal submitted as 100 is read back as 100.00. *)
Lemma read_back_changes_subtotal :
  @validateInvoiceData Sample.host (Sample.invoiceForm "100" Sample.oneItem) = [] /\
  exists d,
    Sample.answer (@getInvoiceDataByIdFromData Sample.host (VStr "uuid-0"))
      Sample.created = Ok (Some d) /\
    f_subtotal (Sample.invoiceForm "100" Sample.oneItem) = VStr "100" /\
    i_subtotal d = VStr "100.00" /\
    i_subtotal d <> f_subtotal (Sample.invoiceForm "100" Sample.oneItem).
Proof.
  split; [vm_compute; reflexivity|].
  eexists. split; [vm_compute; reflexivity|].
  split; [reflexivity|]. split; [reflexivity|discriminate].
Qed.

Lemma read_back_after_create_witness :
  exists d,
    @getInvoiceDataByIdFromData Sample.host (VStr "uuid-0") Sample.created
      = (Ok (Some d), Sample.created) /\
    i_projectName d = VStr "Acme" /\
    i_subtotal d = VStr "100.00" /\
    i_total d = VStr "115.00" /\
    i_items d = [VStr <$> ["1"; "Development"; "'Jan 2024"; "10"; "10"; "100"]].
Proof.
  eexists. split.
  - apply (@read_back_after_create Sample.host Sample.world
             (Sample.invoiceForm "100" Sample.oneItem) Sample.oneItem "14/02/2024").
    + reflexivity.
    + reflexivity.
    + left. reflexivity.
    + vm_compute. reflexivity.
    + constructor.
    + vm_compute. lia.
    + repeat constructor.
    + vm_compute. lia.
  - repeat split; vm_compute; reflexivity.
Defined.

(** ** What a creation stores *)

Section CreateFacts.
Context `{Host}.

(** Stamping changes the first cell and the period, nothing else. *)
Lemma stampItem_other (i k : nat) (it : list value) :
  k <> 0%nat -> k <> 2%nat -> stampItem i it !! k = it !! k.
Proof.
  intros Hk0 Hk2. unfold stampItem, quotePeriod.
  set (v := VStr (Str.ofNat (S i))).
  assert (Hs : exists tl, store it 0 v = v :: tl /\ tl = drop 1 it).
  { destruct it as [|c tl]; [now exists []|now exists tl]. }
  destruct Hs as (tl & -> & ->).
  assert (Hk : (v :: drop 1 it) !! k = it !! k).
  { destruct k as [|k]; [contradiction|].
    change ((v :: drop 1 it) !! S k) with (drop 1 it !! k).
    now rewrite lookup_drop. }
  destruct (truthy _) eqn:Et; [|exact Hk].
  unfold store. destruct (2 <? _)%nat eqn:E2.
  - now rewrite list_lookup_insert_ne by congruence.
  - apply Nat.ltb_ge in E2. unfold getAt in Et.
    rewrite lookup_ge_None_2 in Et by exact E2. discriminate.
Qed.

(** The row that [processFormFromData] leaves in the sheet. *)
Lemma processFormFromData_row (data : FormData) (w : World)
    (items : list (list value)) (due : string) :
  f_items data = Some items ->
  f_dueDate data = VStr due ->
  let row := invoiceRow (getUuid (drawn w)) data (dueDateOf due) items in
  exists a b,
    last (invoices (snd (processFormFromData data w)))
    = Some (take 19 row ++ a :: b :: drop 21 row).
Proof.
  intros Hitems Hdue row.
  destruct (processFormFromData_sheet data w items due Hitems Hdue) as (a & b & E).
  exists a, b. rewrite E. apply last_snoc.
Qed.

(** X1.  The row that [processFormFromData] writes holds, in the columns
    Subtotal, Tax Amount and Total, the subtotal, subtotal x rate / 100
    and their sum, each in fixed notation with two decimals. *)
Theorem create_stores_amounts (w : World) (data : FormData)
    (items : list (list value)) (due : string) :
  f_items data = Some items ->
  f_dueDate data = VStr due ->
  let s := numOr0 (parseFloatV (f_subtotal data)) in
  let r := numOr0 (parseFloatV (f_tax data)) in
  let t := Num.div (Num.mul s r) (Num.ofZ 100) in
  exists row,
    last (invoices (snd (processFormFromData data w))) = Some row /\
    row !! 9%nat = Some (VStr (Num.toFixed 2 s)) /\
    row !! 10%nat = Some (VStr (Num.toFixed 2 t)) /\
    row !! 11%nat = Some (VStr (Num.toFixed 2 (Num.add s t))).
Proof.
  intros Hitems Hdue s r t.
  destruct (processFormFromData_row data w items due Hitems Hdue) as (a & b & E).
  eexists. split; [exact E|]. repeat split.
Qed.

(** X2.  For the subtotal 100.00 and the tax rate 15 the row holds the
    tax amount 15.00 and the total 115.00. *)
Theorem create_stores_15_and_115 (w : World) (data : FormData)
    (items : list (list value)) (due : string) :
  f_items data = Some items ->
  f_dueDate data = VStr due ->
  f_subtotal data = VStr "100.00" ->
  f_tax data = VStr "15" ->
  exists row,
    last (invoices (snd (processFormFromData data w))) = Some row /\
    row !! 9%nat = Some (VStr "100.00") /\
    row !! 10%nat = Some (VStr "15.00") /\
    row !! 11%nat = Some (VStr "115.00").
Proof.
  intros Hitems Hdue Hsub Htax.
  destruct (processFormFromData_row data w items due Hitems Hdue) as (a & b & E).
  eexists. split; [exact E|].
  cbn [invoiceRow app take lookup list_lookup].
  unfold amountsOf, parseFloatV. rewrite Hsub, Htax. cbn [toKey].
  repeat split; vm_compute; reflexivity.
Qed.

(** X3.  The row that [processFormFromData] writes holds the items from
    column 21 on, in the order of the form; the first cell of the item
    at index [i] is the text of [i + 1], whatever it was, and the cells
    other than the first and the period are those of the form. *)
Theorem create_stamps_items (w : World) (data : FormData)
    (items : list (list value)) (due : string) :
  f_items data = Some items ->
  f_dueDate data = VStr due ->
  exists row,
    last (invoices (snd (processFormFromData data w))) = Some row /\
    drop 21 row = concat (imap stampItem items) /\
    forall i it, items !! i = Some it ->
      imap stampItem items !! i = Some (stampItem i it) /\
      head (stampItem i it) = Some (VStr (Str.ofNat (S i))) /\
      forall k, k <> 0%nat -> k <> 2%nat -> stampItem i it !! k = it !! k.
Proof.
  intros Hitems Hdue.
  destruct (processFormFromData_row data w items due Hitems Hdue) as (a & b & E).
  eexists. split; [exact E|]. split; [reflexivity|].
  intros i it Hit. split; [|split].
  - now rewrite list_lookup_imap, Hit.
  - destruct (stampItem_head i it) as (tl & -> & _). reflexivity.
  - intros k Hk0 Hk2. now apply stampItem_other.
Qed.

End CreateFacts.

Lemma create_stores_amounts_witness :
  exists row,
    last (invoices Sample.created) = Some row /\
    row !! 9%nat = Some (VStr "100.00") /\
    row !! 10%nat = Some (VStr "15.00") /\
    row !! 11%nat = Some (VStr "115.00").
Proof.
  destruct (@create_stores_amounts Sample.host Sample.world
              (Sample.invoiceForm "100" Sample.oneItem) Sample.oneItem "14/02/2024"
              eq_refl eq_refl) as (row & E & H9 & H10 & H11).
  exists row. split; [exact E|]. rewrite H9, H10, H11.
  repeat split; vm_compute; reflexivity.
Defined.

Lemma create_stores_15_and_115_witness :
  exists row,
    last (invoices
            (Sample.after (@processFormFromData Sample.host
                             (Sample.invoiceForm "100.00" Sample.oneItem))
               Sample.world)) = Some row /\
    row !! 9%nat = Some (VStr "100.00") /\
    row !! 10%nat = Some (VStr "15.00") /\
    row !! 11%nat = Some (VStr "115.00").
Proof.
  exact (@create_stores_15_and_115 Sample.host Sample.world
           (Sample.invoiceForm "100.00" Sample.oneItem) Sample.oneItem "14/02/2024"
           eq_refl eq_refl eq_refl eq_refl).
Defined.

Lemma create_stamps_items_witness :
  exists row,
    last (invoices Sample.created) = Some row /\
    drop 21 row = VStr <$> ["1"; "Development"; "'Jan 2024"; "10"; "10"; "100"].
Proof.
  destruct (@create_stamps_items Sample.host Sample.world
              (Sample.invoiceForm "100" Sample.oneItem) Sample.oneItem "14/02/2024"
              eq_refl eq_refl) as (row & E & Hd & _).
  exists row. split; [exact E|]. rewrite Hd. vm_compute. reflexivity.
Defined.

(** ** What is read from a row, what an update writes *)

Section CodecFacts.
Context `{Host}.

Lemma present_spec (cell : value) : present cell = true <-> holdsText cell.
Proof.
  unfold present, holdsText. rewrite andb_true_iff, negb_true_iff.
  destruct (Str.trim (toKey cell)); cbn [Str.isEmpty]; split; intros [Ht He];
    (split; [exact Ht|]); try discriminate; try reflexivity.
  now destruct He.
Qed.

(** X4.  The items of a decoded row are, in the order of the row and as
    often as they occur, the slots of [COLUMNS_PER_ROW] cells, among the
    first [MAX_ROWS] from column 21 on, in which some cell holds
    something: it is truthy and its text is not white space only.  The
    other slots, blank padding among them, are left out. *)
Theorem decode_returns_present_slots (headers row : list value) :
  i_items (decodeInvoiceRow headers row)
  = filter (Exists holdsText) (itemSlots row).
Proof.
  cbn [decodeInvoiceRow i_items]. unfold parseItems, itemSlots.
  rewrite (list_fmap_ext
             (fun i => slice row (21 + i * COLUMNS_PER_ROW)
                         (21 + i * COLUMNS_PER_ROW + COLUMNS_PER_ROW))
             (fun i => take COLUMNS_PER_ROW (drop (21 + i * COLUMNS_PER_ROW) row))
             (seq 0 MAX_ROWS)).
  - apply list_filter_iff. intros slot.
    rewrite existsb_exists, Exists_exists. split.
    + intros (c & Hc & Hp). exists c. split; [now apply list_elem_of_In|].
      now apply present_spec.
    + intros (c & Hc & Hp). exists c. split; [now apply list_elem_of_In|].
      now apply present_spec.
  - intros _ i _. unfold slice. f_equal. lia.
Qed.

(** The loop that writes the flattened items into the row. *)
Lemma writeItems_block (width first : nat) (flat : list value) :
  forall (j : nat) (row : list value),
    length row = width ->
    (first + j + length flat <= width)%nat ->
    writeItems width first j flat row
    = take (first + j) row ++ flat ++ drop (first + j + length flat) row.
Proof.
  induction flat as [|c flat IH]; intros j row Hrow Hfit; cbn [writeItems length].
  - rewrite Nat.add_0_r. cbn [app]. now rewrite take_drop.
  - cbn [length] in Hfit.
    destruct (Nat.ltb_spec (first + j) width) as [Hlt|Hge]; [|lia].
    unfold store. destruct (Nat.ltb_spec (first + j) (length row)) as [_|Hge]; [|lia].
    rewrite IH by (rewrite ?length_insert; lia).
    replace (first + S j)%nat with (S (first + j)) by lia.
    rewrite (take_S_r _ _ c) by (apply list_lookup_insert_eq; lia).
    rewrite take_insert_ge by lia. rewrite drop_insert_lt by lia.
    rewrite <- app_assoc. cbn [app].
    now replace (S (first + j) + length flat)%nat
      with (first + j + S (length flat))%nat by lia.
Qed.

(** The item block of the row built by headers. *)
Lemma rowByHeaders_items (headers : list value) (id : value) (data : FormData)
    (due : value) (docUrl pdfUrl : string) (first : nat) :
  let capacity := (MAX_ROWS * COLUMNS_PER_ROW)%nat in
  let flat := stampedCells (default [] (f_items data)) in
  indexOf headers (VStr "Row 1 #") = Some first ->
  (first + capacity <= length headers)%nat ->
  take capacity (drop first (rowByHeaders headers id data due docUrl pdfUrl))
  = take capacity flat ++ replicate (capacity - length flat) (VStr "").
Proof.
  intros capacity flat Hfirst Hfit. unfold rowByHeaders. cbv zeta. rewrite Hfirst.
  fold capacity. fold flat.
  assert (Hlen : length (fitTo capacity flat) = capacity).
  { unfold fitTo. rewrite length_app, length_take, length_replicate. lia. }
  assert (Hfill : forall a name v,
             length a = length headers ->
             length (storeIdx a (indexMapOf headers !! name) v) = length headers).
  { intros a name v Ha. apply length_storeIdx; [exact Ha|].
    intros i. apply indexMapOf_bound. }
  match goal with
  | |- context [writeItems _ _ _ _ ?r] =>
      set (fullRow := r);
      assert (Hfull : length fullRow = length headers)
        by (repeat apply Hfill; apply length_replicate)
  end.
  rewrite writeItems_block by (rewrite ?Hlen; lia).
  rewrite Nat.add_0_r, drop_app_length' by (rewrite length_take; lia).
  now rewrite take_app_length' by now rewrite Hlen.
Qed.

Lemma take_concat_uniform {A} (cols : nat) (its : list (list A)) :
  Forall (fun it => length it = cols) its ->
  forall m, take (m * cols) (concat its) = concat (take m its).
Proof.
  induction 1 as [|it its Hit _ IH]; intros m.
  - rewrite take_nil. cbn [concat]. apply take_nil.
  - destruct m as [|m]; [reflexivity|].
    cbn [Nat.mul concat take]. rewrite take_app_add' by now symmetry.
    now rewrite IH.
Qed.

Lemma take_imap {A B} (l : list A) :
  forall (f : nat -> A -> B) (m : nat), take m (imap f l) = imap f (take m l).
Proof.
  induction l as [|x l IH]; intros f m.
  - rewrite take_nil. cbn [imap]. apply take_nil.
  - destruct m as [|m]; [reflexivity|]. cbn [imap take]. now rewrite IH.
Qed.

(** X5.  In the row that an update builds by headers, the item block
    holds the first [MAX_ROWS] items, stamped, and then blanks up to its
    [MAX_ROWS * COLUMNS_PER_ROW] cells. *)
Theorem update_truncates_and_pads (headers : list value) (id : value)
    (data : FormData) (due : value) (docUrl pdfUrl : string) (first : nat) :
  let items := default [] (f_items data) in
  indexOf headers (VStr "Row 1 #") = Some first ->
  (first + MAX_ROWS * COLUMNS_PER_ROW <= length headers)%nat ->
  (0 < COLUMNS_PER_ROW)%nat ->
  Forall (fun it => length it = COLUMNS_PER_ROW) items ->
  take (MAX_ROWS * COLUMNS_PER_ROW)
       (drop first (rowByHeaders headers id data due docUrl pdfUrl))
  = concat (imap stampItem (take MAX_ROWS items))
    ++ replicate ((MAX_ROWS - length items) * COLUMNS_PER_ROW) (VStr "").
Proof.
  intros items Hfirst Hfit Hcols Hshape.
  rewrite (rowByHeaders_items _ _ _ _ _ _ first Hfirst Hfit). fold items.
  assert (Hst : Forall (fun it => length it = COLUMNS_PER_ROW) (imap stampItem items)).
  { apply Forall_imap_any. intros i it Hit. rewrite length_stampItem.
    - revert it Hit. now apply Forall_forall.
    - rewrite Forall_forall in Hshape. rewrite (Hshape it Hit). exact Hcols. }
  unfold stampedCells.
  rewrite (take_concat_uniform _ _ Hst), take_imap.
  rewrite (length_concat_uniform _ _ Hst), length_imap.
  now rewrite Nat.mul_sub_distr_r.
Qed.

End CodecFacts.

Lemma decode_returns_present_slots_witness :
  i_items
    (@decodeInvoiceRow Sample.host (@invoiceHeaders Sample.host)
       (replicate 21 (VStr "x")
        ++ Sample.item "1" "Development" "'Jan 2024" "10" "10" "100"
        ++ replicate 6 (VStr "  ")
        ++ Sample.item "3" "Support" "'Feb 2024" "2" "10" "20"
        ++ replicate 6 (VStr "")))
  = [ Sample.item "1" "Development" "'Jan 2024" "10" "10" "100";
      Sample.item "3" "Support" "'Feb 2024" "2" "10" "20" ].
Proof.
  rewrite decode_returns_present_slots. vm_compute. reflexivity.
Defined.

Lemma update_truncates_and_pads_witness :
  take 120 (drop 21 (@rowByHeaders Sample.host (@invoiceHeaders Sample.host)
                       (VStr "uuid-0") Sample.longForm (VStr "") "doc" "pdf"))
  = concat (imap (@stampItem Sample.host)
              (replicate 20 (Sample.item "7" "Development" "Jan 2024" "10" "10" "100"))).
Proof.
  etransitivity.
  - refine (@update_truncates_and_pads Sample.host (@invoiceHeaders Sample.host)
              (VStr "uuid-0") Sample.longForm (VStr "") "doc" "pdf" 21 _ _ _ _).
    + vm_compute. reflexivity.
    + vm_compute. lia.
    + vm_compute. lia.
    + repeat constructor.
  - vm_compute. reflexivity.
Defined.

(** ** Outcomes of the operations *)

Section Outcomes.
Context `{Host}.

Ltac quiet := intros ? ?; reflexivity.

Lemma wp_cacheRemove (key : string) (Q : result unit -> World -> Prop) (w : World) :
  Q (Ok tt) (withCache (delete key (cache w)) w) -> wp (cacheRemove key) Q w.
Proof. exact (fun q => q). Qed.

(** The parts of the world that a creation reads or writes, the Drive
    and the jobs apart. *)
Lemma processFormFromData_outcome (data : FormData) (w : World)
    (items : list (list value)) (due : string) :
  f_items data = Some items ->
  f_dueDate data = VStr due ->
  let row := invoiceRow (getUuid (drawn w)) data (dueDateOf due) items in
  match processFormFromData data w with
  | (Ok (d, p), w1) =>
      invoices w1
      = headed (invoices w) ++ [take 19 row ++ VStr d :: VStr p :: drop 21 row] /\
      cache w1 = delete "invoiceList" (cache w) /\
      creditNotes w1 = creditNotes w /\ lists w1 = lists w
  | (Throw e, w1) =>
      invoices w1 = headed (invoices w) ++ [row] /\
      cache w1 = cache w /\
      creditNotes w1 = creditNotes w /\ lists w1 = lists w
  end.
Proof.
  intros Hitems Hdue row.
  set (Q := fun (r : result (string * string)) (w1 : World) =>
              match r with
              | Ok (d, p) =>
                  invoices w1
                  = headed (invoices w)
                    ++ [take 19 row ++ VStr d :: VStr p :: drop 21 row] /\
                  cache w1 = delete "invoiceList" (cache w) /\
                  creditNotes w1 = creditNotes w /\ lists w1 = lists w
              | Throw e =>
                  invoices w1 = headed (invoices w) ++ [row] /\
                  cache w1 = cache w /\
                  creditNotes w1 = creditNotes w /\ lists w1 = lists w
              end).
  enough (HQ : wp (processFormFromData data) Q w).
  { unfold wp in HQ. destruct (processFormFromData data w) as [[[d p]|e] w1];
      exact HQ. }
  set (core := fun w0 : World => (invoices w0, cache w0, creditNotes w0, lists w0)).
  assert (Hcore : forall w1 w2, core w1 = core w2 ->
            invoices w1 = invoices w2 /\ cache w1 = cache w2 /\
            creditNotes w1 = creditNotes w2 /\ lists w1 = lists w2).
  { unfold core. intros w1 w2 E. injection E as -> -> -> ->. now repeat split. }
  assert (Hrow : forall a b,
             take 19 row ++ a :: b :: drop 21 row
             = <[20 := b]> (<[19 := a]> row)) by reflexivity.
  assert (Hlen : (20 < length row)%nat) by (cbn; lia).
  unfold processFormFromData.
  apply wp_bind, wp_drawUuid. apply wp_bind, wp_readSheet.
  apply wp_bind.
  assert (Hhd : forall w0, core w0 = core w ->
             wp (if (getLastRow (invoices w0) =? 0)%nat
                 then writeSheet INVOICES (appendRow invoiceHeaders) else ret tt)
                (fun r w1 => r = Ok tt /\ invoices w1 = headed (invoices w) /\
                             cache w1 = cache w /\ creditNotes w1 = creditNotes w /\
                             lists w1 = lists w) w0).
  { intros w0 E0. destruct (Hcore _ _ E0) as (Ei & Ec & En & El).
    unfold headed. rewrite Ei.
    destruct (_ =? _)%nat; [apply wp_writeSheet|apply wp_ret]; cbn;
      rewrite ?Ei; now repeat split. }
  eapply wp_mono; [apply (Hhd (withDrawn (S (drawn w)) w) eq_refl)|]. clear Hhd.
  intros r w1 (-> & E1 & Ec1 & En1 & El1). set (s1 := headed (invoices w)) in *.
  rewrite Hdue. apply wp_bind, wp_lift. cbn [asString]. rewrite Hitems.
  apply wp_bind, wp_readSheet. apply wp_bind, wp_writeSheet.
  cbn [sheetOf]. unfold getLastRow. rewrite E1, setRow_append. fold row.
  set (w2 := withSheet INVOICES (s1 ++ [row]) w1).
  assert (Hplain : forall w', core w' = core w2 -> forall e, Q (Throw e) w').
  { intros w' E e. destruct (Hcore _ _ E) as (Ei & Ec & En & El).
    cbn [Q]. rewrite Ei, Ec, En, El. cbn. now rewrite Ec1, En1, El1. }
  apply wp_bind. apply (wp_keeps core); [apply keeps_getProjectFolderId|].
  intros [folderId|e] w3 E3; [|now apply Hplain].
  apply wp_bind. apply (wp_keeps core); [apply keeps_createInvoiceDoc; quiet|].
  intros [doc|e] w4 E4; [|apply Hplain; now rewrite E4].
  apply wp_bind. apply (wp_keeps core); [apply keeps_savePdf|].
  intros [pdfUrl|e] w5 E5; [|apply Hplain; now rewrite E5, E4].
  destruct (Hcore w5 w2) as (Ei & Ec & En & El); [now rewrite E5, E4, E3|].
  cbn [w2 withSheet invoices cache creditNotes lists] in Ei, Ec, En, El.
  apply wp_bind, wp_writeSheet. cbn [sheetOf].
  rewrite Ei, setCell_last by lia.
  apply wp_bind, wp_writeSheet. cbn [sheetOf withSheet invoices].
  rewrite setCell_last by (rewrite length_insert; lia).
  apply wp_bind, wp_cacheRemove. apply wp_ret. cbn [Q]. rewrite Hrow.
  cbn [invoices cache creditNotes lists withCache withSheet].
  rewrite Ec, En, El, Ec1, En1, El1. now repeat split.
Qed.


(** What a deletion answers, and what it leaves. *)
Lemma deleteByIdFromData_outcome (n : SheetName) (invalidId notFound cacheKey : string)
    (id : value) (w : World) :
  let data := getValues (sheetOf n w) in
  let headers := default [] (head data) in
  match deleteByIdFromData n invalidId notFound cacheKey id w with
  | (Ok (Deleted note), w') =>
      exists c i row,
        blankId id = false /\
        indexOf headers (VStr "ID") = Some c /\
        findRow data (Some c) id = Some (i, row) /\
        sheetOf n w' = deleteRow (S i) (sheetOf n w) /\
        (forall m, m <> n -> sheetOf m w' = sheetOf m w) /\
        cache w' = delete cacheKey (cache w)
  | (Ok (NotDeleted e), w') => sheets w' = sheets w /\ cache w' = cache w
  | (Throw e, w') => False
  end.
Proof.
  intros data headers.
  set (Q := fun (r : result deletion) (w' : World) =>
              match r with
              | Ok (Deleted note) =>
                  exists c i row,
                    blankId id = false /\
                    indexOf headers (VStr "ID") = Some c /\
                    findRow data (Some c) id = Some (i, row) /\
                    sheetOf n w' = deleteRow (S i) (sheetOf n w) /\
                    (forall m, m <> n -> sheetOf m w' = sheetOf m w) /\
                    cache w' = delete cacheKey (cache w)
              | Ok (NotDeleted e) => sheets w' = sheets w /\ cache w' = cache w
              | Throw e => False
              end).
  enough (HQ : wp (deleteByIdFromData n invalidId notFound cacheKey id) Q w).
  { unfold wp in HQ.
    destruct (deleteByIdFromData n invalidId notFound cacheKey id w)
      as [[[note|e]|e] w']; exact HQ. }
  set (core := fun w0 : World => (sheets w0, cache w0)).
  assert (Hno : forall w' e, core w' = core w -> Q (Ok (NotDeleted e)) w').
  { unfold core. intros w' e E. now apply pair_equal_spec in E. }
  unfold deleteByIdFromData. apply wp_tryCatch.
  destruct (blankId id) eqn:Hb; [apply wp_ret; now apply Hno|].
  apply wp_bind, wp_readSheet. cbv zeta. fold data. fold headers.
  destruct (indexOf headers (VStr "ID")) as [c|] eqn:Hc;
    [|apply wp_throw, wp_ret; now apply Hno].
  destruct (findRow data (Some c) id) as [[i row]|] eqn:Ef;
    [|apply wp_ret; now apply Hno].
  apply wp_bind. apply (wp_keeps core); [apply keeps_trashArtifact; quiet|].
  intros [n1|e] w1 E1; [|apply wp_ret; now apply Hno].
  apply wp_bind. apply (wp_keeps core); [apply keeps_trashArtifact; quiet|].
  intros [n2|e] w2 E2; [|apply wp_ret; apply Hno; now rewrite E2].
  assert (E : core w2 = core w) by now rewrite E2.
  unfold core in E. apply pair_equal_spec in E. destruct E as [Es Ec].
  apply wp_bind, wp_writeSheet. apply wp_bind, wp_cacheRemove. apply wp_ret.
  cbn [Q]. exists c, i, row. repeat split; try assumption.
  - rewrite (sheetOf_sheets n w w2 Es). now destruct n.
  - intros m Hm. rewrite <- (sheetOf_sheets m w w2 Es). now destruct n, m.
  - destruct n; cbn; now rewrite Ec.
Qed.


(** A deletion that finds its row, with link cells that are texts. *)
Lemma deleteByIdFromData_found (n : SheetName) (invalidId notFound cacheKey : string)
    (w : World) (id : value) (c i : nat) (row : list value) (du pu : string) :
  let data := getValues (sheetOf n w) in
  let headers := default [] (head data) in
  blankId id = false ->
  indexOf headers (VStr "ID") = Some c ->
  findRow data (Some c) id = Some (i, row) ->
  orElse (getIdx row (indexOf headers (VStr "Google Doc Link"))) (VStr "") = VStr du ->
  orElse (getIdx row (indexOf headers (VStr "PDF Link"))) (VStr "") = VStr pu ->
  exists note w',
    deleteByIdFromData n invalidId notFound cacheKey id w = (Ok (Deleted note), w') /\
    sheetOf n w' = deleteRow (S i) (sheetOf n w) /\
    (forall m, m <> n -> sheetOf m w' = sheetOf m w) /\
    cache w' = delete cacheKey (cache w).
Proof.
  intros data headers Hb Hc Ef Hdu Hpu.
  unfold deleteByIdFromData.
  unfold tryCatch at 1. rewrite Hb. unfold bindM at 1. unfold readSheet at 1.
  cbv zeta. fold data. fold headers. rewrite Hc, Ef, Hdu, Hpu.
  unfold bindM at 1. rewrite trashArtifact_spec.
  unfold bindM at 1. rewrite trashArtifact_spec.
  do 2 eexists. split; [reflexivity|].
  unfold artifactGone. destruct n; cbn; repeat split; intros m Hm; now destruct m.
Qed.

Lemma indexOf_invoiceHeaders (W : nat) :
  indexOf (padRow W invoiceHeaders) (VStr "ID") = Some 0%nat /\
  indexOf (padRow W invoiceHeaders) (VStr "Google Doc Link") = Some 19%nat /\
  indexOf (padRow W invoiceHeaders) (VStr "PDF Link") = Some 20%nat.
Proof. repeat split. Qed.

(** X6.  Deleting, by its identifier, the invoice that a successful
    [processFormFromData] has just written gives the invoice sheet back
    as the creation found it (with the header, if the creation had to
    write it), leaves no cached list, and the identifier then reads as
    not found. *)
Theorem delete_after_create (w : World) (data : FormData)
    (items : list (list value)) (due : string) (urls : string * string)
    (w1 : World) :
  let u := getUuid (drawn w) in
  f_items data = Some items ->
  f_dueDate data = VStr due ->
  invoices w = [] \/ head (invoices w) = Some invoiceHeaders ->
  blankId (VStr u) = false ->
  Forall (fun r => r !! 0%nat <> Some (VStr u)) (invoices w) ->
  processFormFromData data w = (Ok urls, w1) ->
  exists note w2,
    deleteInvoiceByIdFromData (VStr u) w1 = (Ok (Deleted note), w2) /\
    invoices w2 = headed (invoices w) /\
    cache w2 !! "invoiceList" = None /\
    getInvoiceDataByIdFromData (VStr u) w2 = (Ok None, w2).
Proof.
  intros u Hitems Hdue Hhead Hblank Hfresh Hrun.
  pose proof (processFormFromData_outcome data w items due Hitems Hdue) as Ho.
  cbv zeta in Ho. rewrite Hrun in Ho. destruct urls as [d p].
  destruct Ho as (Ei & Ec & _ & _). fold u in Ei.
  rewrite (headed_cases _ Hhead) in *.
  set (row := invoiceRow u data (dueDateOf due) items) in Ei.
  set (r' := take 19 row ++ VStr d :: VStr p :: drop 21 row) in Ei.
  set (tl := drop 1 (invoices w)) in *.
  set (W := sheetWidth ((invoiceHeaders :: tl) ++ [r'])).
  assert (Ehd : default [] (head (getValues (invoices w1))) = padRow W invoiceHeaders)
    by now rewrite Ei.
  destruct (indexOf_invoiceHeaders W) as (Hid & Hdoc & Hpdf).
  assert (Hfr : Forall (fun x => x !! 0%nat <> Some (VStr u)) tl)
    by now apply Forall_drop.
  destruct (deleteByIdFromData_found INVOICES "Invalid invoice ID provided"
              "Invoice not found." "invoiceList" w1 (VStr u) 0 (S (length tl))
              (padRow W r') d p) as (note & w2 & Ed & Es & _ & Ecache).
  - exact Hblank.
  - cbn [sheetOf]. now rewrite Ehd.
  - cbn [sheetOf]. rewrite Ei. apply findRow_last;
      [now apply blankId_text|exact Hfr|reflexivity].
  - cbn [sheetOf]. rewrite Ehd, Hdoc.
    change (getIdx (padRow W r') (Some 19%nat)) with (VStr d). now destruct d.
  - cbn [sheetOf]. rewrite Ehd, Hpdf.
    change (getIdx (padRow W r') (Some 20%nat)) with (VStr p). now destruct p.
  - cbn [sheetOf] in Es. exists note, w2. split; [exact Ed|].
    assert (Es2 : invoices w2 = invoiceHeaders :: tl).
    { rewrite Es, Ei. cbn [deleteRow app].
      change (delete (S (length tl)) (invoiceHeaders :: (tl ++ [r'])))
        with (invoiceHeaders :: delete (length tl) (tl ++ [r'])).
      f_equal. rewrite delete_middle. apply app_nil_r. }
    split; [exact Es2|]. split.
    + rewrite Ecache. apply lookup_delete_eq.
    + unfold getInvoiceDataByIdFromData. rewrite Hblank.
      unfold bindM, readSheet. cbn [sheetOf]. rewrite Es2. cbv zeta.
      set (W2 := sheetWidth (invoiceHeaders :: tl)).
      assert (Ehd2 : default [] (head (getValues (invoiceHeaders :: tl)))
                     = padRow W2 invoiceHeaders) by reflexivity.
      rewrite Ehd2, (baseIndexed_headers W2 0%nat "ID" eq_refl).
      unfold findRow. rewrite getValues_nonempty by discriminate.
      rewrite fmap_cons. cbn [drop]. rewrite drop_0, findRowFrom_none; [reflexivity|].
      apply Forall_fmap. eapply Forall_impl; [exact Hfr|].
      intros x Hx. apply other_row; [now apply blankId_text|exact Hx].
Qed.


Lemma setRow_replace (s : Sheet) (i : nat) (old cells : list value) :
  s !! i = Some old -> (length old <= length cells)%nat ->
  setRow (S i) cells s = <[i := cells]> s.
Proof.
  intros Hold Hle. pose proof (lookup_lt_Some _ _ _ Hold) as Hi.
  unfold setRow. replace (S i - length s)%nat with 0%nat by lia.
  cbn [replicate]. rewrite app_nil_r.
  rewrite (list_alter_as_insert _ _ _ _ Hold).
  now rewrite drop_ge, app_nil_r.
Qed.

(** What an update by headers answers, and what it leaves. *)
Lemma updateByHeaders_outcome (n : SheetName) (a b k cacheKey : string)
    (id : value) (data : FormData) (w : World) :
  let table := getValues (sheetOf n w) in
  let headers := default [] (head table) in
  match updateByHeaders n a b k cacheKey id data w with
  | (Ok (Success d p), w') =>
      exists c i row dueText,
        indexMapOf headers !! "ID" = Some c /\
        findRow table (Some c) id = Some (i, row) /\
        asString (orElse (f_dueDate data) (VStr "01/01/1970")) = Ok dueText /\
        sheetOf n w'
        = <[i := rowByHeaders headers id data (dueDateOf dueText) d p]> (sheetOf n w) /\
        (forall m, m <> n -> sheetOf m w' = sheetOf m w) /\
        cache w' = delete cacheKey (cache w)
  | (Ok (Failure e), w') => sheets w' = sheets w /\ cache w' = cache w
  | (Throw e, w') => False
  end.
Proof.
  intros table headers.
  set (Q := fun (r : result outcome) (w' : World) =>
              match r with
              | Ok (Success d p) =>
                  exists c i row dueText,
                    indexMapOf headers !! "ID" = Some c /\
                    findRow table (Some c) id = Some (i, row) /\
                    asString (orElse (f_dueDate data) (VStr "01/01/1970"))
                    = Ok dueText /\
                    sheetOf n w'
                    = <[i := rowByHeaders headers id data (dueDateOf dueText) d p]>
                        (sheetOf n w) /\
                    (forall m, m <> n -> sheetOf m w' = sheetOf m w) /\
                    cache w' = delete cacheKey (cache w)
              | Ok (Failure e) => sheets w' = sheets w /\ cache w' = cache w
              | Throw e => False
              end).
  enough (HQ : wp (updateByHeaders n a b k cacheKey id data) Q w).
  { unfold wp in HQ.
    destruct (updateByHeaders n a b k cacheKey id data w) as [[[d p|e]|e] w'];
      exact HQ. }
  set (core := fun w0 : World => (sheets w0, cache w0)).
  assert (Hno : forall w' e, core w' = core w -> Q (Ok (Failure e)) w').
  { unfold core. intros w' e E. now apply pair_equal_spec in E. }
  unfold updateByHeaders. apply wp_tryCatch.
  destruct (blankId id); [apply wp_ret; now apply Hno|].
  apply wp_bind, wp_readSheet. cbv zeta. fold table. fold headers.
  destruct (indexMapOf headers !! "ID") as [c|] eqn:Hc;
    [|apply wp_throw, wp_ret; now apply Hno].
  destruct (findRow table (Some c) id) as [[i row]|] eqn:Ef;
    [|apply wp_ret; now apply Hno].
  apply wp_bind. apply (wp_keeps core); [apply keeps_trashOld; quiet|].
  intros [[]|e] w1 E1; [|apply wp_ret; now apply Hno].
  apply wp_bind. apply (wp_keeps core); [apply keeps_trashOld; quiet|].
  intros [[]|e] w2 E2; [|apply wp_ret; apply Hno; now rewrite E2].
  apply wp_bind, wp_lift.
  destruct (asString _) as [dueText|e] eqn:Hdue;
    [|apply wp_ret; apply Hno; now rewrite E2].
  apply wp_bind. apply (wp_keeps core); [apply keeps_getProjectDetailsFromData|].
  intros [details|e] w3 E3; [|apply wp_ret; apply Hno; now rewrite E3, E2].
  destruct (Str.isEmpty _);
    [apply wp_throw, wp_ret; apply Hno; now rewrite E3, E2|].
  apply wp_bind. apply (wp_keeps core); [apply keeps_getProjectFolderId|].
  intros [folderId|e] w4 E4; [|apply wp_ret; apply Hno; now rewrite E4, E3, E2].
  apply wp_bind. apply (wp_keeps core); [apply keeps_createInvoiceDoc; quiet|].
  intros [doc|e] w5 E5;
    [|apply wp_ret; apply Hno; now rewrite E5, E4, E3, E2].
  apply wp_bind. apply (wp_keeps core); [apply keeps_savePdf|].
  intros [pdfUrl|e] w6 E6;
    [|apply wp_ret; apply Hno; now rewrite E6, E5, E4, E3, E2].
  assert (E : core w6 = core w) by now rewrite E6, E5, E4, E3, E2.
  unfold core in E. apply pair_equal_spec in E. destruct E as [Es Ec].
  apply wp_bind, wp_writeSheet. apply wp_bind, wp_cacheRemove. apply wp_ret.
  cbn [Q]. exists c, i, row, dueText. repeat split; try assumption.
  - destruct (findRow_Some _ _ _ _ _ Ef) as (Hi1 & Hrow & _).
    destruct (findRow_sheet _ _ _ _ _ Ef) as (Hi & Hs).
    destruct (lookup_lt_is_Some_2 (sheetOf n w) i) as [old Hold]; [lia|].
    assert (Esh : sheetOf n (withCache (delete cacheKey
                     (cache (withSheet n
                        (setRow (S i)
                           (rowByHeaders headers id data (dueDateOf dueText)
                              (docUrl doc) pdfUrl) (sheetOf n w6)) w6)))
                     (withSheet n
                        (setRow (S i)
                           (rowByHeaders headers id data (dueDateOf dueText)
                              (docUrl doc) pdfUrl) (sheetOf n w6)) w6))
                  = setRow (S i)
                      (rowByHeaders headers id data (dueDateOf dueText)
                         (docUrl doc) pdfUrl) (sheetOf n w6)) by now destruct n.
    rewrite Esh, (sheetOf_sheets n w w6 Es).
    apply (setRow_replace _ _ old); [exact Hold|].
    rewrite length_rowByHeaders.
    change (length headers) with (tableWidth (sheetOf n w)).
    rewrite (tableWidth_nonempty _ Hs). now apply (sheetWidth_row _ i).
  - intros m Hm. rewrite <- (sheetOf_sheets m w w6 Es). now destruct n, m.
  - destruct n; cbn; now rewrite Ec.
Qed.


(** X7.  A creation with items and a due date appends exactly one row
    below the rows of the sheet and changes no other row or sheet.  When
    it answers, the two link cells hold the URLs of the answer and the
    cached list is dropped; when it throws (the template is missing, the
    renderer fails, the PDF cannot be saved), the row stays, with empty
    link cells, and the cached list is kept. *)
Theorem create_outcome (w : World) (data : FormData)
    (items : list (list value)) (due : string) :
  f_items data = Some items ->
  f_dueDate data = VStr due ->
  let row := invoiceRow (getUuid (drawn w)) data (dueDateOf due) items in
  let w1 := snd (processFormFromData data w) in
  creditNotes w1 = creditNotes w /\ lists w1 = lists w /\
  match fst (processFormFromData data w) with
  | Ok (d, p) =>
      invoices w1
      = headed (invoices w) ++ [take 19 row ++ VStr d :: VStr p :: drop 21 row] /\
      cache w1 = delete "invoiceList" (cache w)
  | Throw e =>
      invoices w1 = headed (invoices w) ++ [row] /\ cache w1 = cache w
  end.
Proof.
  intros Hitems Hdue row w1.
  pose proof (processFormFromData_outcome data w items due Hitems Hdue) as Ho.
  cbv zeta in Ho. fold row in Ho. unfold w1.
  destruct (processFormFromData data w) as [[[d p]|e] w']; cbn [fst snd];
    destruct Ho as (Ei & Ec & En & El); now repeat split.
Qed.

(** X8.  [deleteCreditNoteByIdFromData] never throws.  When it answers
    success, the identifier is not blank, the header has an ID column,
    and the row removed is the first one whose ID cell is strictly equal
    to the identifier; nothing else in the sheets changes and the cached
    list is dropped.  When it answers failure, sheets and cache are as
    they were. *)
Theorem credit_note_delete_outcome (id : value) (w : World) :
  let data := getValues (creditNotes w) in
  let headers := default [] (head data) in
  match deleteCreditNoteByIdFromData id w with
  | (Ok (Deleted note), w') =>
      exists c i row,
        blankId id = false /\
        indexOf headers (VStr "ID") = Some c /\
        findRow data (Some c) id = Some (i, row) /\
        creditNotes w' = delete i (creditNotes w) /\
        invoices w' = invoices w /\ lists w' = lists w /\
        cache w' = delete "creditNoteList" (cache w)
  | (Ok (NotDeleted e), w') => sheets w' = sheets w /\ cache w' = cache w
  | (Throw e, w') => False
  end.
Proof.
  intros data headers.
  pose proof (deleteByIdFromData_outcome CREDITNOTES
                "Invalid credit note ID provided" "Credit note not found."
                "creditNoteList" id w) as Ho.
  cbv zeta in Ho. cbn [sheetOf] in Ho. fold data headers in Ho.
  unfold deleteCreditNoteByIdFromData.
  destruct (deleteByIdFromData _ _ _ _ id w) as [[[note|e]|e] w']; try exact Ho.
  destruct Ho as (c & i & row & Hb & Hc & Ef & Es & Hm & Ec).
  exists c, i, row. repeat split; try assumption.
  - exact (Hm INVOICES ltac:(discriminate)).
  - exact (Hm LISTS ltac:(discriminate)).
Qed.

(** X9.  [updateInvoiceByIdFromData] never throws.  When it answers
    success, the first row whose ID cell is strictly equal to the
    identifier has been replaced by the row built by headers, every
    other row and sheet is as it was, and the cached list is dropped.
    When it answers failure, sheets and cache are as they were. *)
Theorem invoice_update_outcome (id : value) (data : FormData) (w : World) :
  let table := getValues (invoices w) in
  let headers := default [] (head table) in
  match updateInvoiceByIdFromData id data w with
  | (Ok (Success d p), w') =>
      exists c i row dueText,
        indexMapOf headers !! "ID" = Some c /\
        findRow table (Some c) id = Some (i, row) /\
        asString (orElse (f_dueDate data) (VStr "01/01/1970")) = Ok dueText /\
        invoices w'
        = <[i := rowByHeaders headers id data (dueDateOf dueText) d p]> (invoices w) /\
        creditNotes w' = creditNotes w /\ lists w' = lists w /\
        cache w' = delete "invoiceList" (cache w)
  | (Ok (Failure e), w') => sheets w' = sheets w /\ cache w' = cache w
  | (Throw e, w') => False
  end.
Proof.
  intros table headers.
  pose proof (updateByHeaders_outcome INVOICES "Invalid invoice ID provided"
                "Invoice not found." "_Invoice" "invoiceList" id data w) as Ho.
  cbv zeta in Ho. cbn [sheetOf] in Ho. fold table headers in Ho.
  unfold updateInvoiceByIdFromData.
  destruct (updateByHeaders _ _ _ _ _ id data w) as [[[d p|e]|e] w']; try exact Ho.
  destruct Ho as (c & i & row & dueText & Hc & Ef & Hd & Es & Hm & Ec).
  exists c, i, row, dueText. repeat split; try assumption.
  - exact (Hm CREDITNOTES ltac:(discriminate)).
  - exact (Hm LISTS ltac:(discriminate)).
Qed.

End Outcomes.

Lemma delete_after_create_witness :
  exists note w2,
    @deleteInvoiceByIdFromData Sample.host (VStr "uuid-0") Sample.created
      = (Ok (Deleted note), w2) /\
    invoices w2 = [@invoiceHeaders Sample.host] /\
    cache w2 !! "invoiceList" = None /\
    @getInvoiceDataByIdFromData Sample.host (VStr "uuid-0") w2 = (Ok None, w2).
Proof.
  apply (@delete_after_create Sample.host Sample.world
           (Sample.invoiceForm "100" Sample.oneItem) Sample.oneItem "14/02/2024"
           ("https://docs.google.com/document/d/document-0000000000000000-template-acme-standard-0000001/edit",
            "https://drive.google.com/file/d/pdf-file-00000000000000000000/2024-01-15_InvoiceINV-7_Ours GmbH-Acme Ltd.pdf")
           Sample.created).
  - reflexivity.
  - reflexivity.
  - left. reflexivity.
  - vm_compute. reflexivity.
  - constructor.
  - vm_compute. reflexivity.
Defined.

Lemma create_outcome_witness :
  @processFormFromData Sample.host Sample.untemplated Sample.world
    = (Throw NoTemplateId,
       Sample.after (@processFormFromData Sample.host Sample.untemplated) Sample.world) /\
  (exists row,
      invoices (Sample.after (@processFormFromData Sample.host Sample.untemplated)
                  Sample.world)
      = [@invoiceHeaders Sample.host; row] /\
      row !! 19%nat = Some (VStr "") /\ row !! 20%nat = Some (VStr "")) /\
  cache (Sample.after (@processFormFromData Sample.host Sample.untemplated)
           Sample.world) !! "invoiceList" = Some "[]".
Proof.
  destruct (@create_outcome Sample.host Sample.world Sample.untemplated
              Sample.oneItem "14/02/2024" eq_refl eq_refl) as (_ & _ & Ho).
  assert (E : @processFormFromData Sample.host Sample.untemplated Sample.world
              = (Throw NoTemplateId,
                 Sample.after (@processFormFromData Sample.host Sample.untemplated)
                   Sample.world)) by (vm_compute; reflexivity).
  rewrite E in Ho. cbn [fst snd] in Ho. destruct Ho as [Ei Ec].
  split; [exact E|]. split.
  - eexists. split; [exact Ei|]. split; reflexivity.
  - vm_compute. reflexivity.
Defined.

(** ** Validation before creation *)

Section GuardFacts.
Context `{Host}.

Lemma one_error (b : bool) (m : string) :
  (if b then [m] else []) = [] <-> b = false.
Proof. destruct b; split; intros E; try reflexivity; discriminate E. Qed.

Lemma blankId_truthy (v : value) : blankId v = false -> truthy v = true.
Proof. unfold blankId. now destruct (truthy v). Qed.

Lemma validateInvoiceData_nil (data : FormData) :
  validateInvoiceData data = [] <-> wellFormed data.
Proof.
  unfold wellFormed, validateInvoiceData. cbv zeta.
  cbn [fmap list_fmap concat fst snd].
  assert (Hitems : match f_items data with
                   | Some (_ :: _) => []
                   | _ => ["At least one invoice item is required"]
                   end = [] <-> exists item items, f_items data = Some (item :: items)).
  { destruct (f_items data) as [[|item items]|]; split;
      try discriminate; try (intros (? & ? & E); discriminate E); eauto. }
  split.
  - intros E.
    repeat match type of E with
           | _ ++ _ = [] => apply app_nil in E; destruct E as [? E]
           end.
    repeat match goal with
           | E' : (if ?b then _ else _) = [] |- _ => apply one_error in E'
           | E' : _ ++ _ = [] |- _ => apply app_nil in E'; destruct E' as [? ?]
           end.
    rewrite (blankId_truthy _ H7) in H1. rewrite (blankId_truthy _ H8) in H2.
    cbn [andb] in H1, H2. apply Hitems in H3.
    destruct (truthy (f_templateId data)); [|discriminate E].
    repeat split; assumption.
  - intros (E1 & E2 & E3 & E4 & E5 & E6 & N1 & N2 & I & T).
    rewrite E1, E2, E3, E4, E5, E6, N1, N2, T, !andb_false_r.
    apply Hitems in I. rewrite I. reflexivity.
Qed.


(** The checks that the two creations make before they start: the
    project details, then the folder. *)
Lemma resolved_then {A} (body : M A) (name : value) (w : World) :
  let m :=
    (let! _ := getProjectDetailsWithValidation name in
     let! folderId := getProjectFolderId name in
     if Str.isEmpty folderId
     then throw (Error "Missing folderId for this project.")
     else body) in
  (forall e, fst (getProjectDetailsWithValidation name w) = Throw e ->
             m w = (Throw e, w)) /\
  (forall details,
      fst (getProjectDetailsWithValidation name w) = Ok details ->
      fst (getProjectFolderId name w) = Ok "" ->
      m w = (Throw (Error "Missing folderId for this project."), w)) /\
  (forall details folder,
      fst (getProjectDetailsWithValidation name w) = Ok details ->
      fst (getProjectFolderId name w) = Ok folder -> folder <> "" ->
      m w = body w).
Proof.
  cbv zeta. unfold bindM.
  pose proof (keeps_getProjectDetailsWithValidation (fun w => w) name w) as Hk.
  destruct (getProjectDetailsWithValidation name w) as [[d|e] w1]; cbn [fst snd] in *;
    subst w1.
  - split; [discriminate|].
    unfold getProjectFolderId, bindM, readSheet, ret. cbn [fst snd sheetOf].
    split.
    + intros _ _ [= ->]. reflexivity.
    + intros _ folder _ [= ->] Hne.
      destruct folder; [now destruct Hne | reflexivity].
  - split; [now intros e' [= ->]|]. split; discriminate.
Qed.

(** X10.  [processInvoiceCreation] writes nothing unless the form is well
    formed and its project resolves.  A form that fails validation is
    rejected with the joined error texts and the world is as it was.  A
    well-formed form is rejected, the world as it was, with what
    [getProjectDetailsWithValidation] throws when it throws, and for want
    of a folder when [getProjectFolderId] gives the empty text.  In the
    one case left, details found and a folder that is not empty, the call
    is [processFormFromData], answer and world. *)
Theorem creation_guard (data : FormData) (w : World) :
  let name := f_projectName data in
  (~ wellFormed data ->
   processInvoiceCreation data w
   = (Throw (Error ("Validation failed: " +:+ joinErrors (validateInvoiceData data))), w)) /\
  (wellFormed data ->
   forall e,
     fst (getProjectDetailsWithValidation name w) = Throw e ->
     processInvoiceCreation data w = (Throw e, w)) /\
  (wellFormed data ->
   forall details,
     fst (getProjectDetailsWithValidation name w) = Ok details ->
     fst (getProjectFolderId name w) = Ok "" ->
     processInvoiceCreation data w = (Throw (Error "Missing folderId for this project."), w)) /\
  (wellFormed data ->
   forall details folder,
     fst (getProjectDetailsWithValidation name w) = Ok details ->
     fst (getProjectFolderId name w) = Ok folder -> folder <> "" ->
     processInvoiceCreation data w = processFormFromData data w).
Proof.
  cbv zeta.
  pose proof (resolved_then (processFormFromData data) (f_projectName data) w) as Hr.
  cbv zeta in Hr. destruct Hr as (H1 & H2 & H3).
  unfold processInvoiceCreation. cbv zeta.
  destruct (validateInvoiceData data) as [|m ms] eqn:Ev; cbn [isValid].
  - apply validateInvoiceData_nil in Ev. split; [now intros Hn|].
    split; [intros _; exact H1|]. split; [intros _; exact H2 | intros _; exact H3].
  - assert (Hn : ~ wellFormed data).
    { intros Hv. apply validateInvoiceData_nil in Hv. rewrite Ev in Hv. discriminate. }
    split; [reflexivity|]. repeat split; intros Hv; now destruct Hn.
Qed.


Lemma filled_spec (v : value) (m : string) :
  (if negb (truthy v) ||
      match v with
      | VStr s => Str.isEmpty (Str.trim s)
      | _ => false
      end
   then [m] else []) = [] <-> filled v.
Proof.
  unfold filled. destruct (truthy v); cbn [negb orb].
  - destruct v; try (split; [now split | reflexivity]).
    destruct (Str.isEmpty (Str.trim s)); split; try discriminate;
      try (intros [_ E]; discriminate E); now split.
  - split; [discriminate | intros [E _]; discriminate E].
Qed.

Lemma validateCreditNoteData_nil (data : FormData) :
  validateCreditNoteData data = [] <-> wellFormedCreditNote data.
Proof.
  unfold wellFormedCreditNote, validateCreditNoteData. cbv zeta.
  cbn [fmap list_fmap concat fst snd].
  assert (Hitems : match f_items data with
                   | None => ["items is required"]
                   | Some [] => ["At least one item is required"]
                   | Some (_ :: _) => []
                   end = [] <-> exists item items, f_items data = Some (item :: items)).
  { destruct (f_items data) as [[|item items]|]; split;
      try discriminate; try (intros (? & ? & E); discriminate E); eauto. }
  split.
  - intros E.
    repeat match type of E with
           | _ ++ _ = [] => apply app_nil in E; destruct E as [? E]
           end.
    repeat match goal with
           | E' : (if _ then _ else _) = [] |- _ => apply filled_spec in E'
           | E' : _ ++ _ = [] |- _ => apply app_nil in E'; destruct E' as [? ?]
           end.
    apply Hitems in E. split; [|exact E].
    repeat apply Forall_cons_2; try apply Forall_nil_2; assumption.
  - intros [Hf I].
    repeat (apply Forall_cons_1 in Hf; destruct Hf as [? Hf]).
    apply Hitems in I. rewrite I.
    repeat match goal with
           | Hv : filled ?v |- _ =>
               rewrite (proj2 (filled_spec v _) Hv); clear Hv
           end.
    reflexivity.
Qed.

(** X11.  [processCreditNoteCreation] likewise: a form with a required
    field missing or blank, or without items, is rejected with the joined
    error texts before anything is read or written; a well-formed form is
    rejected, the world as it was, with what
    [getProjectDetailsWithValidation] throws when it throws, and for want
    of a folder when [getProjectFolderId] gives the empty text; in the
    one case left the call is [processCreditNoteFormFromData], answer and
    world. *)
Theorem credit_note_creation_guard (data : FormData) (w : World) :
  let name := f_projectName data in
  (~ wellFormedCreditNote data ->
   processCreditNoteCreation data w
   = (Throw (Error ("Validation failed: " +:+ joinErrors (validateCreditNoteData data))), w)) /\
  (wellFormedCreditNote data ->
   forall e,
     fst (getProjectDetailsWithValidation name w) = Throw e ->
     processCreditNoteCreation data w = (Throw e, w)) /\
  (wellFormedCreditNote data ->
   forall details,
     fst (getProjectDetailsWithValidation name w) = Ok details ->
     fst (getProjectFolderId name w) = Ok "" ->
     processCreditNoteCreation data w = (Throw (Error "Missing folderId for this project."), w)) /\
  (wellFormedCreditNote data ->
   forall details folder,
     fst (getProjectDetailsWithValidation name w) = Ok details ->
     fst (getProjectFolderId name w) = Ok folder -> folder <> "" ->
     processCreditNoteCreation data w = processCreditNoteFormFromData data w).
Proof.
  cbv zeta.
  pose proof (resolved_then (processCreditNoteFormFromData data) (f_projectName data) w) as Hr.
  cbv zeta in Hr. destruct Hr as (H1 & H2 & H3).
  unfold processCreditNoteCreation. cbv zeta.
  destruct (validateCreditNoteData data) as [|m ms] eqn:Ev; cbn [isValid].
  - apply validateCreditNoteData_nil in Ev. split; [now intros Hn|].
    split; [intros _; exact H1|]. split; [intros _; exact H2 | intros _; exact H3].
  - assert (Hn : ~ wellFormedCreditNote data).
    { intros Hv. apply validateCreditNoteData_nil in Hv. rewrite Ev in Hv. discriminate. }
    split; [reflexivity|]. repeat split; intros Hv; now destruct Hn.
Qed.

End GuardFacts.

Lemma creation_guard_witness :
  @processInvoiceCreation Sample.host (Sample.invoiceForm "100" Sample.oneItem)
    Sample.world
  = @processFormFromData Sample.host (Sample.invoiceForm "100" Sample.oneItem)
      Sample.world /\
  @processInvoiceCreation Sample.host Sample.unlisted Sample.world
  = (Throw (ProjectNotFound (VStr "Gamma")), Sample.world) /\
  exists text,
    @processInvoiceCreation Sample.host Sample.noForm Sample.world
    = (Throw (Error ("Validation failed: " +:+ text)), Sample.world) /\
    Str.includes text "At least one invoice item is required" = true.
Proof.
  split; [|split].
  - apply (proj2 (proj2 (proj2 (@creation_guard Sample.host
                                  (Sample.invoiceForm "100" Sample.oneItem)
                                  Sample.world)))
             ltac:(apply validateInvoiceData_nil; vm_compute; reflexivity)
             _ "folder-000000000000000000000"
             ltac:(vm_compute; reflexivity) ltac:(vm_compute; reflexivity)
             ltac:(discriminate)).
  - apply (proj1 (proj2 (@creation_guard Sample.host Sample.unlisted Sample.world))
             ltac:(apply validateInvoiceData_nil; vm_compute; reflexivity)).
    vm_compute. reflexivity.
  - eexists. split.
    + apply (proj1 (@creation_guard Sample.host Sample.noForm Sample.world)).
      intros Hw. apply validateInvoiceData_nil in Hw. vm_compute in Hw. discriminate Hw.
    + vm_compute. reflexivity.
Defined.

Lemma credit_note_creation_guard_witness :
  @processCreditNoteCreation Sample.host
    (Sample.creditNoteForm VUndef "100" "115"
       [Sample.creditItem "1" "Refund" "Jan 2024" "100"]) Sample.world
  = @processCreditNoteFormFromData Sample.host
      (Sample.creditNoteForm VUndef "100" "115"
         [Sample.creditItem "1" "Refund" "Jan 2024" "100"]) Sample.world /\
  exists text,
    @processCreditNoteCreation Sample.host Sample.noForm Sample.world
    = (Throw (Error ("Validation failed: " +:+ text)), Sample.world) /\
    Str.includes text "creditNoteNumber is required" = true.
Proof.
  split.
  - apply (proj2 (proj2 (proj2 (@credit_note_creation_guard Sample.host
                                  (Sample.creditNoteForm VUndef "100" "115"
                                     [Sample.creditItem "1" "Refund" "Jan 2024" "100"])
                                  Sample.world)))
             ltac:(apply validateCreditNoteData_nil; vm_compute; reflexivity)
             _ "folder-000000000000000000000"
             ltac:(vm_compute; reflexivity) ltac:(vm_compute; reflexivity)
             ltac:(discriminate)).
  - eexists. split.
    + apply (proj1 (@credit_note_creation_guard Sample.host Sample.noForm Sample.world)).
      intros Hw. apply validateCreditNoteData_nil in Hw. vm_compute in Hw.
      discriminate Hw.
    + vm_compute. reflexivity.
Defined.

(** ** Identifiers inside links *)

Section LinkFacts.
Context `{Host}.

Lemma span_app (p : ascii -> bool) (a b : list ascii) :
  Forall (fun c => p c = true) a ->
  match b with [] => True | c :: _ => p c = false end ->
  Str.span p (a ++ b) = (a, b).
Proof.
  intros Ha Hb. induction Ha as [|c a Hc Ha IH]; cbn [app Str.span].
  - destruct b as [|c b]; cbn [Str.span]; [reflexivity|]. now rewrite Hb.
  - now rewrite Hc, IH.
Qed.

Lemma span_spec (p : ascii -> bool) (l : list ascii) :
  l = fst (Str.span p l) ++ snd (Str.span p l) /\
  Forall (fun c => p c = true) (fst (Str.span p l)) /\
  match snd (Str.span p l) with [] => True | c :: _ => p c = false end.
Proof.
  induction l as [|c l IH]; cbn [Str.span].
  - repeat split. constructor.
  - destruct (p c) eqn:Ec.
    + destruct (Str.span p l) as [a b]. cbn [fst snd] in *.
      destruct IH as (-> & Ha & Hb). repeat split; [now constructor | exact Hb].
    + cbn [fst snd app]. repeat split; [constructor | exact Ec].
Qed.

Lemma firstRunFuel_Some (fuel n : nat) (l run : list ascii) :
  Str.firstRunFuel fuel n l = Some run ->
  n <= length run /\ idChars run /\ exists pre post, l = pre ++ run ++ post.
Proof.
  revert l. induction fuel as [|fuel IH]; intros l; cbn [Str.firstRunFuel];
    [discriminate|].
  destruct l as [|c l]; [discriminate|].
  pose proof (span_spec Str.isIdChar (c :: l)) as (El & Ha & Hb).
  destruct (Str.span Str.isIdChar (c :: l)) as [a b]. cbn [fst snd] in *.
  destruct (n <=? length a)%nat eqn:En.
  - intros [= <-]. apply Nat.leb_le in En. repeat split; [exact En | exact Ha|].
    exists [], b. exact El.
  - destruct a as [|c' a].
    + intros E. apply IH in E. destruct E as (Hn & Hr & pre & post & ->).
      repeat split; [exact Hn | exact Hr|]. now exists (c :: pre), post.
    + intros E. apply IH in E. destruct E as (Hn & Hr & pre & post & ->).
      repeat split; [exact Hn | exact Hr|].
      exists ((c' :: a) ++ pre), post. rewrite El. now rewrite <- app_assoc.
Qed.


Lemma length_ofBytes (l : list ascii) : String.length (Str.ofBytes l) = length l.
Proof.
  unfold Str.ofBytes. induction l as [|c l IH]; cbn [string_of_list_ascii String.length];
    [reflexivity | now rewrite IH].
Qed.

Lemma bytes_ofBytes (l : list ascii) : Str.bytes (Str.ofBytes l) = l.
Proof. apply list_ascii_of_string_of_list_ascii. Qed.

Lemma prefixBytes_app (a b : list ascii) : Str.prefixBytes a (a ++ b) = true.
Proof.
  induction a as [|c a IH]; cbn [app Str.prefixBytes]; [reflexivity|].
  now rewrite Ascii.eqb_refl.
Qed.

Lemma includesBytes_app (pre a post : list ascii) :
  Str.includesBytes a (pre ++ a ++ post) = true.
Proof.
  induction pre as [|c pre IH]; cbn [app].
  - destruct (a ++ post) eqn:E; cbn [Str.includesBytes];
      rewrite <- E, prefixBytes_app; reflexivity.
  - cbn [Str.includesBytes]. rewrite IH. apply orb_true_r.
Qed.

Lemma firstRun_Some (n : nat) (s id : string) :
  Str.firstRun n s = Some id ->
  n <= String.length id /\ idChars (Str.bytes id) /\ Str.includes s id = true.
Proof.
  unfold Str.firstRun, Str.includes.
  destruct (Str.firstRunFuel _ n (Str.bytes s)) as [run|] eqn:E; [|discriminate].
  intros [= <-]. apply firstRunFuel_Some in E.
  destruct E as (Hn & Hr & pre & post & ->).
  rewrite length_ofBytes, bytes_ofBytes. repeat split; [exact Hn | exact Hr|].
  apply includesBytes_app.
Qed.

Lemma folderIdInRows_shape (name : value) (rows : list (list value)) :
  let id := folderIdInRows name rows in
  id = FOLDER_ID CONFIG \/
  (25 <= String.length id /\ idChars (Str.bytes id) /\
   exists row, row ∈ rows /\
     toLowerCase (Str.trim (textOf (getAt row (col PROJECT_NAME))))
     = toLowerCase (Str.trim (toKey name)) /\
     Str.includes (Str.trim (textOf (getAt row 12))) id = true).
Proof.
  cbv zeta. induction rows as [|row rows IH]; cbn [folderIdInRows]; [now left|].
  assert (Hrest : folderIdInRows name rows = FOLDER_ID CONFIG \/
            (25 <= String.length (folderIdInRows name rows) /\
             idChars (Str.bytes (folderIdInRows name rows)) /\
             exists row0, row0 ∈ row :: rows /\
               toLowerCase (Str.trim (textOf (getAt row0 (col PROJECT_NAME))))
               = toLowerCase (Str.trim (toKey name)) /\
               Str.includes (Str.trim (textOf (getAt row0 12)))
                 (folderIdInRows name rows) = true)).
  { destruct IH as [IH|(Hn & Hc & r & Hr & Hm & Hi)]; [now left|right].
    repeat split; [exact Hn | exact Hc|]. exists r. split; [now right | now split]. }
  destruct (_ || _); [exact Hrest|].
  destruct (String.eqb _ _) eqn:Em; [|exact Hrest].
  apply String.eqb_eq in Em.
  destruct (Str.firstRun 25 _) as [id|] eqn:Ef; [|now left].
  right. apply firstRun_Some in Ef. destruct Ef as (Hn & Hc & Hi).
  repeat split; [exact Hn | exact Hc|]. exists row. split; [now left | now split].
Qed.

(** X12.  [getProjectFolderId] never throws and changes nothing.  The
    folder it names is [CONFIG.FOLDER_ID], or a run of at least 25
    characters of the class [[-\w]] that occurs in the folder link (column
    M) of a row of the Lists sheet whose project name is the one asked for,
    letter case and outer white space apart. *)
Theorem folder_id_shape (name : value) (w : World) :
  exists id,
    getProjectFolderId name w = (Ok id, w) /\
    (id = FOLDER_ID CONFIG \/
     (25 <= String.length id /\ idChars (Str.bytes id) /\
      exists row, row ∈ drop 1 (getValues (lists w)) /\
        toLowerCase (Str.trim (textOf (getAt row (col PROJECT_NAME))))
        = toLowerCase (Str.trim (toKey name)) /\
        Str.includes (Str.trim (textOf (getAt row 12))) id = true)).
Proof.
  eexists. split; [reflexivity|]. apply folderIdInRows_shape.
Qed.


Lemma firstRunFuel_skip (n : nat) (run post : list ascii) :
  0 < n -> n <= length run -> idChars run -> startsOutside post ->
  forall k pre fuel1 fuel2,
    length pre <= k ->
    length pre < fuel1 -> length (pre ++ run ++ post) < fuel2 ->
    endsOutside pre ->
    Str.firstRunFuel fuel1 n pre = None ->
    Str.firstRunFuel fuel2 n (pre ++ run ++ post) = Some run.
Proof.
  intros Hn Hlen Hrun Hpost.
  induction k as [|k IH]; intros pre fuel1 fuel2 Hk Hf1 Hf2 Hend Hnone.
  - destruct pre; [|cbn [length] in Hk; lia]. cbn [app] in *.
    destruct fuel2 as [|f2]; [lia|]. cbn [Str.firstRunFuel].
    destruct run as [|c run]; [cbn [length] in Hlen; lia|]. cbn [app].
    change (c :: run ++ post) with ((c :: run) ++ post).
    rewrite span_app by assumption.
    now apply Nat.leb_le in Hlen as ->.
  - destruct pre as [|c pre].
    { apply (IH [] fuel1 fuel2); cbn [length]; try lia; assumption. }
    destruct fuel1 as [|f1]; [lia|]. destruct fuel2 as [|f2]; [lia|].
    cbn [app Str.firstRunFuel] in *.
    pose proof (span_spec Str.isIdChar (c :: pre)) as (El & Ha & Hb).
    destruct (Str.span Str.isIdChar (c :: pre)) as [a b] eqn:Es. cbn [fst snd] in *.
    assert (Hbne : b <> []).
    { intros ->. rewrite app_nil_r in El. subst a. unfold endsOutside in Hend.
      destruct (last (c :: pre)) as [x|] eqn:Ex; [|now rewrite last_cons in Ex; destruct (last pre)].
      apply last_Some in Ex. destruct Ex as [l' El']. rewrite El' in Ha.
      apply Forall_app in Ha. destruct Ha as [_ Ha]. apply Forall_inv in Ha. congruence. }
    assert (Hlast : endsOutside b).
    { unfold endsOutside in *. rewrite El, last_app in Hend.
      destruct (last b) eqn:Eb; [exact Hend|]. apply last_None in Eb. contradiction. }
    change (c :: pre ++ run ++ post) with ((c :: pre) ++ run ++ post).
    rewrite El at 1. rewrite <- app_assoc.
    rewrite span_app; [|exact Ha|now destruct b].
    destruct (n <=? length a)%nat; [discriminate|].
    assert (Hlb : length (c :: pre) = length a + length b)
      by now rewrite El at 1; rewrite length_app.
    cbn [length] in Hlb, Hk, Hf1, Hf2.
    destruct a as [|c' a].
    + cbn [app] in El. apply (IH pre f1 f2); try lia; [|exact Hnone].
      unfold endsOutside in *. rewrite last_cons in Hend.
      destruct (last pre); [exact Hend | exact I].
    + apply (IH b f1 f2); try assumption; cbn [length] in Hlb; try lia.
      rewrite !length_app in *. cbn [length] in Hf2. lia.
Qed.

Lemma bytes_app (a b : string) : Str.bytes (a +:+ b) = Str.bytes a ++ Str.bytes b.
Proof.
  unfold Str.bytes. induction a as [|c a IH]; simpl; [reflexivity | now f_equal].
Qed.

Lemma length_bytes (s : string) : length (Str.bytes s) = String.length s.
Proof.
  unfold Str.bytes. induction s as [|c s IH]; simpl; [reflexivity | now f_equal].
Qed.

Lemma firstRun_between (n : nat) (pre id post : string) :
  0 < n -> n <= String.length id -> idChars (Str.bytes id) ->
  endsOutside (Str.bytes pre) -> startsOutside (Str.bytes post) ->
  Str.firstRun n pre = None ->
  Str.firstRun n (pre +:+ id +:+ post) = Some id.
Proof.
  intros Hn Hlen Hid Hpre Hpost Hnone. unfold Str.firstRun in *.
  rewrite !bytes_app.
  destruct (Str.firstRunFuel _ n (Str.bytes pre)) eqn:E; [discriminate|].
  rewrite (firstRunFuel_skip n (Str.bytes id) (Str.bytes post) Hn
             ltac:(now rewrite length_bytes) Hid Hpost
             (length (Str.bytes pre)) (Str.bytes pre)
             (S (String.length pre)) (S (String.length (pre +:+ id +:+ post)))
             (Nat.le_refl _)
             ltac:(rewrite length_bytes; lia)
             ltac:(rewrite <- !bytes_app, length_bytes; lia) Hpre E).
  cbn [fmap option_fmap option_map]. f_equal. apply string_of_list_ascii_of_string.
Qed.

(** X13.  [extractFileIdFromUrl] gives back the identifier of a link:
    for an identifier of at least 25 characters of the class [[-\w]], placed
    between a text that has no such run and does not end inside one and a
    text that does not continue it, the result is the identifier. *)
Theorem file_id_round_trip (pre id post : string) :
  25 <= String.length id -> idChars (Str.bytes id) ->
  endsOutside (Str.bytes pre) -> startsOutside (Str.bytes post) ->
  Str.firstRun 25 pre = None ->
  extractFileIdFromUrl (VStr (pre +:+ id +:+ post)) = Ok id.
Proof.
  intros Hlen Hid Hpre Hpost Hnone. unfold extractFileIdFromUrl.
  rewrite firstRun_between by (assumption || lia).
  destruct (pre +:+ id +:+ post) eqn:E; [|reflexivity].
  apply (f_equal String.length) in E.
  rewrite <- length_bytes, !bytes_app, !length_app, !length_bytes in E.
  cbn [String.length] in E. lia.
Qed.

End LinkFacts.

Lemma file_id_round_trip_witness :
  @extractFileIdFromUrl Sample.host
    (VStr ("https://docs.google.com/document/d/"
           +:+ "1AbC-dEf_GhIjKlMnOpQrStUvWxYz0123456789-_ab" +:+ "/edit"))
  = Ok "1AbC-dEf_GhIjKlMnOpQrStUvWxYz0123456789-_ab".
Proof.
  apply (@file_id_round_trip Sample.host "https://docs.google.com/document/d/"
           "1AbC-dEf_GhIjKlMnOpQrStUvWxYz0123456789-_ab" "/edit").
  - vm_compute. lia.
  - repeat constructor.
  - vm_compute. reflexivity.
  - vm_compute. reflexivity.
  - vm_compute. reflexivity.
Defined.

(** ** Round trips of the contract links *)

Section ContractFacts.

Lemma afterMarker_here (marker run post : list ascii) :
  marker <> [] -> run <> [] -> idChars run -> startsOutside post ->
  afterMarker marker (marker ++ run ++ post) = Some run.
Proof.
  intros Hm Hr Hid Hpost.
  destruct marker as [|m marker]; [contradiction|].
  change ((m :: marker) ++ run ++ post) with (m :: (marker ++ run ++ post)).
  cbn [afterMarker].
  change (m :: marker ++ run ++ post) with ((m :: marker) ++ run ++ post).
  rewrite prefixBytes_app, drop_app_length, span_app by assumption.
  cbn [fst]. now destruct run.
Qed.

Lemma afterMarker_skip (marker : list ascii) (c : ascii) (l : list ascii) :
  Str.prefixBytes marker (c :: l) = false ->
  afterMarker marker (c :: l) = afterMarker marker l.
Proof. intros E. cbn [afterMarker]. now rewrite E. Qed.

Lemma truthy_nonempty (s : string) : s <> "" -> truthy (VStr s) = true.
Proof. now destruct s. Qed.

Lemma nonempty_between (pre id post : string) :
  id <> "" -> pre +:+ id +:+ post <> "".
Proof.
  intros Hne E. apply Hne. apply (f_equal Str.bytes) in E. rewrite !bytes_app in E.
  apply app_nil in E as [_ E]. apply app_nil in E as [E _].
  rewrite <- (string_of_list_ascii_of_string id). unfold Str.bytes in E. now rewrite E.
Qed.

Lemma capture_here (marker id post : string) :
  marker <> "" -> id <> "" -> idChars (Str.bytes id) -> startsOutside (Str.bytes post) ->
  Str.ofBytes <$> afterMarker (Str.bytes marker)
                    (Str.bytes marker ++ Str.bytes id ++ Str.bytes post)
  = Some id.
Proof.
  intros Hm Hne Hid Hpost. rewrite afterMarker_here; try assumption.
  - cbn [fmap option_fmap option_map]. f_equal. apply string_of_list_ascii_of_string.
  - destruct marker; [contradiction | discriminate].
  - destruct id; [contradiction | discriminate].
Qed.

Ltac capture before marker :=
  rewrite truthy_nonempty by (now apply nonempty_between);
  rewrite !bytes_app;
  (let full := eval cbv in (before +:+ marker) in
   change (Str.bytes full) with (Str.bytes before ++ Str.bytes marker));
  rewrite <- app_assoc;
  let l := eval cbv in (Str.bytes before) in
  change (Str.bytes before) with l;
  cbn [app];
  repeat (rewrite afterMarker_skip by reflexivity);
  rewrite capture_here by (assumption || discriminate);
  reflexivity.

(** X14.  The two extractors of the contract service give back the
    identifier of the links they are written for: [extractDocIdFromUrl]
    that of the link [createContractDocument] builds from a document
    identifier, [extractFolderIdFromUrl] that of a folder link of either
    shape, whatever follows the identifier, for every identifier that is a
    non-empty run of letters, digits, [_] and [-]. *)
Theorem contract_link_round_trip (id post : string) :
  id <> "" -> idChars (Str.bytes id) -> startsOutside (Str.bytes post) ->
  extractDocIdFromUrl (VStr (contractDocumentUrl id)) = Ok (Some id) /\
  extractFolderIdFromUrl
    (VStr ("https://drive.google.com/drive/folders/" +:+ id +:+ post))
  = Ok (Some id) /\
  extractFolderIdFromUrl
    (VStr ("https://drive.google.com/drive/u/0/folders/" +:+ id +:+ post))
  = Ok (Some id).
Proof.
  intros Hne Hid Hpost.
  unfold extractDocIdFromUrl, extractFolderIdFromUrl, captureAfter,
    contractDocumentUrl.
  repeat split.
  - assert (Hedit : startsOutside (Str.bytes "/edit")) by reflexivity.
    capture "https://docs.google.com/document" "/d/".
  - capture "https://drive.google.com/drive/" "folders/".
  - capture "https://drive.google.com/drive/u/0/" "folders/".
Qed.

End ContractFacts.

Lemma contract_link_round_trip_witness :
  extractDocIdFromUrl (VStr (contractDocumentUrl "1AbC-dEf_9"))
  = Ok (Some "1AbC-dEf_9") /\
  extractFolderIdFromUrl
    (VStr "https://drive.google.com/drive/folders/1AbC-dEf_9?usp=sharing")
  = Ok (Some "1AbC-dEf_9") /\
  extractFolderIdFromUrl
    (VStr "https://drive.google.com/drive/u/0/folders/1AbC-dEf_9?usp=sharing")
  = Ok (Some "1AbC-dEf_9").
Proof.
  apply (contract_link_round_trip "1AbC-dEf_9" "?usp=sharing").
  - discriminate.
  - repeat constructor.
  - vm_compute. reflexivity.
Defined.

(** ** Deletion behind the validation *)

Section CleanupFacts.
Context `{Host}.

Lemma missingId_spec (id : value) (w : World) :
  missingId id w = (Ok true, w) \/
  (exists e, missingId id w = (Throw e, w)) \/
  (missingId id w = (Ok false, w) /\ exists s, id = VStr s /\ blankId id = false).
Proof.
  unfold missingId. destruct (truthy id) eqn:Et; [|now left].
  destruct id; try (right; left; eexists; reflexivity).
  cbn [asString lift bindM ret]. unfold bindM, lift, ret.
  destruct (Str.isEmpty (Str.trim s)) eqn:Es; [now left|].
  right. right. split; [reflexivity|]. exists s. split; [reflexivity|].
  unfold blankId. rewrite Et. cbn [negb orb toKey]. exact Es.
Qed.

(** X15.  [deleteInvoiceWithCleanup] never throws.  It deletes only for
    an identifier that is a string, of a stored invoice whose project name
    is not empty, and what it does then is what [deleteInvoiceByIdFromData]
    does; whenever it answers failure, the sheets and the cache are as
    they were. *)
Theorem invoice_cleanup_outcome (id : value) (w : World) :
  let data := getValues (invoices w) in
  let headers := default [] (head data) in
  match deleteInvoiceWithCleanup id w with
  | (Ok (Deleted note), w') =>
      exists s i row,
        id = VStr s /\
        findRow data (indexMapOf headers !! "ID") id = Some (i, row) /\
        truthy (getIdx row (indexMapOf headers !! "Project Name")) = true /\
        deleteInvoiceByIdFromData id w = (Ok (Deleted note), w')
  | (Ok (NotDeleted e), w') => sheets w' = sheets w /\ cache w' = cache w
  | (Throw e, w') => False
  end.
Proof.
  intros data headers. unfold deleteInvoiceWithCleanup.
  unfold tryCatch, bindM at 1.
  destruct (missingId_spec id w) as [E|[[e E]|(E & s & -> & Hb)]]; rewrite E;
    [now split | now split |].
  unfold bindM, getInvoiceDataByIdFromData. rewrite Hb.
  unfold bindM, readSheet. cbn [sheetOf]. cbv zeta. fold data. fold headers.
  destruct (findRow data _ (VStr s)) as [[i row]|] eqn:Ef; unfold ret;
    [|now split].
  cbn [decodeInvoiceRow i_projectName].
  destruct (truthy _) eqn:Ep; [|now split].
  pose proof (deleteByIdFromData_outcome INVOICES "Invalid invoice ID provided"
                "Invoice not found." "invoiceList" (VStr s) w) as Ho.
  cbv zeta in Ho. fold (deleteInvoiceByIdFromData (VStr s)) in Ho.
  destruct (deleteInvoiceByIdFromData (VStr s) w) as [[[note|e]|e] w'];
    [|exact Ho|destruct Ho].
  exists s, i, row. repeat split; assumption.
Qed.


Lemma missingId_text (s : string) (w : World) :
  blankId (VStr s) = false -> missingId (VStr s) w = (Ok false, w).
Proof.
  unfold blankId, missingId. cbn [toKey].
  destruct (truthy (VStr s)); cbn [negb orb]; [|discriminate].
  intros E. unfold bindM, lift, ret. cbn [asString]. now rewrite E.
Qed.

(** X16.  A credit note whose stored identifier is a number is found by
    [getCreditNoteDataByIdFromData] under the text of that number, which
    compares loosely, but [deleteCreditNoteWithCleanup] called with that
    text deletes nothing: the deletion compares strictly and answers that
    the credit note is not found. *)
Theorem numbered_credit_note_is_kept (w : World) (x : number) (s : string)
    (earlier later : list (list value)) (r : list value) (c : nat) :
  let tc := getValues (creditNotes w) in
  let headers := default [] (head tc) in
  let kc := indexMapOf headers !! "ID" in
  Num.toString x = s ->
  blankId (VStr s) = false ->
  drop 1 tc = earlier ++ r :: later ->
  getIdx r kc = VNum x ->
  Forall (fun row => sameId (getIdx row kc) (VStr s) = Ok false) earlier ->
  truthy (getIdx r (indexMapOf headers !! "Project Name")) = true ->
  indexOf headers (VStr "ID") = Some c ->
  Forall (fun row => strictEq (getIdx row (Some c)) (VStr s) = false) (drop 1 tc) ->
  getCreditNoteDataByIdFromData (VStr s) w
  = (Ok (Some (decodeCreditNoteRow headers r)), w) /\
  deleteCreditNoteWithCleanup (VStr s) w
  = (Ok (NotDeleted (Error "Credit note not found.")), w).
Proof.
  intros tc headers kc Hs Hb Hsplit Hr Hearlier Hp Hc Hstrict.
  assert (Hget : getCreditNoteDataByIdFromData (VStr s) w
                 = (Ok (Some (decodeCreditNoteRow headers r)), w)).
  { unfold getCreditNoteDataByIdFromData. rewrite Hb.
    unfold bindM, readSheet, ret. cbn [sheetOf]. cbv zeta.
    fold tc. fold headers. fold kc. rewrite Hsplit.
    rewrite (findRowLoosely_first earlier later r kc (VStr s) Hearlier);
      [reflexivity|].
    rewrite Hr. now apply sameId_number_text. }
  split; [exact Hget|].
  unfold deleteCreditNoteWithCleanup, tryCatch.
  unfold bindM at 1. rewrite (missingId_text s w Hb).
  unfold bindM at 1. rewrite Hget. cbn [decodeCreditNoteRow c_projectName].
  fold tc. fold headers. rewrite Hp.
  unfold deleteCreditNoteByIdFromData, deleteByIdFromData, tryCatch. rewrite Hb.
  unfold bindM, readSheet. cbn [sheetOf]. cbv zeta. fold tc. fold headers.
  rewrite Hc. unfold findRow. rewrite findRowFrom_none by exact Hstrict.
  reflexivity.
Qed.

End CleanupFacts.

Lemma numbered_credit_note_is_kept_witness :
  (exists d,
     @getCreditNoteDataByIdFromData Sample.host (VStr "123") Sample.numberedWorld
     = (Ok (Some d), Sample.numberedWorld) /\
     c_creditNoteNumber d = VStr "CN-2") /\
  @deleteCreditNoteWithCleanup Sample.host (VStr "123") Sample.numberedWorld
  = (Ok (NotDeleted (Error "Credit note not found.")), Sample.numberedWorld).
Proof.
  destruct (@numbered_credit_note_is_kept Sample.host Sample.numberedWorld
              (Num.ofZ 123) "123"
              [padRow 98 [VStr "uuid-9"; VStr "Beta"; VStr "CN-1"]] []
              (padRow 98 [VNum (Num.ofZ 123); VStr "Acme"; VStr "CN-2"]) 0)
    as [Hg Hd].
  - vm_compute. reflexivity.
  - vm_compute. reflexivity.
  - vm_compute. reflexivity.
  - vm_compute. reflexivity.
  - repeat constructor.
  - vm_compute. reflexivity.
  - vm_compute. reflexivity.
  - repeat constructor.
  - split; [|exact Hd]. eexists. split; [exact Hg|]. vm_compute. reflexivity.
Defined.

(** ** The lists and their cache *)

Section ListFacts.
Context `{Host} `{CacheHost}.

Lemma columnsOf_invoiceHeaders (W : nat) :
  columnsOf (trimmedHeaders (padRow W invoiceHeaders)) invoiceFields
  = Ok invoiceColumns.
Proof. reflexivity. Qed.


Lemma columnsOf_creditNoteHeaders (W : nat) :
  columnsOf (trimmedHeaders (padRow W creditNoteHeaders)) creditNoteFields
  = Ok creditNoteColumns.
Proof. reflexivity. Qed.

Lemma readList_spec (n : SheetName) (key : string) (fields : list Field)
    (w : World) (cols : list (string * nat * cellKind)) :
  let data := getValues (sheetOf n w) in
  let L := listedRow cols <$> drop 1 data in
  columnsOf (trimmedHeaders (default [] (head data))) fields = Ok cols ->
  readList n key fields w
  = if (length data <? 2)%nat then (Ok [], w)
    else if cacheTakes (stringify L)
         then (Ok L, withCache (<[key := stringify L]> (cache w)) w)
         else (Throw (PlatformError "put"), w).
Proof.
  intros data L Hc. unfold readList, bindM, readSheet. cbv zeta. fold data.
  destruct (length data <? 2)%nat; [reflexivity|].
  unfold lift. rewrite Hc. fold L. unfold cachePut.
  now destruct (cacheTakes (stringify L)).
Qed.

Lemma listFromData_miss (n : SheetName) (key : string) (fields : list Field)
    (w : World) (cols : list (string * nat * cellKind)) :
  let data := getValues (sheetOf n w) in
  let L := listedRow cols <$> drop 1 data in
  cache w !! key = None ->
  columnsOf (trimmedHeaders (default [] (head data))) fields = Ok cols ->
  listFromData n key fields w
  = if (length data <? 2)%nat then (Ok [], w)
    else if cacheTakes (stringify L)
         then (Ok L, withCache (<[key := stringify L]> (cache w)) w)
         else (Ok [], w).
Proof.
  intros data L Hm Hc. unfold listFromData, tryCatch, bindM at 1, cacheGet.
  rewrite Hm, (readList_spec n key fields w cols Hc). fold data. fold L.
  destruct (length data <? 2)%nat; [reflexivity|].
  now destruct (cacheTakes (stringify L)).
Qed.

Lemma listFromData_hit (n : SheetName) (key : string) (fields : list Field)
    (w : World) (c : string) :
  cache w !! key = Some c -> c <> "" ->
  listFromData n key fields w
  = (Ok (match parse c with Ok l => l | Throw _ => [] end), w).
Proof.
  intros Hh Hc. unfold listFromData, tryCatch, bindM, cacheGet. rewrite Hh.
  destruct c; [contradiction|]. cbn [Str.isEmpty]. unfold lift.
  now destruct (parse _).
Qed.

(** X17.  After a successful [processFormFromData] the list of invoices
    is read from the sheet again, whatever was cached before: it has one
    entry for every row below the header, the last one being the invoice
    just written, under the identifier drawn for it.  The list is cached
    when the cache takes it; when the cache refuses it, the answer is the
    empty list. *)
Theorem list_after_create (w : World) (data : FormData)
    (items : list (list value)) (due : string) (urls : string * string)
    (w1 : World) :
  let u := getUuid (drawn w) in
  let L := listedRow invoiceColumns <$> drop 1 (getValues (invoices w1)) in
  f_items data = Some items ->
  f_dueDate data = VStr due ->
  invoices w = [] \/ head (invoices w) = Some invoiceHeaders ->
  processFormFromData data w = (Ok urls, w1) ->
  getInvoiceListFromData w1
  = (if cacheTakes (stringify L)
     then (Ok L, withCache (<["invoiceList" := stringify L]> (cache w1)) w1)
     else (Ok [], w1)) /\
  length L = length (headed (invoices w)) /\
  exists rest,
    last L = Some (("id", VStr u)
                   :: ("projectName", orElse (f_projectName data) (VStr ""))
                   :: ("invoiceNumber", orElse (f_invoiceNumber data) (VStr ""))
                   :: rest).
Proof.
  intros u L Hitems Hdue Hhead Hrun.
  pose proof (processFormFromData_outcome data w items due Hitems Hdue) as Ho.
  cbv zeta in Ho. rewrite Hrun in Ho. destruct urls as [d p].
  destruct Ho as (Ei & Ec & _ & _). fold u in Ei.
  rewrite (headed_cases _ Hhead) in *.
  set (row := invoiceRow u data (dueDateOf due) items) in Ei.
  set (r' := take 19 row ++ VStr d :: VStr p :: drop 21 row) in Ei.
  set (tl := drop 1 (invoices w)) in *.
  set (W := sheetWidth ((invoiceHeaders :: tl) ++ [r'])).
  assert (Ev : getValues (invoices w1)
               = padRow W invoiceHeaders :: (padRow W <$> tl) ++ [padRow W r']).
  { rewrite Ei. cbn [app]. rewrite getValues_nonempty by discriminate.
    change (sheetWidth (invoiceHeaders :: tl ++ [r'])) with W.
    rewrite fmap_cons. f_equal. exact (fmap_app (padRow W) tl [r']). }
  assert (EL : L = (listedRow invoiceColumns <$> (padRow W <$> tl))
                   ++ [listedRow invoiceColumns (padRow W r')]).
  { unfold L. rewrite Ev. cbn [drop]. now rewrite drop_0, fmap_app. }
  split; [|split].
  - unfold getInvoiceListFromData.
    rewrite (listFromData_miss INVOICES "invoiceList" invoiceFields w1 invoiceColumns).
    + cbn [sheetOf]. fold L. rewrite Ev. cbn [length].
      rewrite length_app. cbn [length].
      now replace (S (length (padRow W <$> tl) + 1) <? 2)%nat with false
        by (symmetry; apply Nat.ltb_ge; lia).
    + rewrite Ec. apply lookup_delete_eq.
    + cbn [sheetOf]. rewrite Ev. apply columnsOf_invoiceHeaders.
  - rewrite EL, length_app, !length_fmap. cbn [length]. lia.
  - rewrite EL, last_snoc. unfold listedRow, invoiceColumns.
    cbn [fmap list_fmap fst snd listedCell].
    change (getAt (padRow W r') 0) with (VStr u).
    change (getAt (padRow W r') 1) with (f_projectName data).
    change (getAt (padRow W r') 2) with (f_invoiceNumber data).
    replace (orElse (VStr u) (VStr "")) with (VStr u) by now destruct u.
    eexists. reflexivity.
Qed.


(** X18.  A creation that throws after the row was written leaves the
    cached list in place: as long as that entry is there,
    [getInvoiceListFromData] answers with the cached list, in which the
    new row does not appear. *)
Theorem stale_list_after_failed_create (w : World) (data : FormData)
    (items : list (list value)) (due : string) (e : exn) (w1 : World)
    (c : string) (old : list Obj) :
  f_items data = Some items ->
  f_dueDate data = VStr due ->
  processFormFromData data w = (Throw e, w1) ->
  cache w !! "invoiceList" = Some c -> c <> "" -> parse c = Ok old ->
  invoices w1
  = headed (invoices w) ++ [invoiceRow (getUuid (drawn w)) data (dueDateOf due) items] /\
  getInvoiceListFromData w1 = (Ok old, w1).
Proof.
  intros Hitems Hdue Hrun Hc Hne Hp.
  pose proof (processFormFromData_outcome data w items due Hitems Hdue) as Ho.
  cbv zeta in Ho. rewrite Hrun in Ho. destruct Ho as (Ei & Ec & _ & _).
  split; [exact Ei|]. unfold getInvoiceListFromData.
  rewrite (listFromData_hit INVOICES "invoiceList" invoiceFields w1 c);
    [now rewrite Hp | now rewrite Ec | exact Hne].
Qed.

(** X19.  After a successful [deleteCreditNoteByIdFromData] the list of
    credit notes is read from the sheet as the deletion left it: one
    entry for every row below the header, one fewer than before. *)
Theorem credit_note_list_after_delete (w : World) (id : value)
    (note : option string) (w' : World) :
  let L := listedRow creditNoteColumns <$> drop 1 (getValues (creditNotes w')) in
  head (creditNotes w) = Some creditNoteHeaders ->
  deleteCreditNoteByIdFromData id w = (Ok (Deleted note), w') ->
  fst (getCreditNoteListFromData w') = Ok (if cacheTakes (stringify L) then L else []) /\
  S (S (length L)) = length (creditNotes w).
Proof.
  intros L Hhead Hrun.
  pose proof (deleteByIdFromData_outcome CREDITNOTES "Invalid credit note ID provided"
                "Credit note not found." "creditNoteList" id w) as Ho.
  cbv zeta in Ho. fold (deleteCreditNoteByIdFromData id) in Ho. rewrite Hrun in Ho.
  destruct Ho as (c & i & row & _ & _ & Ef & Es & _ & Ec).
  cbn [sheetOf deleteRow] in *.
  apply findRow_sheet in Ef. destruct Ef as [[Hi1 Hi2] _].
  destruct (creditNotes w) as [|hd tl] eqn:Ew; [discriminate|].
  injection Hhead as ->. destruct i as [|i]; [lia|]. cbn [length] in Hi2.
  change (delete (S i) (creditNoteHeaders :: tl))
    with (creditNoteHeaders :: delete i tl) in Es.
  set (W := sheetWidth (creditNoteHeaders :: delete i tl)).
  assert (Ev : getValues (creditNotes w')
               = padRow W creditNoteHeaders :: (padRow W <$> delete i tl)).
  { rewrite Es, getValues_nonempty by discriminate. fold W. now rewrite fmap_cons. }
  assert (EL : L = listedRow creditNoteColumns <$> (padRow W <$> delete i tl)).
  { unfold L. rewrite Ev. cbn [drop]. now rewrite drop_0. }
  assert (Hlen : S (length L) = length tl).
  { rewrite EL, !length_fmap, length_delete by (apply lookup_lt_is_Some; lia). lia. }
  split; [|cbn [length]; lia].
  unfold getCreditNoteListFromData.
  rewrite (listFromData_miss CREDITNOTES "creditNoteList" creditNoteFields w'
             creditNoteColumns).
  - cbn [sheetOf]. fold L. rewrite Ev. cbn [length]. rewrite length_fmap.
    destruct (delete i tl) as [|r rs] eqn:Ed.
    + cbn [length]. cbn. rewrite EL. cbn. now destruct (cacheTakes _).
    + cbn [length]. cbn [Nat.ltb Nat.leb]. now destruct (cacheTakes _).
  - rewrite Ec. apply lookup_delete_eq.
  - cbn [sheetOf]. rewrite Ev. apply columnsOf_creditNoteHeaders.
Qed.

Lemma listFromData_answers (n : SheetName) (key : string) (fields : list Field)
    (w : World) :
  exists l w1, listFromData n key fields w = (Ok l, w1).
Proof.
  unfold listFromData, tryCatch.
  match goal with |- context [match ?m with _ => _ end] => destruct m as [[l|e] w1] end;
    eauto.
Qed.

(** X20.  [getInvoiceListWithCaching] answers with the list of
    [getInvoiceListFromData]: with the cached one when there is one, and
    otherwise with the list read, or with the empty list when the cache
    refuses that list. *)
Theorem list_wrapper_agrees (w : World) :
  exists l,
    fst (getInvoiceListFromData w) = Ok l /\
    fst (getInvoiceListWithCaching w)
    = Ok (match cache w !! "invoiceList" with
          | Some (String _ _) => l
          | _ => if cacheTakes (stringify l) then l else []
          end).
Proof.
  destruct (listFromData_answers INVOICES "invoiceList" invoiceFields w)
    as (l & w1 & E).
  fold getInvoiceListFromData in E.
  exists l. split; [now rewrite E|].
  unfold getInvoiceListWithCaching, tryCatch, bindM at 1, cacheGet.
  destruct (cache w !! "invoiceList") as [[|a c]|] eqn:Ec; cbn [Str.isEmpty].
  - unfold bindM. rewrite E. unfold cachePut, ret.
    now destruct (cacheTakes _).
  - unfold getInvoiceListFromData in E.
    rewrite (listFromData_hit INVOICES "invoiceList" invoiceFields w (String a c) Ec)
      in E by discriminate.
    injection E as <- _. unfold lift. now destruct (parse _).
  - unfold bindM. rewrite E. unfold cachePut, ret.
    now destruct (cacheTakes _).
Qed.

End ListFacts.

Lemma list_after_create_witness :
  exists l w2 rest,
    @getInvoiceListFromData Sample.host Sample.cacheHost Sample.created = (Ok l, w2) /\
    length l = 1 /\
    last l = Some (("id", VStr "uuid-0") :: ("projectName", VStr "Acme")
                   :: ("invoiceNumber", VStr "INV-7") :: rest).
Proof.
  destruct (@list_after_create Sample.host Sample.cacheHost Sample.world
              (Sample.invoiceForm "100" Sample.oneItem) Sample.oneItem "14/02/2024"
              ("https://docs.google.com/document/d/document-0000000000000000-template-acme-standard-0000001/edit",
               "https://drive.google.com/file/d/pdf-file-00000000000000000000/2024-01-15_InvoiceINV-7_Ours GmbH-Acme Ltd.pdf")
              Sample.created)
    as (E & Hlen & rest & Hlast).
  - reflexivity.
  - reflexivity.
  - left. reflexivity.
  - vm_compute. reflexivity.
  - do 2 eexists. exists rest. split; [|split; [exact Hlen | exact Hlast]].
    rewrite E. vm_compute. reflexivity.
Defined.

Lemma stale_list_after_failed_create_witness :
  length (invoices (Sample.after (@processFormFromData Sample.host Sample.untemplated)
                      Sample.world)) = 2 /\
  @getInvoiceListFromData Sample.host Sample.cacheHost
    (Sample.after (@processFormFromData Sample.host Sample.untemplated) Sample.world)
  = (Ok [], Sample.after (@processFormFromData Sample.host Sample.untemplated)
              Sample.world).
Proof.
  destruct (@stale_list_after_failed_create Sample.host Sample.cacheHost Sample.world
              Sample.untemplated Sample.oneItem "14/02/2024" NoTemplateId
              (Sample.after (@processFormFromData Sample.host Sample.untemplated)
                 Sample.world) "[]" [])
    as [Ei El].
  - reflexivity.
  - reflexivity.
  - vm_compute. reflexivity.
  - vm_compute. reflexivity.
  - discriminate.
  - reflexivity.
  - split; [now rewrite Ei | exact El].
Defined.

Lemma credit_note_list_after_delete_witness :
  exists l rest,
    fst (@getCreditNoteListFromData Sample.host Sample.cacheHost
           (Sample.after (@deleteCreditNoteByIdFromData Sample.host (VStr "uuid-9"))
              Sample.numberedWorld)) = Ok [l] /\
    l = ("id", VNum (Num.ofZ 123)) :: rest.
Proof.
  destruct (@credit_note_list_after_delete Sample.host Sample.cacheHost
              Sample.numberedWorld (VStr "uuid-9") None
              (Sample.after (@deleteCreditNoteByIdFromData Sample.host (VStr "uuid-9"))
                 Sample.numberedWorld))
    as [E _].
  - reflexivity.
  - vm_compute. reflexivity.
  - do 2 eexists. split; [rewrite E; vm_compute|]; reflexivity.
Defined.

(** ** The project behind a name *)

Section ProjectFacts.
Context `{Host}.

Lemma scanRows_project (name : value) (rows : list (list value)) :
  forall st st',
    scanRows name st rows = Ok st' ->
    match projectRow st with
    | Some r => projectRow st' = Some r
    | None =>
        match projectRow st' with
        | Some r =>
            exists s i, toStringM name = Ok s /\ firstAt (namesProject s) rows i r
        | None =>
            forall s, toStringM name = Ok s -> Forall (fun r => ~ namesProject s r) rows
        end
    end.
Proof.
  induction rows as [|row rows IH]; intros st st'; cbn [scanRows].
  - intros [= <-]. destruct (projectRow st); [reflexivity|]. intros s _. constructor.
  - unfold scanRow at 1. cbv zeta.
    destruct (projectRow st) as [r|] eqn:Ep.
    + cbn [bindR]. intros E. apply IH in E. cbn [projectRow] in E. exact E.
    + destruct (toStringM name) as [s|e] eqn:Es; cbn [bindR]; [|discriminate].
      destruct (String.eqb _ _) eqn:Em; intros E; apply IH in E; cbn [projectRow] in E.
      * rewrite E. exists s, 0. split; [reflexivity|]. apply String.eqb_eq in Em.
        split; [reflexivity|]. split; [exact Em|]. intros j r Hj. lia.
      * apply String.eqb_neq in Em.
        destruct (projectRow st') as [r|].
        -- destruct E as (s' & i & Hs' & Hi & Hp & Hfirst). injection Hs' as <-.
           exists s, (S i). split; [reflexivity|]. split; [exact Hi|]. split; [exact Hp|].
           intros [|j] r' Hj Hr'.
           ++ injection Hr' as <-. exact Em.
           ++ apply (Hfirst j r'); [lia | exact Hr'].
        -- intros s' [= <-]. constructor; [exact Em | now apply E].
Qed.


Lemma scanRow_maps (name : value) (st st1 : Scan) (row : list value) :
  scanRow name st row = Ok st1 ->
  let templateName := Str.trim (textOf (getAt row (col TEMPLATE_NAME_COL))) in
  let templateId := Str.trim (textOf (getAt row (col TEMPLATE_ID_COL))) in
  templateMap st1
  = if negb (Str.isEmpty templateName) && negb (Str.isEmpty templateId)
    then <[toLowerCase templateName := templateId]> (templateMap st)
    else templateMap st.
Proof.
  unfold scanRow. cbv zeta.
  destruct (match projectRow st with Some r => _ | None => _ end) as [found|e];
    cbn [bindR]; [|discriminate].
  now intros [= <-].
Qed.

Lemma scanRows_templates (name : value) (rows : list (list value)) :
  forall st st',
    scanRows name st rows = Ok st' ->
    forall k id,
      templateMap st' !! k = Some id ->
      (exists i r, lastAt (definesTemplate k) rows i r /\
                   Str.trim (textOf (getAt r (col TEMPLATE_ID_COL))) = id)
      \/ (templateMap st !! k = Some id /\
          Forall (fun r => ~ definesTemplate k r) rows).
Proof.
  induction rows as [|row rows IH]; intros st st'; cbn [scanRows].
  - intros [= <-] k id Hk. right. split; [exact Hk | constructor].
  - destruct (scanRow name st row) as [st1|e] eqn:E1; cbn [bindR]; [|discriminate].
    intros E k id Hk. apply scanRow_maps in E1. cbv zeta in E1.
    destruct (IH st1 st' E k id Hk) as [(i & r & (Hi & Hd & Hlast) & Hid)|[H1 Hnone]].
    + left. exists (S i), r. split; [|exact Hid]. split; [exact Hi|]. split; [exact Hd|].
      intros [|j] r' Hj Hr'; [lia|]. apply (Hlast j r'); [lia | exact Hr'].
    + rewrite E1 in H1.
      destruct (Str.isEmpty (Str.trim (textOf (getAt row (col TEMPLATE_NAME_COL)))))
        eqn:En; cbn [negb andb] in H1.
      { right. split; [exact H1|]. constructor; [|exact Hnone].
        intros (_ & Hn & _). congruence. }
      destruct (Str.isEmpty (Str.trim (textOf (getAt row (col TEMPLATE_ID_COL)))))
        eqn:Ei; cbn [negb andb] in H1.
      { right. split; [exact H1|]. constructor; [|exact Hnone].
        intros (_ & _ & Hn). congruence. }
      destruct (decide (toLowerCase (Str.trim (textOf (getAt row (col TEMPLATE_NAME_COL))))
                        = k)) as [Ek|Ek].
      * rewrite Ek, lookup_insert_eq in H1. injection H1 as <-.
        left. exists 0, row. split; [|reflexivity].
        split; [reflexivity|]. split; [now repeat split|].
        intros [|j] r' Hj Hr'; [lia|]. cbn in Hr'.
        rewrite Forall_forall in Hnone. apply Hnone. eapply list_elem_of_lookup_2, Hr'.
      * rewrite lookup_insert_ne in H1 by exact Ek.
        right. split; [exact H1|]. constructor; [|exact Hnone].
        intros (Hn & _ & _). contradiction.
Qed.


Lemma scanRows_throws (name : value) (rows : list (list value)) :
  forall st e, scanRows name st rows = Throw e -> e = TypeError.
Proof.
  induction rows as [|row rows IH]; intros st e; cbn [scanRows]; [discriminate|].
  destruct (scanRow name st row) as [st1|e1] eqn:E1; cbn [bindR]; [apply IH|].
  intros [= <-]. unfold scanRow in E1. cbv zeta in E1.
  destruct (projectRow st); cbn [bindR] in E1; [discriminate|].
  destruct name; cbn [toStringM bindR] in E1; congruence.
Qed.

Lemma scanRow_Ok (name : value) (s : string) (st : Scan) (row : list value) :
  toStringM name = Ok s -> exists st', scanRow name st row = Ok st'.
Proof.
  intros Hs. unfold scanRow. cbv zeta. rewrite Hs.
  destruct (projectRow st); cbn [bindR]; eauto.
Qed.

Lemma scanRows_Ok (name : value) (s : string) (rows : list (list value)) :
  toStringM name = Ok s -> forall st, exists st', scanRows name st rows = Ok st'.
Proof.
  intros Hs. induction rows as [|row rows IH]; intros st; cbn [scanRows]; [eauto|].
  destruct (scanRow_Ok name s st row Hs) as [st1 ->]. cbn [bindR]. apply IH.
Qed.

(** The template map after the scan, read forwards. *)
Lemma scanRows_defined (name : value) (rows : list (list value)) (k : string) :
  forall st st',
    scanRows name st rows = Ok st' ->
    (Forall (fun r => ~ definesTemplate k r) rows ->
     templateMap st' !! k = templateMap st !! k) /\
    (forall j r,
        lastAt (definesTemplate k) rows j r ->
        templateMap st' !! k = Some (Str.trim (textOf (getAt r (col TEMPLATE_ID_COL))))).
Proof.
  induction rows as [|row rows IH]; intros st st'; cbn [scanRows].
  - intros [= <-]. split; [reflexivity|]. intros j r (Hj & _). discriminate Hj.
  - destruct (scanRow name st row) as [st1|e] eqn:E1; cbn [bindR]; [|discriminate].
    intros E. apply scanRow_maps in E1. cbv zeta in E1.
    destruct (IH st1 st' E) as (Hnone & Hlast).
    assert (Hrow : ~ definesTemplate k row -> templateMap st1 !! k = templateMap st !! k).
    { intros Hn. rewrite E1.
      destruct (Str.isEmpty (Str.trim (textOf (getAt row (col TEMPLATE_NAME_COL)))))
        eqn:En; cbn [negb andb]; [reflexivity|].
      destruct (Str.isEmpty (Str.trim (textOf (getAt row (col TEMPLATE_ID_COL)))))
        eqn:Ei; cbn [negb andb]; [reflexivity|].
      apply lookup_insert_ne. intros Ek. apply Hn. now repeat split. }
    split.
    + intros Hall. apply Forall_cons_1 in Hall. destruct Hall as [Hn Hall].
      rewrite (Hnone Hall). now apply Hrow.
    + intros [|j] r (Hj & Hd & Hafter).
      * injection Hj as <-. rewrite Hnone.
        -- rewrite E1. destruct Hd as (Hk & Hn & Hi). rewrite Hn, Hi. cbn [negb andb].
           rewrite Hk. apply lookup_insert_eq.
        -- apply Forall_forall. intros r Hr.
           apply list_elem_of_lookup_1 in Hr. destruct Hr as [i Hi].
           apply (Hafter (S i) r); [lia | exact Hi].
      * apply (Hlast j r). split; [exact Hj|]. split; [exact Hd|].
        intros i r' Hi Hr'. apply (Hafter (S i) r'); [lia | exact Hr'].
Qed.

Lemma firstAt_unique {A} (P : A -> Prop) (rows : list A) (i j : nat) (r r' : A) :
  firstAt P rows i r -> firstAt P rows j r' -> i = j /\ r = r'.
Proof.
  intros (Hi & Hp & Hfi) (Hj & Hp' & Hfj).
  destruct (lt_eq_lt_dec i j) as [[Hlt| ->]|Hlt].
  - now destruct (Hfj i r Hlt Hi).
  - split; [reflexivity | congruence].
  - now destruct (Hfi j r' Hlt Hj).
Qed.

(** The project row after the scan, read forwards. *)
Lemma scanRows_found (name : value) (s : string) (rows : list (list value))
    (st' : Scan) :
  toStringM name = Ok s ->
  scanRows name {| templateMap := ∅; bankMap := ∅; projectRow := None |} rows = Ok st' ->
  (Forall (fun r => ~ namesProject s r) rows -> projectRow st' = None) /\
  (forall i row, firstAt (namesProject s) rows i row -> projectRow st' = Some row).
Proof.
  intros Hs Es. pose proof (scanRows_project name rows _ _ Es) as Hp.
  cbn [projectRow] in Hp. split.
  - intros Hall. destruct (projectRow st') as [r|]; [|reflexivity].
    destruct Hp as (s' & i & Hs' & Hi & Hn & _). rewrite Hs in Hs'. injection Hs' as <-.
    rewrite Forall_forall in Hall. destruct (Hall r); [|exact Hn].
    eapply list_elem_of_lookup_2, Hi.
  - intros i row Hfirst. destruct (projectRow st') as [r|].
    + destruct Hp as (s' & i' & Hs' & Hfirst'). rewrite Hs in Hs'. injection Hs' as <-.
      now destruct (firstAt_unique _ _ _ _ _ _ Hfirst' Hfirst) as [_ ->].
    + destruct Hfirst as (Hi & Hn & _). specialize (Hp s Hs).
      rewrite Forall_forall in Hp. destruct (Hp row); [|exact Hn].
      eapply list_elem_of_lookup_2, Hi.
Qed.

Lemma isEmpty_spec (s : string) : Str.isEmpty s = true <-> s = "".
Proof. destruct s; split; intros E; try reflexivity; discriminate E. Qed.

(** X21.  [getProjectDetailsFromData] changes nothing.  When it
    answers, the details are read off the first row of the Lists sheet,
    below the header, that carries the project name, and the template is
    the identifier given by the last row that defines the template named
    in that row.  For a name that has a text: when no row carries the
    name, it throws that the project was not found; when the first row
    that carries it names no template, that the project has no template
    name; when no row defines the template it names, that the template
    was not found; and when some row does, it answers, the template being
    that of the last such row. *)
Theorem project_lookup_outcome (name : value) (w : World) :
  let rows := drop 1 (getValues (lists w)) in
  let templateOf (row : list value) := Str.trim (textOf (getAt row (col TEMPLATE_NAME))) in
  match getProjectDetailsFromData name w with
  | (Ok pd, w') =>
      w' = w /\
      exists s i row k r,
        toStringM name = Ok s /\
        firstAt (namesProject s) rows i row /\
        pd_clientName pd = orElse (getAt row (col CLIENT_NAME)) (VStr "") /\
        pd_clientAddress pd = orElse (getAt row (col CLIENT_ADDRESS)) (VStr "") /\
        pd_ourCompany pd = orElse (getAt row (col OUR_COMPANY)) (VStr "") /\
        lastAt (definesTemplate (toLowerCase (templateOf row))) rows k r /\
        pd_templateId pd = Str.trim (textOf (getAt r (col TEMPLATE_ID_COL)))
  | (Throw (ProjectNotFound n), w') =>
      w' = w /\ n = name /\
      forall s, toStringM name = Ok s -> Forall (fun r => ~ namesProject s r) rows
  | (Throw _, w') => w' = w
  end /\
  (forall s,
      toStringM name = Ok s ->
      Forall (fun r => ~ namesProject s r) rows ->
      getProjectDetailsFromData name w = (Throw (ProjectNotFound name), w)) /\
  (forall s i row,
      toStringM name = Ok s ->
      firstAt (namesProject s) rows i row ->
      templateOf row = "" ->
      getProjectDetailsFromData name w = (Throw (NoTemplateName name), w)) /\
  (forall s i row,
      toStringM name = Ok s ->
      firstAt (namesProject s) rows i row ->
      templateOf row <> "" ->
      Forall (fun r => ~ definesTemplate (toLowerCase (templateOf row)) r) rows ->
      getProjectDetailsFromData name w = (Throw (NoTemplateFound (templateOf row)), w)) /\
  (forall s i row k r,
      toStringM name = Ok s ->
      firstAt (namesProject s) rows i row ->
      templateOf row <> "" ->
      lastAt (definesTemplate (toLowerCase (templateOf row))) rows k r ->
      exists pd,
        getProjectDetailsFromData name w = (Ok pd, w) /\
        pd_templateId pd = Str.trim (textOf (getAt r (col TEMPLATE_ID_COL)))).
Proof.
  intros rows templateOf. split.
  { unfold getProjectDetailsFromData, bindM, readSheet, lift.
    cbn [sheetOf]. unfold getProjectDetailsFromRows. fold rows.
    destruct (scanRows name _ rows) as [st|e] eqn:Es; cbn [bindR];
      [|now rewrite (scanRows_throws _ _ _ _ Es)].
    pose proof (scanRows_project name rows _ _ Es) as Hp. cbn [projectRow] in Hp.
    pose proof (scanRows_templates name rows _ _ Es) as Ht. cbn [templateMap] in Ht.
    destruct (projectRow st) as [row|]; [|now repeat split].
    destruct Hp as (s & i & Hs & Hfirst).
    destruct (Str.isEmpty (Str.trim (textOf (getAt row (col TEMPLATE_NAME)))));
      [reflexivity|].
    destruct (templateMap st !! _) as [id|] eqn:Eid; [|reflexivity].
    destruct (Str.isEmpty id); [reflexivity|].
    split; [reflexivity|].
    destruct (Ht _ _ Eid) as [(k & r & Hlast & Hid)|[Hempty _]];
      [|now rewrite lookup_empty in Hempty].
    exists s, i, row, k, r.
    cbn [pd_clientName pd_clientAddress pd_ourCompany pd_templateId].
    repeat split; try assumption; try apply Hfirst; try apply Hlast. now rewrite Hid. }
  assert (Hrun : forall s, toStringM name = Ok s ->
            exists st,
              scanRows name {| templateMap := ∅; bankMap := ∅; projectRow := None |} rows
              = Ok st /\
              match projectRow st with
              | None =>
                  getProjectDetailsFromData name w = (Throw (ProjectNotFound name), w)
              | Some row =>
                  if Str.isEmpty (templateOf row)
                  then getProjectDetailsFromData name w = (Throw (NoTemplateName name), w)
                  else
                    match templateMap st !! toLowerCase (templateOf row) with
                    | None =>
                        getProjectDetailsFromData name w
                        = (Throw (NoTemplateFound (templateOf row)), w)
                    | Some id =>
                        if Str.isEmpty id
                        then getProjectDetailsFromData name w
                             = (Throw (NoTemplateFound (templateOf row)), w)
                        else exists pd,
                               getProjectDetailsFromData name w = (Ok pd, w) /\
                               pd_templateId pd = id
                    end
              end).
  { intros s Hs. destruct (scanRows_Ok name s rows Hs
                             {| templateMap := ∅; bankMap := ∅; projectRow := None |})
      as [st Es].
    exists st. split; [exact Es|].
    unfold getProjectDetailsFromData, bindM, readSheet, lift.
    cbn [sheetOf fst]. unfold getProjectDetailsFromRows. fold rows. rewrite Es.
    cbn [bindR]. destruct (projectRow st) as [row|]; [|reflexivity].
    fold (templateOf row).
    destruct (Str.isEmpty (templateOf row)); [reflexivity|].
    destruct (templateMap st !! _) as [id|]; [|reflexivity].
    destruct (Str.isEmpty id); [reflexivity|].
    eexists. split; reflexivity. }
  split; [|split; [|split]].
  - intros s Hs Hall. destruct (Hrun s Hs) as (st & Es & E).
    now rewrite (proj1 (scanRows_found name s rows st Hs Es) Hall) in E.
  - intros s i row Hs Hfirst Ht. destruct (Hrun s Hs) as (st & Es & E).
    rewrite (proj2 (scanRows_found name s rows st Hs Es) i row Hfirst) in E.
    now rewrite (proj2 (isEmpty_spec _) Ht) in E.
  - intros s i row Hs Hfirst Ht Hall. destruct (Hrun s Hs) as (st & Es & E).
    rewrite (proj2 (scanRows_found name s rows st Hs Es) i row Hfirst) in E.
    destruct (Str.isEmpty (templateOf row)) eqn:Ee;
      [now apply isEmpty_spec in Ee|].
    rewrite (proj1 (scanRows_defined name rows _ _ _ Es) Hall) in E.
    cbn [templateMap] in E. now rewrite lookup_empty in E.
  - intros s i row k r Hs Hfirst Ht Hlast. destruct (Hrun s Hs) as (st & Es & E).
    rewrite (proj2 (scanRows_found name s rows st Hs Es) i row Hfirst) in E.
    destruct (Str.isEmpty (templateOf row)) eqn:Ee;
      [now apply isEmpty_spec in Ee|].
    rewrite (proj2 (scanRows_defined name rows _ _ _ Es) k r Hlast) in E.
    destruct Hlast as (_ & (_ & _ & Hid) & _). rewrite Hid in E. exact E.
Qed.

End ProjectFacts.

Lemma project_lookup_outcome_witness :
  @getProjectDetailsFromData Sample.host (VStr "Gamma") Sample.world
  = (Throw (ProjectNotFound (VStr "Gamma")), Sample.world) /\
  exists pd,
    @getProjectDetailsFromData Sample.host (VStr "  aCME ") Sample.world
    = (Ok pd, Sample.world) /\
    pd_templateId pd = "template-acme-standard-0000001".
Proof.
  pose (acme := Sample.listsRow "Acme" "Acme Ltd" "15" "USD" "Ours GmbH" "Standard" "B1"
                  "B1" "Bank One, IBAN 1" "Standard" "template-acme-standard-0000001").
  pose (beta := Sample.listsRow "Beta" "Beta SA" "20" "EUR" "Ours GmbH" "Special" "B1"
                  "" "" "Special" "template-beta-special-00000002").
  split.
  - assert (Hall : Forall (fun r => ~ @namesProject Sample.host "Gamma" r) [acme; beta]).
    { repeat constructor; intros Hn; vm_compute in Hn; discriminate Hn. }
    exact (proj1 (proj2 (@project_lookup_outcome Sample.host (VStr "Gamma") Sample.world))
             "Gamma" eq_refl Hall).
  - assert (Hfirst : firstAt (@namesProject Sample.host "  aCME ") [acme; beta] 0 acme).
    { split; [reflexivity|]. split; [vm_compute; reflexivity|]. intros j r Hj. lia. }
    assert (Hlast : lastAt (@definesTemplate Sample.host "standard") [acme; beta] 0 acme).
    { split; [reflexivity|]. split; [vm_compute; repeat split|].
      intros [|[|j]] r Hj Hr; [lia| |discriminate Hr].
      injection Hr as <-. intros (Hn & _). vm_compute in Hn. discriminate Hn. }
    destruct (proj2 (proj2 (proj2 (proj2
                (@project_lookup_outcome Sample.host (VStr "  aCME ") Sample.world))))
                "  aCME " 0%nat acme 0%nat acme eq_refl Hfirst
                ltac:(vm_compute; discriminate) Hlast) as (pd & E & Ht).
    exists pd. split; [exact E|]. rewrite Ht. vm_compute. reflexivity.
Defined.

(** ** The item table once rendered *)

Section TableFacts.
Context `{Host}.

Lemma not_anchor (t : Table) (hs : list string) :
  headerTexts t = Ok hs -> invoiceSignature hs = false -> ~ anchorsInvoice t.
Proof.
  intros Eh Es (hs' & Eh' & Ha). rewrite Eh in Eh'. injection Eh' as <-.
  apply invoiceSignature_spec in Ha. congruence.
Qed.

Lemma findInvoiceTable_first (tables : list Table) :
  forall i0 i,
    findInvoiceTable i0 tables = Ok (Some i) ->
    i0 <= i /\ exists t, firstAt anchorsInvoice tables (i - i0) t.
Proof.
  induction tables as [|t tables IH]; intros i0 i; [discriminate|].
  cbn [findInvoiceTable].
  destruct (headerTexts t) as [hs|e] eqn:Eh; cbn [bindR]; [|discriminate].
  destruct (invoiceSignature hs) eqn:Es.
  - intros [= <-]. split; [lia|]. exists t. rewrite Nat.sub_diag.
    split; [reflexivity|]. split.
    + exists hs. split; [exact Eh|]. now apply invoiceSignature_spec.
    + intros j r Hj. lia.
  - intros E. destruct (IH _ _ E) as (Hle & t' & Ht' & Ha & Hfirst).
    split; [lia|]. exists t'. replace (i - i0) with (S (i - S i0)) by lia.
    split; [exact Ht'|]. split; [exact Ha|].
    intros [|j] r Hj Hr.
    + injection Hr as <-. now apply (not_anchor t hs).
    + apply (Hfirst j r); [lia | exact Hr].
Qed.

Lemma findInvoiceTable_nowhere (tables : list Table) :
  forall i0, findInvoiceTable i0 tables = Ok None ->
             Forall (fun t => ~ anchorsInvoice t) tables.
Proof.
  induction tables as [|t tables IH]; intros i0; [constructor|].
  cbn [findInvoiceTable].
  destruct (headerTexts t) as [hs|e] eqn:Eh; cbn [bindR]; [|discriminate].
  destruct (invoiceSignature hs) eqn:Es; [discriminate|].
  intros E. constructor; [now apply (not_anchor t hs) | now apply (IH (S i0))].
Qed.

(** X22.  When [updateInvoiceTable] succeeds, exactly one table of the
    document has changed, the first whose header row carries the six
    labels: it keeps its header row, loses every other row it had, and
    gets one row for each item, in order, with as many cells as the item
    has.  When it fails for want of a table, no table of the document
    carries the labels. *)
Theorem invoice_table_rendering (tables : list Table) (data : FormData) :
  match updateInvoiceTable tables data with
  | Ok tables' =>
      exists i t items,
        f_items data = Some items /\
        firstAt anchorsInvoice tables i t /\
        tables' = <[i := take 1 t ++ (invoiceCells (f_currency data) <$> items)]> tables /\
        length (take 1 t) = 1 /\
        Forall2 (fun item row => length row = length item) items
                (invoiceCells (f_currency data) <$> items)
  | Throw TableNotFound => Forall (fun t => ~ anchorsInvoice t) tables
  | Throw _ => True
  end.
Proof.
  unfold updateInvoiceTable.
  destruct (findInvoiceTable 0 tables) as [[i|]|e] eqn:Ef; cbn [bindR].
  - destruct (findInvoiceTable_first _ _ _ Ef) as (_ & t & Hfirst).
    rewrite Nat.sub_0_r in Hfirst.
    destruct (f_items data) as [items|]; [|exact I].
    exists i, t, items. split; [reflexivity|]. split; [exact Hfirst|].
    destruct Hfirst as (Ht & (hs & Eh & _) & _).
    split; [exact (list_alter_as_insert _ tables i t Ht)|]. split.
    + destruct t; [discriminate Eh | reflexivity].
    + apply Forall2_fmap_r, Forall_Forall2_diag, Forall_forall. intros item _.
      unfold invoiceCells, compose. now rewrite length_imap.
  - now apply (findInvoiceTable_nowhere tables 0).
  - destruct e; try exact I.
    exfalso. revert Ef. generalize 0. induction tables as [|t tables IH]; intros i0;
      cbn [findInvoiceTable]; [discriminate|].
    destruct t as [|r t]; cbn [headerTexts bindR]; [discriminate|].
    destruct (invoiceSignature _); [discriminate | apply IH].
Qed.


Lemma findCreditNoteTable_first (tables : list Table) :
  forall i0,
    match findCreditNoteTable i0 tables with
    | Some i =>
        i0 <= i /\
        exists t, firstAt (fun t => ~ skippedByCreditNote t) tables (i - i0) t
    | None => Forall skippedByCreditNote tables
    end.
Proof.
  induction tables as [|t tables IH]; intros i0; cbn [findCreditNoteTable];
    [constructor|].
  assert (Hskip : skippedByCreditNote t ->
            match findCreditNoteTable (S i0) tables with
            | Some i =>
                i0 <= i /\
                exists t0, firstAt (fun t => ~ skippedByCreditNote t) (t :: tables)
                             (i - i0) t0
            | None => Forall skippedByCreditNote (t :: tables)
            end).
  { intros Hs. specialize (IH (S i0)).
    destruct (findCreditNoteTable (S i0) tables) as [i|]; [|now constructor].
    destruct IH as (Hle & t' & Ht' & Hn & Hfirst). split; [lia|]. exists t'.
    replace (i - i0) with (S (i - S i0)) by lia.
    split; [exact Ht'|]. split; [exact Hn|].
    intros [|j] r Hj Hr.
    - injection Hr as <-. now intros Hc.
    - apply (Hfirst j r); [lia | exact Hr]. }
  destruct t as [|r t]; [now apply Hskip|].
  destruct (creditNoteSignature _) eqn:Es; [|now apply Hskip].
  split; [lia|]. exists (r :: t). rewrite Nat.sub_diag.
  split; [reflexivity|]. split.
  - cbn [skippedByCreditNote]. congruence.
  - intros j r' Hj. lia.
Qed.

(** X23.  [updateCreditNoteTable] either finds no table that passes its
    test and leaves the document as it is, or rewrites exactly the first
    table that passes: that table keeps its header row, loses every other
    row, and gets one row for each item of the form, none when the form has
    no items. *)
Theorem credit_note_table_rendering (tables : list Table) (data : FormData) :
  (Forall skippedByCreditNote tables /\
   updateCreditNoteTable tables data = tables)
  \/ (exists i t,
        firstAt (fun t => ~ skippedByCreditNote t) tables i t /\
        updateCreditNoteTable tables data
        = <[i := take 1 t ++ (creditNoteCells (f_currency data)
                               <$> default [] (f_items data))]> tables /\
        length (take 1 t) = 1).
Proof.
  unfold updateCreditNoteTable.
  pose proof (findCreditNoteTable_first tables 0) as Hf.
  destruct (findCreditNoteTable 0 tables) as [i|]; [right | now left].
  destruct Hf as (_ & t & Hfirst). rewrite Nat.sub_0_r in Hfirst.
  exists i, t. split; [exact Hfirst|]. destruct Hfirst as (Ht & Hn & _).
  split; [exact (list_alter_as_insert _ tables i t Ht)|].
  destruct t; [now exfalso; apply Hn | reflexivity].
Qed.

End TableFacts.

(** ** The anchor of the item table *)

Section AnchorFacts.
Context `{Host}.

Lemma ofBytes_bytes (s : string) : Str.ofBytes (Str.bytes s) = s.
Proof. apply string_of_list_ascii_of_string. Qed.

Lemma prefixBytes_spec (p l : list ascii) :
  Str.prefixBytes p l = true -> exists post, l = p ++ post.
Proof.
  revert l. induction p as [|a p IH]; intros l; cbn [Str.prefixBytes].
  - intros _. now exists l.
  - destruct l as [|b l]; [discriminate|].
    destruct (Ascii.eqb a b) eqn:E; [|discriminate].
    apply Ascii.eqb_eq in E. subst b. intros Hp.
    destruct (IH _ Hp) as [post ->]. now exists post.
Qed.

Lemma includesBytes_spec (sub l : list ascii) :
  Str.includesBytes sub l = true -> exists pre post, l = pre ++ sub ++ post.
Proof.
  induction l as [|c l IH]; cbn [Str.includesBytes].
  - rewrite orb_false_r. intros Hp. destruct (prefixBytes_spec _ _ Hp) as [post E].
    now exists [], post.
  - intros Hp. apply orb_true_iff in Hp. destruct Hp as [Hp|Hp].
    + destruct (prefixBytes_spec _ _ Hp) as [post E]. now exists [], post.
    + destruct (IH Hp) as (pre & post & ->). now exists (c :: pre), post.
Qed.

Lemma includes_spec (s sub : string) :
  Str.includes s sub = true <-> occursIn sub s.
Proof.
  unfold Str.includes, occursIn. split.
  - intros Hi. destruct (includesBytes_spec _ _ Hi) as (pre & post & E).
    exists (Str.ofBytes pre), (Str.ofBytes post).
    rewrite <- (ofBytes_bytes s). rewrite <- (ofBytes_bytes (_ +:+ _)).
    f_equal. now rewrite !bytes_app, !bytes_ofBytes.
  - intros (pre & post & ->). rewrite !bytes_app. apply includesBytes_app.
Qed.

Lemma creditNoteSignature_spec (hs : list string) :
  creditNoteSignature hs = true <-> looseLabels hs.
Proof.
  unfold creditNoteSignature, looseLabels. cbv zeta.
  destruct hs as [|h0 [|h1 [|h2 [|h3 more]]]];
    try (split; [discriminate | intros (? & ? & ? & ? & ? & E & _); discriminate E]).
  cbn [length Nat.leb andb textAt lookup list_lookup default strictEq].
  rewrite !andb_true_iff, !orb_true_iff, !includes_spec, !String.eqb_eq.
  split.
  - intros (((H0 & H1) & H2) & H3). exists h0, h1, h2, h3, more.
    repeat split; tauto.
  - intros (? & ? & ? & ? & ? & E & H0 & H1 & H2 & H3). injection E as <- <- <- <- <-.
    tauto.
Qed.

Lemma skipped_spec (t : Table) : skippedByCreditNote t <-> ~ anchorsCreditNote t.
Proof.
  unfold anchorsCreditNote. destruct t as [|r rest]; cbn [skippedByCreditNote].
  - split; [intros _ (? & ? & E & _); discriminate E | reflexivity].
  - rewrite <- not_true_iff_false, creditNoteSignature_spec. split.
    + intros Hn (r' & rest' & E & Hl). injection E as <- <-. now apply Hn.
    + intros Hn Hl. apply Hn. now exists r, rest.
Qed.

Lemma findInvoiceTable_at (tables : list Table) :
  forall i0 i t,
    firstAt anchorsInvoice tables i t ->
    Forall (fun t => t <> []) (take i tables) ->
    findInvoiceTable i0 tables = Ok (Some (i0 + i)).
Proof.
  induction tables as [|r tables IH]; intros i0 i t (Ht & Ha & Hbefore) Hne;
    [discriminate Ht|].
  cbn [findInvoiceTable]. destruct i as [|i].
  - injection Ht as <-. destruct Ha as (hs & -> & Hs). cbn [bindR].
    apply invoiceSignature_spec in Hs. rewrite Hs. now rewrite Nat.add_0_r.
  - cbn [take] in Hne. apply Forall_cons_1 in Hne. destruct Hne as [Hr Hne].
    destruct r as [|c r]; [now destruct Hr|]. cbn [headerTexts bindR].
    destruct (invoiceSignature _) eqn:Es.
    + exfalso. apply (Hbefore 0 (c :: r)); [lia | reflexivity|].
      eexists. split; [reflexivity|]. now apply invoiceSignature_spec.
    + rewrite (IH (S i0) i t); [f_equal; f_equal; lia| |exact Hne].
      split; [exact Ht|]. split; [exact Ha|].
      intros j r' Hj Hr'. apply (Hbefore (S j) r'); [lia | exact Hr'].
Qed.

(** C5, as the code has it.  The invoice renderer rewrites the first
    table of the document whose header row has, as the trimmed texts of
    its first six cells, the labels #, Services, Period, Quantity,
    Rate/hour, Amount, in that order and letter for letter (further
    columns do not matter), and no other table; when no table of the
    document is such a table it fails with [TableNotFound].  The
    credit-note renderer rewrites the first table whose header row has at
    least four cells, the first # or the numero sign, the next three
    containing, whatever the letter case, a word for the description, the
    period and the amount; when no table is such a table it throws
    nothing and leaves the tables as they were: no item row is written. *)
Theorem item_table_anchor (tables : list Table) (data : FormData) :
  (forall tables',
      updateInvoiceTable tables data = Ok tables' ->
      exists i t items,
        firstAt anchorsInvoice tables i t /\ f_items data = Some items /\
        tables'
        = <[i := take 1 t ++ (invoiceCells (f_currency data) <$> items)]> tables) /\
  (forall i t items,
      firstAt anchorsInvoice tables i t ->
      Forall (fun t => t <> []) (take i tables) ->
      f_items data = Some items ->
      updateInvoiceTable tables data
      = Ok (<[i := take 1 t ++ (invoiceCells (f_currency data) <$> items)]> tables)) /\
  (Forall (fun t => t <> [] /\ ~ anchorsInvoice t) tables ->
   updateInvoiceTable tables data = Throw TableNotFound) /\
  (forall i t,
      firstAt anchorsCreditNote tables i t ->
      updateCreditNoteTable tables data
      = <[i := take 1 t ++ (creditNoteCells (f_currency data)
                             <$> default [] (f_items data))]> tables) /\
  (Forall (fun t => ~ anchorsCreditNote t) tables ->
   updateCreditNoteTable tables data = tables).
Proof.
  split; [|split; [|split; [|split]]].
  - intros tables'. unfold updateInvoiceTable.
    destruct (findInvoiceTable 0 tables) as [[i|]|e] eqn:Ef; cbn [bindR];
      try discriminate.
    destruct (findInvoiceTable_first _ _ _ Ef) as (_ & t & Hfirst).
    rewrite Nat.sub_0_r in Hfirst.
    destruct (f_items data) as [items|]; [|discriminate].
    intros [= <-]. exists i, t, items. split; [exact Hfirst|]. split; [reflexivity|].
    destruct Hfirst as (Ht & _). exact (list_alter_as_insert _ tables i t Ht).
  - intros i t items Hfirst Hne Hitems. unfold updateInvoiceTable.
    rewrite (findInvoiceTable_at tables 0 i t Hfirst Hne). cbn [bindR Nat.add].
    rewrite Hitems. f_equal. destruct Hfirst as (Ht & _).
    exact (list_alter_as_insert _ tables i t Ht).
  - intros Hall. unfold updateInvoiceTable.
    now rewrite (findInvoiceTable_none _ 0 Hall).
  - intros i t (Ht & Ha & Hbefore). unfold updateCreditNoteTable.
    pose proof (findCreditNoteTable_first tables 0) as Hf.
    destruct (findCreditNoteTable 0 tables) as [i'|].
    + destruct Hf as (_ & t' & Hfirst'). rewrite Nat.sub_0_r in Hfirst'.
      assert (Hfirst : firstAt (fun t => ~ skippedByCreditNote t) tables i t).
      { split; [exact Ht|]. split; [now rewrite skipped_spec|].
        intros j r Hj Hr Hn. apply Hn, skipped_spec. now apply (Hbefore j r). }
      destruct (firstAt_unique _ _ _ _ _ _ Hfirst' Hfirst) as [-> ->].
      exact (list_alter_as_insert _ tables i t Ht).
    + exfalso. rewrite Forall_forall in Hf.
      apply (proj1 (skipped_spec t)); [|exact Ha].
      apply Hf. eapply list_elem_of_lookup_2, Ht.
  - intros Hall. unfold updateCreditNoteTable.
    rewrite findCreditNoteTable_none; [reflexivity|].
    eapply Forall_impl; [exact Hall|]. intros t. apply skipped_spec.
Qed.

End AnchorFacts.

Lemma item_table_anchor_witness :
  @updateInvoiceTable Sample.host [Sample.priceTable; Sample.sevenColumnTable]
    (Sample.invoiceForm "100" Sample.oneItem)
  = Ok [ Sample.priceTable;
         [ VStr <$> ["#"; "Services"; "Period"; "Quantity"; "Rate/hour"; "Amount"; "Notes"];
           VStr <$> ["7"; "Development"; "Jan 2024"; "10"; "$10"; "$100"] ] ] /\
  @updateInvoiceTable Sample.host [Sample.priceTable; Sample.looseTable]
     (Sample.invoiceForm "100" Sample.oneItem) = Throw TableNotFound /\
  @updateCreditNoteTable Sample.host [Sample.priceTable; Sample.looseTable]
     (Sample.creditNoteForm VUndef "100" "115" [Sample.creditItem "1" "Refund" "Jan" "1"])
  = [ Sample.priceTable;
      [ VStr <$> ["#"; "Service DESCRIPTION"; "Billing period"; "Total Amount"];
        VStr <$> ["1"; "Refund"; "Jan"; "$1"] ] ] /\
  @updateCreditNoteTable Sample.host [Sample.priceTable; []]
     (Sample.creditNoteForm VUndef "100" "115" [Sample.creditItem "1" "Refund" "Jan" "1"])
  = [Sample.priceTable; []].
Proof.
  pose (form := Sample.invoiceForm "100" Sample.oneItem).
  pose (note := Sample.creditNoteForm VUndef "100" "115"
                  [Sample.creditItem "1" "Refund" "Jan" "1"]).
  assert (Hprice : ~ @anchorsCreditNote Sample.host Sample.priceTable).
  { intros (r & rest & E & h0 & h1 & h2 & h3 & more & El & _).
    injection E as <- <-. vm_compute in El. discriminate El. }
  assert (Hprice' : ~ @anchorsInvoice Sample.host Sample.priceTable).
  { intros (hs & Eh & Et). vm_compute in Eh. injection Eh as <-. discriminate Et. }
  split; [|split; [|split]].
  - refine (eq_trans
              (proj1 (proj2 (@item_table_anchor Sample.host
                               [Sample.priceTable; Sample.sevenColumnTable] form))
                 1%nat Sample.sevenColumnTable Sample.oneItem _ _ eq_refl) _);
      [| |vm_compute; reflexivity].
    + split; [reflexivity|]. split.
      * eexists. split; [reflexivity|]. vm_compute. reflexivity.
      * intros [|j] r Hj Hr; [|lia]. cbn in Hr. injection Hr as <-. exact Hprice'.
    + repeat constructor. discriminate.
  - apply (proj1 (proj2 (proj2 (@item_table_anchor Sample.host
                                  [Sample.priceTable; Sample.looseTable] form)))).
    repeat constructor; try discriminate;
      intros (hs & Eh & Et); vm_compute in Eh; injection Eh as <-; discriminate Et.
  - refine (eq_trans
              (proj1 (proj2 (proj2 (proj2 (@item_table_anchor Sample.host
                                             [Sample.priceTable; Sample.looseTable]
                                             note))))
                 1%nat Sample.looseTable _) _); [|vm_compute; reflexivity].
    split; [reflexivity|]. split.
    + eexists _, _. split; [reflexivity|].
      exists "#", "Service DESCRIPTION", "Billing period", "Total Amount", [].
      split; [vm_compute; reflexivity|]. split; [now left|].
      split; [left; now exists "service ", ""|].
      split; [left; now exists "billing ", ""|].
      left. now exists "total ", "".
    + intros [|j] r Hj Hr; [|lia]. cbn in Hr. injection Hr as <-. exact Hprice.
  - apply (proj2 (proj2 (proj2 (proj2 (@item_table_anchor Sample.host
                                         [Sample.priceTable; []] note))))).
    repeat constructor; [exact Hprice|].
    intros (r & rest & E & _). discriminate E.
Defined.

(** ** What the creation of a credit note leaves *)

Section CreditNoteFacts.
Context `{Host}.

Ltac quiet := intros ? ?; reflexivity.

Lemma processCreditNoteFormFromData_outcome (data : FormData) (w : World)
    (items : list (list value)) :
  f_items data = Some items ->
  let row := creditNoteRow (getUuid (drawn w)) data items in
  match processCreditNoteFormFromData data w with
  | (Ok (d, p), w1) =>
      creditNotes w1
      = headedWith creditNoteHeaders (creditNotes w)
        ++ [take 16 row ++ VStr d :: VStr p :: drop 18 row] /\
      cache w1 = delete "creditNoteList" (cache w) /\
      invoices w1 = invoices w /\ lists w1 = lists w
  | (Throw e, w1) =>
      creditNotes w1 = headedWith creditNoteHeaders (creditNotes w) ++ [row] /\
      cache w1 = cache w /\
      invoices w1 = invoices w /\ lists w1 = lists w
  end.
Proof.
  intros Hitems row.
  set (Q := fun (r : result (string * string)) (w1 : World) =>
              match r with
              | Ok (d, p) =>
                  creditNotes w1
                  = headedWith creditNoteHeaders (creditNotes w)
                    ++ [take 16 row ++ VStr d :: VStr p :: drop 18 row] /\
                  cache w1 = delete "creditNoteList" (cache w) /\
                  invoices w1 = invoices w /\ lists w1 = lists w
              | Throw e =>
                  creditNotes w1 = headedWith creditNoteHeaders (creditNotes w) ++ [row] /\
                  cache w1 = cache w /\
                  invoices w1 = invoices w /\ lists w1 = lists w
              end).
  enough (HQ : wp (processCreditNoteFormFromData data) Q w).
  { unfold wp in HQ. destruct (processCreditNoteFormFromData data w) as [[[d p]|e] w1];
      exact HQ. }
  set (core := fun w0 : World => (creditNotes w0, cache w0, invoices w0, lists w0)).
  assert (Hcore : forall w1 w2, core w1 = core w2 ->
            creditNotes w1 = creditNotes w2 /\ cache w1 = cache w2 /\
            invoices w1 = invoices w2 /\ lists w1 = lists w2).
  { unfold core. intros w1 w2 E. injection E as -> -> -> ->. now repeat split. }
  assert (Hrow : forall a b,
             take 16 row ++ a :: b :: drop 18 row
             = <[17 := b]> (<[16 := a]> row)) by reflexivity.
  assert (Hlen : (17 < length row)%nat) by (cbn; lia).
  unfold processCreditNoteFormFromData.
  apply wp_bind, wp_drawUuid. apply wp_bind, wp_readSheet.
  apply wp_bind.
  assert (Hhd : forall w0, core w0 = core w ->
             wp (if (getLastRow (creditNotes w0) =? 0)%nat
                 then writeSheet CREDITNOTES (appendRow creditNoteHeaders) else ret tt)
                (fun r w1 => r = Ok tt /\
                             creditNotes w1 = headedWith creditNoteHeaders (creditNotes w) /\
                             cache w1 = cache w /\ invoices w1 = invoices w /\
                             lists w1 = lists w) w0).
  { intros w0 E0. destruct (Hcore _ _ E0) as (Ei & Ec & En & El).
    unfold headedWith. rewrite Ei.
    destruct (_ =? _)%nat; [apply wp_writeSheet|apply wp_ret]; cbn;
      rewrite ?Ei; now repeat split. }
  eapply wp_mono; [apply (Hhd (withDrawn (S (drawn w)) w) eq_refl)|]. clear Hhd.
  intros r w1 (-> & E1 & Ec1 & En1 & El1).
  set (s1 := headedWith creditNoteHeaders (creditNotes w)) in *.
  cbv zeta. rewrite Hitems.
  apply wp_bind, wp_readSheet. apply wp_bind, wp_writeSheet.
  cbn [sheetOf]. unfold getLastRow. rewrite E1, setRow_append. fold row.
  set (w2 := withSheet CREDITNOTES (s1 ++ [row]) w1).
  assert (Hplain : forall w', core w' = core w2 -> forall e, Q (Throw e) w').
  { intros w' E e. destruct (Hcore _ _ E) as (Ei & Ec & En & El).
    cbn [Q]. rewrite Ei, Ec, En, El. cbn. now rewrite Ec1, En1, El1. }
  apply wp_bind. apply (wp_keeps core); [apply keeps_getProjectFolderId|].
  intros [folderId|e] w3 E3; [|now apply Hplain].
  apply wp_bind. apply (wp_keeps core); [apply keeps_createCreditNoteDoc; quiet|].
  intros [doc|e] w4 E4; [|apply Hplain; now rewrite E4].
  apply wp_bind. apply (wp_keeps core); [apply keeps_savePdf|].
  intros [pdfUrl|e] w5 E5; [|apply Hplain; now rewrite E5, E4].
  destruct (Hcore w5 w2) as (Ei & Ec & En & El); [now rewrite E5, E4, E3|].
  cbn [w2 withSheet invoices cache creditNotes lists] in Ei, Ec, En, El.
  apply wp_bind, wp_writeSheet. cbn [sheetOf].
  rewrite Ei, setCell_last by lia.
  apply wp_bind, wp_writeSheet. cbn [sheetOf withSheet creditNotes].
  rewrite setCell_last by (rewrite length_insert; lia).
  apply wp_bind, wp_cacheRemove. apply wp_ret. cbn [Q]. rewrite Hrow.
  cbn [invoices cache creditNotes lists withCache withSheet].
  rewrite Ec, En, El, Ec1, En1, El1. now repeat split.
Qed.

(** X24.  [processCreditNoteFormFromData], given items, never touches
    the sheets of the invoices and of the lists and always writes exactly
    one row below the rows of the credit notes, after the header row when
    the sheet was empty.  When it answers, the two link cells (columns 16
    and 17) hold the URLs of the answer and the cached list is dropped;
    when it throws, the row stays, with empty link cells, and the cached
    list is kept. *)
Theorem credit_note_create_outcome (w : World) (data : FormData)
    (items : list (list value)) :
  f_items data = Some items ->
  let row := creditNoteRow (getUuid (drawn w)) data items in
  let w1 := snd (processCreditNoteFormFromData data w) in
  invoices w1 = invoices w /\ lists w1 = lists w /\
  match fst (processCreditNoteFormFromData data w) with
  | Ok (d, p) =>
      creditNotes w1
      = headedWith creditNoteHeaders (creditNotes w)
        ++ [take 16 row ++ VStr d :: VStr p :: drop 18 row] /\
      cache w1 = delete "creditNoteList" (cache w)
  | Throw e =>
      creditNotes w1 = headedWith creditNoteHeaders (creditNotes w) ++ [row] /\
      cache w1 = cache w
  end.
Proof.
  intros Hitems row w1.
  pose proof (processCreditNoteFormFromData_outcome data w items Hitems) as Ho.
  cbv zeta in Ho. fold row in Ho. unfold w1.
  destruct (processCreditNoteFormFromData data w) as [[[d p]|e] w']; cbn [fst snd];
    destruct Ho as (Ei & Ec & En & El); now repeat split.
Qed.

End CreditNoteFacts.

Lemma credit_note_create_outcome_witness :
  exists d p row,
    @processCreditNoteFormFromData Sample.host
      (Sample.creditNoteForm VUndef "100" "115.00"
         [Sample.creditItem "1" "Refund" "Jan 2024" "100"]) Sample.world
    = (Ok (d, p), Sample.creditNoteCreated) /\
    creditNotes Sample.creditNoteCreated = [creditNoteHeaders; row] /\
    row !! 16%nat = Some (VStr d) /\ row !! 17%nat = Some (VStr p) /\
    cache Sample.creditNoteCreated !! "creditNoteList" = None.
Proof.
  destruct (@credit_note_create_outcome Sample.host Sample.world
              (Sample.creditNoteForm VUndef "100" "115.00"
                 [Sample.creditItem "1" "Refund" "Jan 2024" "100"])
              [Sample.creditItem "1" "Refund" "Jan 2024" "100"] eq_refl)
    as (_ & _ & Ho).
  assert (E : exists d p,
             @processCreditNoteFormFromData Sample.host
               (Sample.creditNoteForm VUndef "100" "115.00"
                  [Sample.creditItem "1" "Refund" "Jan 2024" "100"]) Sample.world
             = (Ok (d, p), Sample.creditNoteCreated))
    by (do 2 eexists; vm_compute; reflexivity).
  destruct E as (d & p & E). rewrite E in Ho. cbn [fst snd] in Ho.
  destruct Ho as [Ei Ec].
  exists d, p. eexists. split; [exact E|]. split; [exact Ei|].
  split; [reflexivity|]. split; [reflexivity|].
  rewrite Ec. apply lookup_delete_eq.
Defined.

(** ** Saving without rendering *)

Section SaveFacts.
Context `{Host}.

(** X25.  [saveInvoiceData], given items and a due date that is a text,
    writes exactly one row below the rows of the invoice sheet and answers
    with the number of that row, counted from 1, and the identifier drawn,
    which is the first cell of the row; the other sheets stay and the
    cached list is dropped.  It writes no header: saved into an empty
    sheet the row is the first one, where the lookup expects the header,
    and the identifier then reads as not found. *)
Theorem save_outcome (w : World) (data : FormData)
    (items : list (list value)) (due : string) :
  let u := getUuid (drawn w) in
  let row := savedInvoiceRow u data (dueDateOf due) items in
  f_items data = Some items ->
  f_dueDate data = VStr due ->
  exists w1,
    saveInvoiceData data w = (Ok (S (length (invoices w)), u), w1) /\
    invoices w1 = invoices w ++ [row] /\
    invoices w1 !! length (invoices w) = Some row /\
    row !! 0%nat = Some (VStr u) /\
    creditNotes w1 = creditNotes w /\ lists w1 = lists w /\
    cache w1 = delete "invoiceList" (cache w) /\
    match invoices w with
    | [] => getInvoiceDataByIdFromData (VStr u) w1 = (Ok None, w1)
    | _ => True
    end.
Proof.
  intros u row Hitems Hdue. unfold saveInvoiceData.
  unfold bindM at 1. unfold drawUuid at 1. fold u.
  rewrite Hdue. unfold bindM at 1. cbn [lift asString]. rewrite Hitems.
  unfold bindM, readSheet, writeSheet, cacheRemove, ret.
  cbn [sheetOf withDrawn invoices]. unfold getLastRow. rewrite setRow_append. fold row.
  eexists. split; [reflexivity|].
  cbn [withCache withSheet withDrawn invoices creditNotes lists cache].
  split; [reflexivity|]. split; [now apply list_lookup_middle|].
  split; [reflexivity|]. split; [reflexivity|]. split; [reflexivity|].
  split; [reflexivity|].
  destruct (invoices w) eqn:Ew; [|exact I].
  unfold getInvoiceDataByIdFromData. destruct (blankId (VStr u)); [reflexivity|].
  unfold bindM, readSheet. cbn [sheetOf withCache withSheet withDrawn invoices app].
  reflexivity.
Qed.

End SaveFacts.

Lemma save_outcome_witness :
  exists w1,
    @saveInvoiceData Sample.host (Sample.invoiceForm "100" Sample.oneItem) Sample.world
    = (Ok (1%nat, "uuid-0"), w1) /\
    length (invoices w1) = 1%nat /\
    @getInvoiceDataByIdFromData Sample.host (VStr "uuid-0") w1 = (Ok None, w1).
Proof.
  destruct (@save_outcome Sample.host Sample.world
              (Sample.invoiceForm "100" Sample.oneItem) Sample.oneItem "14/02/2024"
              eq_refl eq_refl)
    as (w1 & E & Ei & _ & _ & _ & _ & _ & Hg).
  exists w1. split; [exact E|]. split; [now rewrite Ei | exact Hg].
Defined.

(** ** An update that fails half way *)

Section HalfwayFacts.
Context `{Host}.

Ltac quiet := intros ? ?; reflexivity.

Lemma trashOld_answers (url : value) (w : World) :
  fst (trashOld url w) = Ok tt.
Proof.
  unfold trashOld, tryCatch.
  match goal with |- context [match ?m with _ => _ end] =>
    destruct m as [[[]|e] w1] end; reflexivity.
Qed.

Lemma trashOld_trash (url : value) (w : World) (k : string) :
  drive w !! k = Some true -> drive (snd (trashOld url w)) !! k = Some true.
Proof.
  intros Hk. unfold trashOld, tryCatch.
  destruct (truthy url); [|exact Hk].
  unfold bindM, lift. destruct (extractFileIdFromUrl url) as [id|e]; [|exact Hk].
  destruct (Str.isEmpty id); [exact Hk|].
  unfold trashFile. destruct (drive w !! id) eqn:Ed; [|exact Hk].
  cbn [snd drive withDrive ret].
  destruct (decide (id = k)) as [->|Hne];
    [apply lookup_insert_eq | now rewrite lookup_insert_ne].
Qed.

Lemma trashOld_found (du fid : string) (w : World) :
  Str.firstRun 25 du = Some fid -> is_Some (drive w !! fid) ->
  trashOld (VStr du) w = (Ok tt, withDrive (<[fid := true]> (drive w)) w).
Proof.
  intros Hf [b Hd]. unfold trashOld, tryCatch, bindM, lift, extractFileIdFromUrl.
  destruct (firstRun_Some _ _ _ Hf) as (Hlen & _ & _).
  assert (Hdu : Str.isEmpty du = false).
  { destruct du; [|reflexivity]. vm_compute in Hf. discriminate. }
  cbn [truthy]. rewrite Hdu, Hf. cbn [negb].
  assert (Hfid : Str.isEmpty fid = false).
  { destruct fid; [cbn in Hlen; lia | reflexivity]. }
  rewrite Hfid. unfold trashFile. now rewrite Hd.
Qed.

(** X26.  [updateInvoiceByIdFromData] puts the old document in the trash
    before it resolves the project.  When the row is found, its document
    link names a file of the Drive, and the project of the form does not
    resolve, the update answers failure with that error and leaves the
    sheets and the cache as they were, but the document the row still
    links to is in the trash. *)
Theorem failed_update_trashes_document (w : World) (id : value) (data : FormData)
    (c i : nat) (row : list value) (du fid due : string) (e : exn) :
  let table := getValues (invoices w) in
  let headers := default [] (head table) in
  blankId id = false ->
  indexMapOf headers !! "ID" = Some c ->
  findRow table (Some c) id = Some (i, row) ->
  getIdx row (indexMapOf headers !! "Google Doc Link") = VStr du ->
  Str.firstRun 25 du = Some fid ->
  is_Some (drive w !! fid) ->
  asString (orElse (f_dueDate data) (VStr "01/01/1970")) = Ok due ->
  getProjectDetailsFromRows (getValues (lists w)) (f_projectName data) = Throw e ->
  exists w',
    updateInvoiceByIdFromData id data w = (Ok (Failure e), w') /\
    sheets w' = sheets w /\ cache w' = cache w /\
    drive w' !! fid = Some true.
Proof.
  intros table headers Hb Hc Ef Hdoc Hf Hd Hdue Hp.
  set (Q := fun (r : result outcome) (w' : World) =>
              r = Ok (Failure e) /\ sheets w' = sheets w /\ cache w' = cache w /\
              drive w' !! fid = Some true).
  enough (HQ : wp (updateInvoiceByIdFromData id data) Q w).
  { unfold wp, Q in HQ. destruct (updateInvoiceByIdFromData id data w) as [r w'].
    cbn [fst snd] in HQ. destruct HQ as (-> & HQ). now exists w'. }
  unfold updateInvoiceByIdFromData, updateByHeaders. apply wp_tryCatch.
  rewrite Hb. apply wp_bind, wp_readSheet. cbn [sheetOf]. cbv zeta.
  fold table. fold headers. rewrite Hc, Ef, Hdoc.
  assert (Hdu : orElse (VStr du) (VStr "") = VStr du).
  { destruct du; [vm_compute in Hf; discriminate | reflexivity]. }
  rewrite Hdu. apply wp_bind. unfold wp at 1. rewrite (trashOld_found du fid w Hf Hd).
  cbn [fst snd]. set (w1 := withDrive _ w).
  apply wp_bind. unfold wp at 1.
  pose proof (trashOld_answers
                (orElse (getIdx row (indexMapOf headers !! "PDF Link")) (VStr "")) w1) as Ha.
  pose proof (trashOld_trash
                (orElse (getIdx row (indexMapOf headers !! "PDF Link")) (VStr "")) w1 fid
                ltac:(apply lookup_insert_eq)) as Ht.
  pose proof (keeps_trashOld (fun w0 => (sheets w0, cache w0))
                (orElse (getIdx row (indexMapOf headers !! "PDF Link")) (VStr ""))
                ltac:(quiet) w1) as Hk.
  destruct (trashOld _ w1) as [r2 w2]. cbn [fst snd] in *. subst r2.
  apply pair_equal_spec in Hk. destruct Hk as [Hs2 Hc2].
  rewrite Hdue. apply wp_bind, wp_lift.
  apply wp_bind. unfold getProjectDetailsFromData. apply wp_bind, wp_readSheet.
  cbn [sheetOf].
  assert (El : lists w2 = lists w).
  { unfold sheets in Hs2. now injection Hs2. }
  rewrite El, Hp. apply wp_lift, wp_ret. unfold Q.
  split; [reflexivity|]. split; [exact Hs2|]. split; [exact Hc2 | exact Ht].
Qed.

End HalfwayFacts.

Lemma failed_update_trashes_document_witness :
  drive Sample.created !! "document-0000000000000000-template-acme-standard-0000001"
  = Some false /\
  exists w',
    @updateInvoiceByIdFromData Sample.host (VStr "uuid-0") Sample.unlisted Sample.created
    = (Ok (Failure (ProjectNotFound (VStr "Gamma"))), w') /\
    invoices w' = invoices Sample.created /\
    drive w' !! "document-0000000000000000-template-acme-standard-0000001" = Some true.
Proof.
  split; [vm_compute; reflexivity|].
  destruct (@failed_update_trashes_document Sample.host Sample.created (VStr "uuid-0")
              Sample.unlisted 0 1
              (default [] (getValues (invoices Sample.created) !! 1%nat))
              "https://docs.google.com/document/d/document-0000000000000000-template-acme-standard-0000001/edit"
              "document-0000000000000000-template-acme-standard-0000001"
              "14/02/2024" (ProjectNotFound (VStr "Gamma")))
    as (w' & E & Es & _ & Hd).
  - vm_compute. reflexivity.
  - vm_compute. reflexivity.
  - vm_compute. reflexivity.
  - vm_compute. reflexivity.
  - vm_compute. reflexivity.
  - vm_compute. eexists. reflexivity.
  - reflexivity.
  - vm_compute. reflexivity.
  - exists w'. split; [exact E|]. split; [|exact Hd].
    exact (f_equal (fun p : Sheet * Sheet * Sheet => fst (fst p)) Es).
Defined.

(** ** Reading a credit note back *)

Section CreditNoteReadBack.
Context `{Host}.

Lemma parseItems_at (start cols maxRows W : nat) (pre : list value)
    (its : list (list value)) :
  length pre = start ->
  Forall (fun it => length it = cols) its ->
  Forall (fun it => existsb present it = true) its ->
  (length its <= maxRows)%nat ->
  parseItems start cols maxRows (padRow W (pre ++ concat its)) = its.
Proof.
  intros Hpre Hlen Hpres Hmax. unfold parseItems, padRow, slice.
  set (pad := replicate _ _).
  rewrite (list_fmap_ext _
             (fun i => take cols (drop (i * cols) (concat its ++ pad)))).
  2:{ intros _ i _. rewrite <- app_assoc, <- Hpre, drop_app_add. f_equal. lia. }
  replace maxRows with (length its + (maxRows - length its))%nat at 1 by lia.
  rewrite seq_app, fmap_app, filter_app, chunks_of_concat by assumption.
  rewrite filter_all by assumption. rewrite filter_none; [apply app_nil_r|].
  apply Forall_fmap, Forall_forall. intros i Hi. apply elem_of_seq in Hi.
  cbn [compose]. unfold pad. rewrite blank_chunk by (assumption || lia). discriminate.
Qed.

Lemma credit_item_header_keys (n : nat) (k : string) :
  (forall t, k <> String "R" t) ->
  Forall (fun h => toKey h <> k) (VStr <$> concat (creditNoteItemHeaders <$> seq 1 n)).
Proof.
  intros Hk. apply Forall_fmap, Forall_concat, Forall_fmap, Forall_forall.
  intros i _. unfold creditNoteItemHeaders.
  repeat apply Forall_cons_2; try apply Forall_nil_2;
    cbn [compose toKey]; intros E; exact (Hk _ (eq_sym E)).
Qed.

Lemma creditNote_indexed (W k : nat) (name : string) :
  creditNoteBaseHeaders !! k = Some name ->
  indexMapOf (padRow W creditNoteHeaders) !! name = Some k.
Proof.
  intros Hk.
  assert (Hname : (forall t, name <> String "R" t) /\ name <> ""
                  /\ reduceIndex ∅ 0 (VStr <$> creditNoteBaseHeaders) !! name = Some k).
  { do 18 (destruct k as [|k];
           [injection Hk as <-;
            split; [discriminate|split; [discriminate|vm_compute; reflexivity]]|]).
    discriminate Hk. }
  destruct Hname as (Hrow & Hne & Hbase).
  unfold indexMapOf, padRow, creditNoteHeaders.
  rewrite fmap_app, !reduceIndex_app.
  rewrite reduceIndex_keep.
  2:{ apply Forall_replicate. cbn. congruence. }
  rewrite reduceIndex_keep by now apply credit_item_header_keys.
  exact Hbase.
Qed.

Lemma decode_credit_note (W : nat) (pre : list value) (its : list (list value)) :
  length pre = 18%nat ->
  Forall (fun it => length it = 4%nat) its ->
  Forall (fun it => existsb present it = true) its ->
  (length its <= CREDIT_NOTE_TABLE_MAX_ROWS CONFIG)%nat ->
  decodeCreditNoteRow (padRow W creditNoteHeaders) (padRow W (pre ++ concat its)) =
  {| c_projectName := getAt pre 1;
     c_creditNoteNumber := getAt pre 2;
     c_clientName := getAt pre 3;
     c_clientAddress := getAt pre 4;
     c_clientNumber := getAt pre 5;
     c_creditNoteDate := formatDateForInputFromUtils (getAt pre 6);
     c_tax := getAt pre 7;
     c_subtotal := getAt pre 8;
     c_total := getAt pre 10;
     c_exchangeRate := getAt pre 11;
     c_currency := getAt pre 12;
     c_amountInEUR := getAt pre 13;
     c_ourCompany := getAt pre 14;
     c_comment := getAt pre 15;
     c_items := its |}.
Proof.
  intros Hpre Hlen Hpres Hmax. unfold decodeCreditNoteRow. cbv zeta.
  rewrite parseItems_at by assumption.
  rewrite (creditNote_indexed W 1%nat "Project Name" eq_refl),
    (creditNote_indexed W 2%nat "CN Number" eq_refl),
    (creditNote_indexed W 3%nat "Client Name" eq_refl),
    (creditNote_indexed W 4%nat "Client Address" eq_refl),
    (creditNote_indexed W 5%nat "Client Number" eq_refl),
    (creditNote_indexed W 6%nat "CN Date" eq_refl),
    (creditNote_indexed W 7%nat "Tax Rate (%)" eq_refl),
    (creditNote_indexed W 8%nat "Subtotal" eq_refl),
    (creditNote_indexed W 10%nat "Total" eq_refl),
    (creditNote_indexed W 11%nat "Exchange Rate" eq_refl),
    (creditNote_indexed W 12%nat "Currency" eq_refl),
    (creditNote_indexed W 13%nat "Amount in EUR" eq_refl),
    (creditNote_indexed W 14%nat "Our Company" eq_refl),
    (creditNote_indexed W 15%nat "Comment" eq_refl).
  cbn [getIdx]. now rewrite !getAt_padRow_app by lia.
Qed.

Lemma sameId_texts (t u : string) :
  sameId (VStr t) (VStr u) = Ok (String.eqb t u).
Proof.
  unfold sameId. cbn [looseEq strictEq]. rewrite orb_diag.
  destruct (String.eqb t u) eqn:E; [reflexivity|].
  cbn [toStringM toKey bindR]. now rewrite E.
Qed.

Lemma headedWith_cases (hs : list value) (s : Sheet) :
  s = [] \/ head s = Some hs -> headedWith hs s = hs :: drop 1 s.
Proof.
  destruct s as [|r s]; [reflexivity|].
  intros [E|E]; [discriminate|]. injection E as ->. reflexivity.
Qed.

(** X27.  A credit note written by [processCreditNoteFormFromData] reads
    back under the identifier drawn for it, whether or not the document was
    rendered afterwards: the fields of the form come back as submitted,
    except that the tax rate, the subtotal and the total are the amounts
    computed at the creation, in their fixed notation (the total of the
    form is not stored), the date has gone through [Date], the exchange
    rate and the amount in EUR are kept for the dollar only, and every item
    comes back with its position stamped in its first cell and its period
    quoted.  The stored identifiers are texts other than the new one, the
    items have four cells and there are at most
    [CONFIG.CREDIT_NOTE_TABLE.MAX_ROWS] of them. *)
Theorem credit_note_read_back (w : World) (data : FormData)
    (items : list (list value)) :
  let u := getUuid (drawn w) in
  let a := amountsOf data in
  let w1 := snd (processCreditNoteFormFromData data w) in
  f_items data = Some items ->
  creditNotes w = [] \/ head (creditNotes w) = Some creditNoteHeaders ->
  blankId (VStr u) = false ->
  Forall (fun r => exists t, r !! 0%nat = Some (VStr t) /\ t <> u)
         (drop 1 (creditNotes w)) ->
  Forall (fun it => length it = 4%nat) items ->
  (length items <= CREDIT_NOTE_TABLE_MAX_ROWS CONFIG)%nat ->
  getCreditNoteDataByIdFromData (VStr u) w1 =
  (Ok (Some
         {| c_projectName := f_projectName data;
            c_creditNoteNumber := f_creditNoteNumber data;
            c_clientName := f_clientName data;
            c_clientAddress := f_clientAddress data;
            c_clientNumber := f_clientNumber data;
            c_creditNoteDate :=
              formatDateForInputFromUtils (VDate (newDate (f_creditNoteDate data)));
            c_tax := VStr (Num.toFixed 0 (taxRate a));
            c_subtotal := VStr (Num.toFixed 2 (subtotalNum a));
            c_total := VStr (Num.toFixed 2 (totalAmount a));
            c_exchangeRate :=
              if isDollar data
              then VStr (Num.toFixed 4 (parseFloatV (f_exchangeRate data)))
              else VStr "";
            c_currency := f_currency data;
            c_amountInEUR :=
              if isDollar data
              then VStr (Num.toFixed 2 (parseFloatV (f_amountInEUR data)))
              else VStr "";
            c_ourCompany := orElse (f_ourCompany data) (VStr "");
            c_comment := orElse (f_comment data) (VStr "");
            c_items := imap stampItem items |}),
   w1).
Proof.
  intros u a w1 Hitems Hhead Hblank Hfresh Hshape Hmax.
  pose proof (processCreditNoteFormFromData_outcome data w items Hitems) as Ho.
  cbv zeta in Ho. fold u in Ho.
  set (row := creditNoteRow u data items) in Ho.
  assert (E : exists x y,
             creditNotes w1
             = headedWith creditNoteHeaders (creditNotes w)
               ++ [take 16 row ++ x :: y :: drop 18 row]).
  { unfold w1. destruct (processCreditNoteFormFromData data w) as [[[d p]|e] w'];
      cbn [snd]; destruct Ho as (Ei & _).
    - now exists (VStr d), (VStr p).
    - exists (VStr ""), (VStr ""). exact Ei. }
  destruct E as (x & y & E). rewrite (headedWith_cases _ _ Hhead) in E.
  set (pre := take 16 row ++ [x; y]).
  assert (Er : take 16 row ++ x :: y :: drop 18 row
               = pre ++ concat (imap stampItem items)) by reflexivity.
  rewrite Er in E. clear Er.
  set (tl := drop 1 (creditNotes w)) in *.
  unfold getCreditNoteDataByIdFromData. rewrite Hblank.
  unfold bindM, readSheet. cbn [sheetOf]. rewrite E. cbv zeta.
  set (W := sheetWidth ((creditNoteHeaders :: tl)
                        ++ [pre ++ concat (imap stampItem items)])).
  assert (Ev : getValues ((creditNoteHeaders :: tl)
                          ++ [pre ++ concat (imap stampItem items)])
               = padRow W creditNoteHeaders
                 :: (padRow W <$> tl)
                    ++ [padRow W (pre ++ concat (imap stampItem items))]).
  { cbn [app]. rewrite getValues_nonempty by discriminate.
    change (sheetWidth (creditNoteHeaders :: tl
                        ++ [pre ++ concat (imap stampItem items)])) with W.
    rewrite fmap_cons. f_equal.
    exact (fmap_app (padRow W) tl [pre ++ concat (imap stampItem items)]). }
  rewrite Ev. cbn [head default drop]. unfold id. rewrite drop_0.
  rewrite (creditNote_indexed W 0%nat "ID" eq_refl).
  rewrite (findRowLoosely_first (padRow W <$> tl) []
             (padRow W (pre ++ concat (imap stampItem items))) (Some 0%nat) (VStr u)).
  - unfold ret. do 3 f_equal.
    rewrite decode_credit_note; [reflexivity|reflexivity|..|].
    + apply Forall_imap_any. intros i it Hit. rewrite length_stampItem.
      * revert it Hit. now apply Forall_forall.
      * rewrite Forall_forall in Hshape. rewrite (Hshape it Hit). lia.
    + apply Forall_imap_any. intros i it _. apply stampItem_present.
    + now rewrite length_imap.
  - apply Forall_fmap. eapply Forall_impl; [exact Hfresh|].
    intros r (t & Hr & Hne). cbn [compose getIdx]. unfold getAt, padRow.
    rewrite lookup_app_l by (apply lookup_lt_Some in Hr; exact Hr).
    rewrite Hr. cbn [default]. unfold id. rewrite sameId_texts.
    f_equal. now apply String.eqb_neq.
  - change (getIdx (padRow W (pre ++ concat (imap stampItem items))) (Some 0%nat))
      with (VStr u).
    rewrite sameId_texts. now rewrite String.eqb_refl.
Qed.

End CreditNoteReadBack.

Lemma credit_note_read_back_witness :
  exists c,
    @getCreditNoteDataByIdFromData Sample.host (VStr "uuid-0") Sample.creditNoteCreated
    = (Ok (Some c), Sample.creditNoteCreated) /\
    c_creditNoteNumber c = VStr "CN-3" /\
    c_total c = VStr "115.00" /\
    c_items c = [VStr <$> ["1"; "Refund"; "'Jan 2024"; "100"]].
Proof.
  eexists. split; [|split; [|split]].
  - apply (@credit_note_read_back Sample.host Sample.world
             (Sample.creditNoteForm VUndef "100" "115.00"
                [Sample.creditItem "1" "Refund" "Jan 2024" "100"])
             [Sample.creditItem "1" "Refund" "Jan 2024" "100"]).
    + reflexivity.
    + left. reflexivity.
    + vm_compute. reflexivity.
    + constructor.
    + repeat constructor.
    + vm_compute. lia.
  - reflexivity.
  - vm_compute. reflexivity.
  - vm_compute. reflexivity.
Defined.

(** ** What an update of a credit note leaves *)

Section CreditNoteUpdateFacts.
Context `{Host}.

Ltac quiet := intros ? ?; reflexivity.

(** X28.  [updateCreditNoteByIdFromData] never throws.  When it answers
    success, exactly one row of the credit-note sheet is replaced, the
    first one whose ID cell is strictly equal to the identifier of the
    form, by the row mapped from the header names, the cells the form
    does not map keeping what the row held, with the new links; the other
    rows and sheets stay and the cached list is dropped.  When it answers
    failure, sheets and cache are as they were. *)
Theorem credit_note_update_outcome (data : FormData) (w : World) :
  let table := getValues (creditNotes w) in
  let headers := default [] (head table) in
  match updateCreditNoteByIdFromData data w with
  | (Ok (Success d p), w') =>
      exists c i old,
        indexOf headers (VStr "ID") = Some c /\
        findRow table (Some c) (f_id data) = Some (i, old) /\
        creditNotes w' = <[i := linkedRow headers old data d p]> (creditNotes w) /\
        invoices w' = invoices w /\ lists w' = lists w /\
        cache w' = delete "creditNoteList" (cache w)
  | (Ok (Failure e), w') => sheets w' = sheets w /\ cache w' = cache w
  | (Throw e, w') => False
  end.
Proof.
  intros table headers.
  set (Q := fun (r : result outcome) (w' : World) =>
              match r with
              | Ok (Success d p) =>
                  exists c i old,
                    indexOf headers (VStr "ID") = Some c /\
                    findRow table (Some c) (f_id data) = Some (i, old) /\
                    creditNotes w'
                    = <[i := linkedRow headers old data d p]> (creditNotes w) /\
                    invoices w' = invoices w /\ lists w' = lists w /\
                    cache w' = delete "creditNoteList" (cache w)
              | Ok (Failure e) => sheets w' = sheets w /\ cache w' = cache w
              | Throw e => False
              end).
  enough (HQ : wp (updateCreditNoteByIdFromData data) Q w).
  { unfold wp in HQ.
    destruct (updateCreditNoteByIdFromData data w) as [[[d p|e]|e] w']; exact HQ. }
  set (core := fun w0 : World => (sheets w0, cache w0)).
  assert (Hno : forall w' e, core w' = core w -> Q (Ok (Failure e)) w').
  { unfold core. intros w' e E. now apply pair_equal_spec in E. }
  unfold updateCreditNoteByIdFromData. apply wp_tryCatch.
  destruct (negb _); [apply wp_ret; now apply Hno|].
  apply wp_bind, wp_readSheet. cbv zeta. cbn [sheetOf]. fold table. fold headers.
  destruct (indexOf headers (VStr "ID")) as [c|] eqn:Hc;
    [|apply wp_throw, wp_ret; now apply Hno].
  destruct (findRow table (Some c) (f_id data)) as [[i old]|] eqn:Ef;
    [|apply wp_ret; now apply Hno].
  apply wp_bind. apply (wp_keeps core); [apply keeps_trashOld; quiet|].
  intros [[]|e] w1 E1; [|apply wp_ret; now apply Hno].
  apply wp_bind. apply (wp_keeps core); [apply keeps_trashOld; quiet|].
  intros [[]|e] w2 E2; [|apply wp_ret; apply Hno; now rewrite E2].
  apply wp_bind. apply (wp_keeps core); [apply keeps_getProjectDetailsFromData|].
  intros [details|e] w3 E3; [|apply wp_ret; apply Hno; now rewrite E3, E2].
  apply wp_bind. apply (wp_keeps core); [apply keeps_getProjectFolderId|].
  intros [folderId|e] w4 E4; [|apply wp_ret; apply Hno; now rewrite E4, E3, E2].
  apply wp_bind. apply (wp_keeps core); [apply keeps_createCreditNoteDoc; quiet|].
  intros [doc|e] w5 E5;
    [|apply wp_ret; apply Hno; now rewrite E5, E4, E3, E2].
  apply wp_bind. apply (wp_keeps core); [apply keeps_savePdf|].
  intros [pdfUrl|e] w6 E6;
    [|apply wp_ret; apply Hno; now rewrite E6, E5, E4, E3, E2].
  assert (E : core w6 = core w) by now rewrite E6, E5, E4, E3, E2.
  unfold core in E. apply pair_equal_spec in E. destruct E as [Es Ec].
  apply wp_bind. unfold setRowOfWidth.
  destruct (_ =? _)%nat eqn:Hw;
    [|apply wp_throw, wp_ret; apply Hno; unfold core; now rewrite Es, Ec].
  apply Nat.eqb_eq in Hw.
  apply wp_writeSheet. apply wp_bind, wp_cacheRemove. apply wp_ret.
  cbn [Q]. exists c, i, old. split; [reflexivity|]. split; [exact Ef|].
  assert (Es' := Es). unfold sheets in Es'.
  apply pair_equal_spec in Es'. destruct Es' as [Es' El].
  apply pair_equal_spec in Es'. destruct Es' as [Ei En].
  cbn [withCache withSheet sheetOf creditNotes invoices lists cache].
  rewrite En, Ei, El, Ec. repeat split.
  destruct (findRow_sheet _ _ _ _ _ Ef) as (Hi & Hs).
  destruct (lookup_lt_is_Some_2 (creditNotes w) i) as [raw Hraw]; [lia|].
  apply (setRow_replace _ _ raw); [exact Hraw|].
  rewrite Hw.
  change (length headers) with (tableWidth (creditNotes w)).
  rewrite (tableWidth_nonempty _ Hs). now apply (sheetWidth_row _ i).
Qed.

End CreditNoteUpdateFacts.

(** ** Reading back what an update has written *)

Section UpdateReadBack.
Context `{Host}.

Lemma store_app_l (a b : list value) (k : nat) (v : value) :
  (k < length a)%nat -> store (a ++ b) k v = store a k v ++ b.
Proof.
  intros Hk. unfold store. rewrite length_app.
  destruct (Nat.ltb_spec k (length a + length b)) as [_|]; [|lia].
  destruct (Nat.ltb_spec k (length a)) as [_|]; [|lia].
  now apply insert_app_l.
Qed.

Lemma length_store_lt (a : list value) (k : nat) (v : value) :
  (k < length a)%nat -> length (store a k v) = length a.
Proof.
  intros Hk. unfold store. destruct (Nat.ltb_spec k (length a)) as [_|]; [|lia].
  apply length_insert.
Qed.

Lemma findRowFrom_insert (rows : list (list value)) (k : option nat) (id : value)
    (r : list value) :
  strictEq (getIdx r k) id = true ->
  forall i0 i row,
    findRowFrom i0 rows k id = Some (i, row) ->
    findRowFrom i0 (<[(i - i0)%nat := r]> rows) k id = Some (i, r).
Proof.
  intros Hr. induction rows as [|x rows IH]; intros i0 i row; cbn [findRowFrom];
    [discriminate|].
  destruct (strictEq (getIdx x k) id) eqn:Ex.
  - intros E. injection E as <- <-. rewrite Nat.sub_diag. cbn. now rewrite Hr.
  - intros E. destruct (findRowFrom_Some _ _ _ _ _ _ E) as (Hle & _ & _).
    replace (i - i0)%nat with (S (i - S i0)) by lia. cbn. rewrite Ex.
    now apply (IH _ _ row).
Qed.

Lemma sheetWidth_insert (s : list (list value)) (i : nat) (r : list value) :
  (i < length s)%nat -> length r = sheetWidth s ->
  sheetWidth (<[i := r]> s) = sheetWidth s.
Proof.
  intros Hi Hr. unfold sheetWidth. rewrite list_fmap_insert. fold (sheetWidth s).
  rewrite Hr. apply max_list_insert_top; [reflexivity|]. now rewrite length_fmap.
Qed.

Lemma indexOf_firstItem (W : nat) :
  (0 < MAX_ROWS)%nat ->
  indexOf (padRow W invoiceHeaders) (VStr "Row 1 #") = Some 21%nat.
Proof.
  intros Hm. unfold invoiceHeaders. destruct MAX_ROWS as [|m]; [lia|]. reflexivity.
Qed.

Lemma length_invoiceHeaders : length invoiceHeaders = (21 + MAX_ROWS * 6)%nat.
Proof.
  assert (Hn : forall m k, length (concat (invoiceItemHeaders <$> seq k m)) = (m * 6)%nat).
  { induction m as [|m IH]; intros k; [reflexivity|].
    cbn [seq fmap list_fmap concat]. rewrite length_app, IH. reflexivity. }
  unfold invoiceHeaders. rewrite length_fmap, length_app, Hn. reflexivity.
Qed.


Lemma rowByHeaders_written (W : nat) (id : value) (data : FormData) (due : value)
    (docUrl pdfUrl : string) (items : list (list value)) :
  f_items data = Some items ->
  (0 < MAX_ROWS)%nat -> (0 < COLUMNS_PER_ROW <= 6)%nat ->
  Forall (fun it => length it = COLUMNS_PER_ROW) items ->
  (length items <= MAX_ROWS)%nat ->
  (length invoiceHeaders <= W)%nat ->
  rowByHeaders (padRow W invoiceHeaders) id data due docUrl pdfUrl
  = padRow W (updatedBase id data due docUrl pdfUrl ++ concat (imap stampItem items)).
Proof.
  intros Hitems Hm Hc Hshape Hmax HW.
  pose proof length_invoiceHeaders as Hh.
  pose proof (baseIndexed_headers W) as HB.
  assert (Hflat : length (concat (imap stampItem items))
                  = (length items * COLUMNS_PER_ROW)%nat).
  { rewrite (length_concat_uniform COLUMNS_PER_ROW), length_imap; [reflexivity|].
    apply Forall_imap_any. intros i it Hit. rewrite Forall_forall in Hshape.
    rewrite length_stampItem; rewrite (Hshape it Hit); [reflexivity|lia]. }
  unfold rowByHeaders. cbv zeta.
  rewrite (indexOf_firstItem W Hm), Hitems. cbn [default].
  rewrite (HB 0%nat "ID" eq_refl),
    (HB 1%nat "Project Name" eq_refl), (HB 2%nat "Invoice Number" eq_refl),
    (HB 3%nat "Client Name" eq_refl), (HB 4%nat "Client Address" eq_refl),
    (HB 5%nat "Client Number" eq_refl), (HB 6%nat "Invoice Date" eq_refl),
    (HB 7%nat "Due Date" eq_refl), (HB 8%nat "Tax Rate (%)" eq_refl),
    (HB 9%nat "Subtotal" eq_refl), (HB 10%nat "Tax Amount" eq_refl),
    (HB 11%nat "Total" eq_refl),
    (HB 12%nat "Exchange Rate" eq_refl), (HB 13%nat "Currency" eq_refl),
    (HB 14%nat "Amount in EUR" eq_refl), (HB 15%nat "Bank Details 1" eq_refl),
    (HB 16%nat "Bank Details 2" eq_refl), (HB 17%nat "Our Company" eq_refl),
    (HB 18%nat "Comment" eq_refl), (HB 19%nat "Google Doc Link" eq_refl),
    (HB 20%nat "PDF Link" eq_refl).
  cbn [storeIdx]. rewrite length_padRow by exact HW.
  unfold Datatypes.id.
  replace (replicate W (VStr ""))
    with (replicate 21 (VStr "") ++ replicate (W - 21) (VStr ""))
    by (rewrite <- replicate_add; f_equal; lia).
  rewrite !store_app_l by (lazy; lia).
  match goal with
  | |- context [store ?r 20%nat ?v] =>
      change (store r 20%nat v) with (updatedBase id data due docUrl pdfUrl)
  end.
  set (base := updatedBase id data due docUrl pdfUrl).
  assert (Hbase : length base = 21%nat) by reflexivity.
  set (cap := (MAX_ROWS * COLUMNS_PER_ROW)%nat).
  assert (Hcap : (21 + cap <= W)%nat) by (unfold cap; nia).
  assert (Hfit : length (fitTo cap (stampedCells items)) = cap).
  { unfold fitTo. rewrite length_app, length_take, length_replicate. lia. }
  rewrite writeItems_block.
  2:{ rewrite length_app, length_replicate, Hbase. lia. }
  2:{ rewrite Hfit. lia. }
  rewrite Nat.add_0_r, Hfit.
  rewrite (take_app_length' base _ 21 Hbase).
  rewrite (drop_app_add' base _ 21) by exact Hbase.
  rewrite drop_replicate.
  unfold fitTo, stampedCells, padRow.
  rewrite take_ge by (rewrite Hflat; unfold cap; nia).
  rewrite <- !app_assoc. do 2 f_equal.
  rewrite <- replicate_add. f_equal.
  rewrite length_app, Hflat, Hbase.
  assert (length items * COLUMNS_PER_ROW <= cap)%nat by (unfold cap; nia). lia.
Qed.

Lemma padRow_full (W : nat) (r : list value) : length r = W -> padRow W r = r.
Proof.
  intros <-. unfold padRow. rewrite Nat.sub_diag. cbn [replicate]. apply app_nil_r.
Qed.

(** X29.  After a successful [updateInvoiceByIdFromData] on a sheet
    that has the header of [processFormFromData], with at most
    [MAX_ROWS] items of [COLUMNS_PER_ROW] cells each (at most the six
    columns the header gives an item), reading the invoice back by the
    same identifier gives the submitted form: the texts as submitted,
    the dates through the date functions (the due date of 01/01/1970
    where none was submitted), the amounts in fixed notation, the total
    computed from subtotal and rate, and the items in order, each with
    its position in the first cell and its period quoted. *)
Theorem read_back_after_update (w w' : World) (u : string) (data : FormData)
    (items : list (list value)) (due d p : string) :
  let a := amountsOf data in
  head (invoices w) = Some invoiceHeaders ->
  f_items data = Some items ->
  f_dueDate data = VStr due ->
  (0 < MAX_ROWS)%nat -> (0 < COLUMNS_PER_ROW <= 6)%nat ->
  Forall (fun it => length it = COLUMNS_PER_ROW) items ->
  (length items <= MAX_ROWS)%nat ->
  updateInvoiceByIdFromData (VStr u) data w = (Ok (Success d p), w') ->
  getInvoiceDataByIdFromData (VStr u) w' =
  (Ok (Some
         {| i_projectName := f_projectName data;
            i_invoiceNumber := f_invoiceNumber data;
            i_clientName := f_clientName data;
            i_clientAddress := f_clientAddress data;
            i_clientNumber := f_clientNumber data;
            i_invoiceDate :=
              formatDateForInputFromUtils (VDate (newDate (f_invoiceDate data)));
            i_dueDate :=
              formatDateForInputFromUtils
                (dueDateOf (if Str.isEmpty due then "01/01/1970" else due));
            i_tax := VStr (Num.toFixed 0 (taxRate a));
            i_subtotal := VStr (Num.toFixed 2 (subtotalNum a));
            i_total := VStr (Num.toFixed 2 (totalAmount a));
            i_exchangeRate :=
              if isDollar data
              then VStr (Num.toFixed 4
                           (parseFloatV (orElse (f_exchangeRate data) (VNum Num.zero))))
              else VStr "";
            i_currency := f_currency data;
            i_amountInEUR :=
              if isDollar data
              then VStr (Num.toFixed 2
                           (parseFloatV (orElse (f_amountInEUR data) (VNum Num.zero))))
              else VStr "";
            i_bankDetails1 := f_bankDetails1 data;
            i_bankDetails2 := f_bankDetails2 data;
            i_ourCompany := orElse (f_ourCompany data) (VStr "");
            i_comment := orElse (f_comment data) (VStr "");
            i_items := imap stampItem items |}),
   w').
Proof.
  intros a Hhead Hitems Hdue Hm Hc Hshape Hmax Hrun.
  assert (Hblank : blankId (VStr u) = false).
  { destruct (blankId (VStr u)) eqn:E; [|reflexivity].
    unfold updateInvoiceByIdFromData, updateByHeaders in Hrun. rewrite E in Hrun.
    discriminate Hrun. }
  pose proof (updateByHeaders_outcome INVOICES "Invalid invoice ID provided"
                "Invoice not found." "_Invoice" "invoiceList" (VStr u) data w) as Ho.
  cbv zeta in Ho. unfold updateInvoiceByIdFromData in Hrun. rewrite Hrun in Ho.
  destruct Ho as (c & i & row & dueText & Hcol & Ef & Hd & Es & _ & _).
  cbn [sheetOf] in *.
  destruct (invoices w) as [|hd tl] eqn:Ew; [discriminate Hhead|].
  injection Hhead as ->.
  set (s := invoiceHeaders :: tl) in *. set (W := sheetWidth s) in *.
  assert (HW : (length invoiceHeaders <= W)%nat) by now apply (sheetWidth_row s 0).
  rewrite getValues_nonempty in * by discriminate. fold W in Hcol, Ef, Es.
  change (default [] (head (padRow W <$> s))) with (padRow W invoiceHeaders) in *.
  rewrite (baseIndexed_headers W 0%nat "ID" eq_refl) in Hcol. injection Hcol as <-.
  rewrite Hdue in Hd. unfold orElse in Hd. cbn [truthy] in Hd.
  assert (Et : dueText = if Str.isEmpty due then "01/01/1970" else due)
    by (destruct (Str.isEmpty due); now injection Hd).
  subst dueText. clear Hd.
  rewrite (rowByHeaders_written W _ _ _ _ _ items) in Es by assumption.
  set (base := updatedBase _ _ _ _ _) in Es.
  set (R := padRow W (base ++ concat (imap stampItem items))) in Es.
  assert (Hflat : Forall (fun it => length it = COLUMNS_PER_ROW) (imap stampItem items)).
  { apply Forall_imap_any. intros k it Hit. rewrite Forall_forall in Hshape.
    rewrite length_stampItem; rewrite (Hshape it Hit); [reflexivity|lia]. }
  assert (HR : length R = W).
  { apply length_padRow. rewrite length_app, (length_concat_uniform _ _ Hflat), length_imap.
    pose proof length_invoiceHeaders. change (length base) with 21%nat. nia. }
  destruct (findRow_Some _ _ _ _ _ Ef) as (Hi & Hrow & _).
  pose proof (lookup_lt_Some _ _ _ Hrow) as Hlt. rewrite length_fmap in Hlt.
  unfold getInvoiceDataByIdFromData. rewrite Hblank.
  unfold bindM, readSheet. cbn [sheetOf]. rewrite Es. cbv zeta.
  unfold Sheet in *.
  match goal with
  | |- context [getValues ?x] =>
      assert (Et : getValues x = <[i := R]> (padRow W <$> s))
  end.
  { rewrite getValues_nonempty.
    - rewrite (sheetWidth_insert s i R Hlt HR). fold W.
      now rewrite list_fmap_insert, (padRow_full W R HR).
    - intros E. apply (f_equal length) in E. rewrite length_insert in E. discriminate E. }
  rewrite Et.
  assert (Eh : default [] (head (<[i := R]> (padRow W <$> s))) = padRow W invoiceHeaders).
  { destruct i as [|i]; [lia|reflexivity]. }
  rewrite Eh, (baseIndexed_headers W 0%nat "ID" eq_refl).
  unfold findRow in *. rewrite drop_insert_ge by exact Hi.
  rewrite (findRowFrom_insert _ _ _ R) with (row := row); [| |exact Ef].
  2:{ cbn [getIdx]. unfold R. rewrite getAt_padRow_app by (cbn; lia).
      cbn. apply String.eqb_refl. }
  unfold ret. do 3 f_equal. unfold R.
  rewrite decode_written; [reflexivity|apply baseIndexed_headers|reflexivity|exact Hflat|..].
  - apply Forall_imap_any. intros k it _. apply stampItem_present.
  - now rewrite length_imap.
Qed.

End UpdateReadBack.

Lemma read_back_after_update_witness :
  exists d,
    Sample.answer (@getInvoiceDataByIdFromData Sample.host (VStr "uuid-0"))
      (Sample.after
         (@updateInvoiceByIdFromData Sample.host (VStr "uuid-0")
            (Sample.invoiceForm "250" (Sample.oneItem ++ Sample.oneItem)))
         Sample.created)
    = Ok (Some d) /\
    i_subtotal d = VStr "250.00" /\ i_total d = VStr "287.50" /\
    length (i_items d) = 2%nat.
Proof.
  pose proof (@read_back_after_update Sample.host Sample.created
                (Sample.after
                   (@updateInvoiceByIdFromData Sample.host (VStr "uuid-0")
                      (Sample.invoiceForm "250" (Sample.oneItem ++ Sample.oneItem)))
                   Sample.created)
                "uuid-0"
                (Sample.invoiceForm "250" (Sample.oneItem ++ Sample.oneItem))
                (Sample.oneItem ++ Sample.oneItem) "14/02/2024"
                "https://docs.google.com/document/d/document-0000000000000000-template-acme-standard-0000001/edit"
                "https://drive.google.com/file/d/pdf-file-00000000000000000000/2024-01-15_InvoiceINV-7_Ours GmbH-Acme Ltd.pdf")
    as E.
  cbv zeta in E.
  specialize (E ltac:(vm_compute; reflexivity) eq_refl eq_refl
                ltac:(vm_compute; lia) ltac:(vm_compute; lia)
                ltac:(vm_compute; repeat constructor) ltac:(vm_compute; lia)
                ltac:(vm_compute; reflexivity)).
  eexists. split.
  - exact (f_equal fst E).
  - vm_compute. repeat split.
Defined.
